(** * Attendance aggregation and payroll derivation (sss-solutions)

    A shallow embedding of the TypeScript sources

      - src/hooks/useEmployeeAttendance.ts
      - src/lib/pdf/attendanceStats.ts
      - src/components/GenerateReportsDialog.tsx
      - src/lib/pdf/payslipLayout.ts

    together with the small part of the JavaScript runtime they call
    (number coercion, [JSON.parse], [Math.round], local [Date] arithmetic,
    string padding).

    Number model.  A JavaScript number is modelled by the rational it
    denotes ([Q]); [NaN] only ever appears as the result of a coercion
    and is modelled as [None]; the infinities and the sign of zero are
    not modelled.  The arithmetic comes in two readings.  The
    aggregators, the report filter and the integral PF and ESI shares
    are written with exact sums and products.  Where the rounding of
    a sum or of a product decides the result, the code is also
    written in binary64 arithmetic ([Binary64]): the monetary figures
    rounded from products of amounts with fractions ([Reports64],
    [Payslip64]), the sums of the single-employee hook
    ([Attendance64]) and the overtime of a daily record
    ([PdfStats64]).  There every sum, product and quotient is rounded
    to the nearest double, as at run time, and the literal [0.12] is
    the double nearest to 3/25. *)

From Stdlib Require Import ZArith QArith Qround Qabs Qpower String Ascii List Bool Lia Lqa
  DecimalString.
From Stdlib Require DecimalPos.
From stdpp Require Import gmap strings.
Import ListNotations.

Local Open Scope Z_scope.

(** ** The JavaScript runtime *)

Module JS.

(** *** Numbers *)

(** Truthiness of a number: [0] is falsy (so is [NaN], handled by the
    callers through [option]). *)
Definition truthy (x : Q) : bool := negb (Qeq_bool x 0).

(** [x || 0] for a numeric [x] that may be [NaN]. *)
Definition or_zero (x : option Q) : Q :=
  match x with
  | Some q => if truthy q then q else 0%Q
  | None => 0%Q
  end.

(** [x > y] on numbers. *)
Definition gt (x y : Q) : bool := negb (Qle_bool x y).

(** [Math.round]: the integer closest to [x], ties going toward
    positive infinity (ECMA-262, Math.round). *)
Definition Math_round (x : Q) : Z := Qfloor (x + (1 # 2))%Q.

(** [Math.min] on integral numbers. *)
Definition Math_min (a b : Z) : Z := Z.min a b.

(** Rounding half away from zero, as the specification words it: the
    nearest integer, a tie going to the one of larger magnitude.  Kept
    apart from [Math_round] to compare the two. *)
Definition round_half_away_from_zero (x : Q) : Z :=
  if Qle_bool 0 x then Qfloor (x + (1 # 2))%Q else - Qfloor (- x + (1 # 2))%Q.

(** *** Characters and digits *)

Definition ch (n : nat) : ascii := ascii_of_nat n.

Definition is_digit (c : ascii) : bool :=
  let n := nat_of_ascii c in (48 <=? n)%nat && (n <=? 57)%nat.

Definition digit_val (c : ascii) : Z := Z.of_nat (nat_of_ascii c) - 48.

Definition hex_val (c : ascii) : option Z :=
  let n := Z.of_nat (nat_of_ascii c) in
  if (48 <=? n) && (n <=? 57) then Some (n - 48)
  else if (65 <=? n) && (n <=? 70) then Some (n - 55)
  else if (97 <=? n) && (n <=? 102) then Some (n - 87)
  else None.

(** StrWhiteSpaceChar, restricted to the one-byte characters. *)
Definition is_space (c : ascii) : bool :=
  let n := nat_of_ascii c in
  (n =? 32)%nat || ((9 <=? n)%nat && (n <=? 13)%nat).

(** Reads a maximal run of decimal digits; returns the accumulated
    value, the number of digits read and the rest of the input. *)
Fixpoint take_digits (s : list ascii) (acc : Z) (n : Z) : Z * Z * list ascii :=
  match s with
  | c :: r => if is_digit c then take_digits r (10 * acc + digit_val c) (n + 1)
              else (acc, n, s)
  | [] => (acc, n, [])
  end.

Fixpoint take_radix (radix : Z) (s : list ascii) (acc : Z) (n : Z) : Z * Z * list ascii :=
  match s with
  | c :: r =>
      match hex_val c with
      | Some d => if d <? radix then take_radix radix r (radix * acc + d) (n + 1)
                  else (acc, n, s)
      | None => (acc, n, s)
      end
  | [] => (acc, n, [])
  end.

Fixpoint drop_space (s : list ascii) : list ascii :=
  match s with
  | c :: r => if is_space c then drop_space r else s
  | [] => []
  end.

Definition trim (s : list ascii) : list ascii :=
  rev (drop_space (rev (drop_space s))).

(** [m * 10^e] as a reduced rational. *)
Definition scale10 (m e : Z) : Q := Qred (inject_Z m * Qpower 10 e)%Q.

Definition eqc (c : ascii) (n : nat) : bool := (nat_of_ascii c =? n)%nat.

(** Optional exponent part [e[+-]ddd]; [None] when an [e] is not
    followed by at least one digit. *)
Definition take_exponent (s : list ascii) : option (Z * list ascii) :=
  match s with
  | c :: r =>
      if eqc c 101 || eqc c 69 then
        let '(neg, r1) :=
          match r with
          | d :: r' => if eqc d 45 then (true, r')
                       else if eqc d 43 then (false, r') else (false, r)
          | [] => (false, r)
          end in
        let '(e, n, r2) := take_digits r1 0 0 in
        if n =? 0 then None else Some (if neg then - e else e, r2)
      else Some (0, s)
  | [] => Some (0, [])
  end.

(** StrDecimalLiteral without the [Infinity] alternative, unsigned:
    [ddd], [ddd.], [ddd.ddd], [.ddd], each with an optional exponent.
    The whole input has to be consumed. *)
Definition unsigned_decimal (s : list ascii) : option Q :=
  let '(i, ni, r) := take_digits s 0 0 in
  let '(m, nf, r1) :=
    match r with
    | c :: r' => if eqc c 46 then take_digits r' i 0 else (i, 0, r)
    | [] => (i, 0, r)
    end in
  if (ni + nf =? 0) then None
  else match take_exponent r1 with
       | Some (e, []) => Some (scale10 m (e - nf))
       | _ => None
       end.

(** StringToNumber (ECMA-262 7.1.4.1.1) without the infinities:
    [None] is [NaN]. *)
Definition StringToNumber (str : string) : option Q :=
  match trim (list_ascii_of_string str) with
  | [] => Some 0%Q
  | c :: r =>
      if eqc c 45 then option_map Qopp (unsigned_decimal r)
      else if eqc c 43 then unsigned_decimal r
      else
        match r with
        | x :: r' =>
            let radix :=
              if negb (eqc c 48) then 0
              else if eqc x 120 || eqc x 88 then 16
              else if eqc x 111 || eqc x 79 then 8
              else if eqc x 98 || eqc x 66 then 2
              else 0 in
            if radix =? 0 then unsigned_decimal (c :: r)
            else match take_radix radix r' 0 0 with
                 | (v, n, []) => if n =? 0 then None else Some (inject_Z v)
                 | _ => None
                 end
        | [] => unsigned_decimal (c :: r)
        end
  end.

(** [parseInt(str, 10)]: leading white space, an optional sign, then the
    longest run of digits; what follows is ignored.  [None] is [NaN]. *)
Definition parseInt (str : string) : option Z :=
  let s := drop_space (list_ascii_of_string str) in
  let '(neg, r) :=
    match s with
    | c :: r' => if eqc c 45 then (true, r')
                 else if eqc c 43 then (false, r') else (false, s)
    | [] => (false, s)
    end in
  let '(v, n, _) := take_digits r 0 0 in
  if n =? 0 then None else Some (if neg then - v else v).

(** *** JSON values and [JSON.parse] *)

#[local] Set Warnings "-register-all".

Inductive json : Type :=
| JNull
| JBool (b : bool)
| JNum (q : Q)
| JStr (s : string)
| JArr (items : list json)
| JObj (members : list (string * json)).

(** A JavaScript value read from a parsed document or a database row:
    [None] is [undefined]. *)
Definition jsval := option json.

(** Own property of a parsed object; when a key is repeated in the
    text the last occurrence is the one [JSON.parse] keeps. *)
Fixpoint get_member (key : string) (members : list (string * json)) : jsval :=
  match members with
  | [] => None
  | (k, v) :: rest =>
      match get_member key rest with
      | Some w => Some w
      | None => if String.eqb k key then Some v else None
      end
  end.

(** [typeof v === 'object' && v !== null]. *)
Definition is_object (v : json) : bool :=
  match v with
  | JArr _ | JObj _ => true
  | _ => false
  end.

(** [v.key] for a parsed value [v] and one of the attendance keys:
    [null] has no properties (TypeError, [None]); primitives and arrays
    do not have the key ([undefined]). *)
Definition get_prop (v : json) (key : string) : option jsval :=
  match v with
  | JNull => None
  | JObj members => Some (get_member key members)
  | _ => Some None
  end.

(** ToNumber on a parsed value.  An array goes through its string
    form: [[]] is the empty string, a one-element array is its
    element's string form, and longer arrays contain a comma; a plain
    object prints as [[object Object]]. *)
Fixpoint ToNumber (v : json) : option Q :=
  match v with
  | JNull => Some 0%Q
  | JBool b => Some (if b then 1%Q else 0%Q)
  | JNum q => Some q
  | JStr s => StringToNumber s
  | JArr [] => Some 0%Q
  | JArr [x] =>
      match x with
      | JNull => Some 0%Q
      | JBool _ => None
      | JNum q => Some q
      | JStr s => StringToNumber s
      | JArr _ => ToNumber x
      | JObj _ => None
      end
  | JArr _ => None
  | JObj _ => None
  end.

(** [Number(v)] for a possibly undefined [v]. *)
Definition Number (v : jsval) : option Q :=
  match v with
  | Some j => ToNumber j
  | None => None
  end.

(** Truthiness of a value. *)
Definition ToBoolean (v : jsval) : bool :=
  match v with
  | None => false
  | Some JNull => false
  | Some (JBool b) => b
  | Some (JNum q) => truthy q
  | Some (JStr s) => negb (String.eqb s "")
  | Some _ => true
  end.

Definition json_space (c : ascii) : bool :=
  eqc c 32 || eqc c 9 || eqc c 10 || eqc c 13.

Fixpoint skip_ws (s : list ascii) : list ascii :=
  match s with
  | c :: r => if json_space c then skip_ws r else s
  | [] => []
  end.

Fixpoint strip_prefix (p s : list ascii) : option (list ascii) :=
  match p, s with
  | [], _ => Some s
  | a :: p', b :: s' => if Ascii.eqb a b then strip_prefix p' s' else None
  | _ :: _, [] => None
  end.

(** UTF-8 bytes of a code unit given by a [\uXXXX] escape. *)
Definition utf8 (u : Z) : list ascii :=
  let byte z := ascii_of_nat (Z.to_nat z) in
  if u <? 128 then [byte u]
  else if u <? 2048 then [byte (192 + u / 64); byte (128 + u mod 64)]
  else [byte (224 + u / 4096); byte (128 + (u / 64) mod 64); byte (128 + u mod 64)].

Definition simple_escape (c : ascii) : option ascii :=
  if eqc c 34 then Some (ch 34)
  else if eqc c 92 then Some (ch 92)
  else if eqc c 47 then Some (ch 47)
  else if eqc c 98 then Some (ch 8)
  else if eqc c 102 then Some (ch 12)
  else if eqc c 110 then Some (ch 10)
  else if eqc c 114 then Some (ch 13)
  else if eqc c 116 then Some (ch 9)
  else None.

Definition hex4 (a b c d : ascii) : option Z :=
  match hex_val a, hex_val b, hex_val c, hex_val d with
  | Some x, Some y, Some z, Some w => Some (4096 * x + 256 * y + 16 * z + w)
  | _, _, _, _ => None
  end.

(** Body of a string literal, after the opening quote. *)
Fixpoint parse_string_chars (s : list ascii) (acc : list ascii)
  : option (string * list ascii) :=
  match s with
  | [] => None
  | c :: r =>
      if eqc c 34 then Some (string_of_list_ascii (rev acc), r)
      else if eqc c 92 then
        match r with
        | e :: r1 =>
            match simple_escape e with
            | Some x => parse_string_chars r1 (x :: acc)
            | None =>
                if eqc e 117 then
                  match r1 with
                  | h1 :: h2 :: h3 :: h4 :: r5 =>
                      match hex4 h1 h2 h3 h4 with
                      | Some u => parse_string_chars r5 (rev (utf8 u) ++ acc)
                      | None => None
                      end
                  | _ => None
                  end
                else None
            end
        | [] => None
        end
      else if (nat_of_ascii c <? 32)%nat then None
      else parse_string_chars r (c :: acc)
  end.

(** A JSON number: [-? (0 | [1-9] digits) (. digits+)? ([eE] [+-]? digits+)?]. *)
Definition parse_number (s : list ascii) : option (Q * list ascii) :=
  let '(neg, r) :=
    match s with
    | c :: r' => if eqc c 45 then (true, r') else (false, s)
    | [] => (false, s)
    end in
  let '(i, ni, r1) := take_digits r 0 0 in
  let leading_zero :=
    match r with
    | c :: _ => eqc c 48 && (1 <? ni)
    | [] => false
    end in
  if (ni =? 0) || leading_zero then None
  else
    let frac :=
      match r1 with
      | c :: r' =>
          if eqc c 46 then
            let '(m, nf, r2) := take_digits r' i 0 in
            if nf =? 0 then None else Some (m, nf, r2)
          else Some (i, 0, r1)
      | [] => Some (i, 0, r1)
      end in
    match frac with
    | None => None
    | Some (m, nf, r2) =>
        match take_exponent r2 with
        | Some (e, r3) =>
            let v := scale10 m (e - nf) in
            Some (if neg then Qopp v else v, r3)
        | None => None
        end
    end.

(** Recursive descent over the text.  Every call consumes at least one
    character before it recurses, so a budget of twice the length of
    the text plus one is never exhausted. *)
Fixpoint parse_value (fuel : nat) (s : list ascii) {struct fuel}
  : option (json * list ascii) :=
  match fuel with
  | O => None
  | S f =>
      let s0 := skip_ws s in
      match s0 with
      | [] => None
      | c :: r =>
          if eqc c 123 then
            match skip_ws r with
            | d :: r' => if eqc d 125 then Some (JObj [], r')
                         else parse_members f (d :: r') []
            | [] => None
            end
          else if eqc c 91 then
            match skip_ws r with
            | d :: r' => if eqc d 93 then Some (JArr [], r')
                         else parse_elements f (d :: r') []
            | [] => None
            end
          else if eqc c 34 then
            match parse_string_chars r [] with
            | Some (str, r') => Some (JStr str, r')
            | None => None
            end
          else
            match strip_prefix (list_ascii_of_string "null") s0 with
            | Some r' => Some (JNull, r')
            | None =>
            match strip_prefix (list_ascii_of_string "true") s0 with
            | Some r' => Some (JBool true, r')
            | None =>
            match strip_prefix (list_ascii_of_string "false") s0 with
            | Some r' => Some (JBool false, r')
            | None =>
            match parse_number s0 with
            | Some (q, r') => Some (JNum q, r')
            | None => None
            end end end end
      end
  end
with parse_elements (fuel : nat) (s : list ascii) (acc : list json) {struct fuel}
  : option (json * list ascii) :=
  match fuel with
  | O => None
  | S f =>
      match parse_value f s with
      | Some (v, r) =>
          match skip_ws r with
          | c :: r' =>
              if eqc c 44 then parse_elements f r' (v :: acc)
              else if eqc c 93 then Some (JArr (rev (v :: acc)), r')
              else None
          | [] => None
          end
      | None => None
      end
  end
with parse_members (fuel : nat) (s : list ascii) (acc : list (string * json))
  {struct fuel} : option (json * list ascii) :=
  match fuel with
  | O => None
  | S f =>
      match skip_ws s with
      | q :: r =>
          if eqc q 34 then
            match parse_string_chars r [] with
            | Some (k, r1) =>
                match skip_ws r1 with
                | c :: r2 =>
                    if eqc c 58 then
                      match parse_value f r2 with
                      | Some (v, r3) =>
                          match skip_ws r3 with
                          | d :: r4 =>
                              if eqc d 44 then parse_members f r4 ((k, v) :: acc)
                              else if eqc d 125 then
                                Some (JObj (rev ((k, v) :: acc)), r4)
                              else None
                          | [] => None
                          end
                      | None => None
                      end
                    else None
                | [] => None
                end
            | None => None
            end
          else None
      | [] => None
      end
  end.

(** [JSON.parse(text)]: [None] stands for the SyntaxError it throws. *)
Definition JSON_parse (text : string) : option json :=
  let s := list_ascii_of_string text in
  match parse_value (2 * List.length s + 1) s with
  | Some (v, r) => match skip_ws r with [] => Some v | _ :: _ => None end
  | None => None
  end.

(** *** Strings *)

(** [String(n)] for an integral number. *)
Definition Z_to_string (n : Z) : string :=
  DecimalString.NilZero.string_of_int (Z.to_int n).

(** Digits after the decimal point of [num / den] (with
    [0 <= num < den]), by long division, at most [fuel] of them. *)
Fixpoint frac_digits (fuel : nat) (num den : Z) : list ascii :=
  match fuel with
  | O => []
  | S f =>
      if num =? 0 then []
      else ch (Z.to_nat (48 + (10 * num) / den)) :: frac_digits f ((10 * num) mod den) den
  end.

(** [String(x)]: an integral number prints as a decimal integer, any
    other as its decimal expansion (at most 17 fractional digits),
    which is what JavaScript prints for a number with a short decimal
    form such as 12.5; the shortest digits that identify a double
    with a long expansion and the exponent forms of very large and
    very small numbers are not modelled. *)
Definition Number_toString (x : Q) : string :=
  let n := Qnum x in
  let d := Z.pos (Qden x) in
  let a := Z.abs n in
  let ip := a / d in
  let fr := a mod d in
  let sign := if n <? 0 then "-"%string else ""%string in
  if fr =? 0 then Z_to_string (n / d)
  else
    String.append sign
      (String.append (Z_to_string ip)
         (String (ch 46) (string_of_list_ascii (frac_digits 17 fr d)))).

(** [s.padStart(2, '0')]. *)
Definition padStart2 (s : string) : string :=
  match String.length s with
  | O => "00"
  | S O => String (ch 48) s
  | _ => s
  end.

(** [s.split('-')]. *)
Fixpoint split_dash_aux (s : list ascii) (cur : list ascii) : list string :=
  match s with
  | [] => [string_of_list_ascii (rev cur)]
  | c :: r =>
      if eqc c 45 then string_of_list_ascii (rev cur) :: split_dash_aux r []
      else split_dash_aux r (c :: cur)
  end.

Definition split_dash (s : string) : list string :=
  split_dash_aux (list_ascii_of_string s) [].

(** *** Dates

    A [Date] holds a time value in milliseconds since the epoch (UTC),
    or is invalid ([None]).  The process time zone is a parameter
    [tza], the offset of local time from UTC in milliseconds, taken as
    constant over the dates involved. *)

Definition msPerDay : Z := 86400000.

Definition InLeapYear (y : Z) : Z :=
  if (y mod 4 =? 0) && (negb (y mod 100 =? 0) || (y mod 400 =? 0)) then 1 else 0.

Definition DayFromYear (y : Z) : Z :=
  365 * (y - 1970) + (y - 1969) / 4 - (y - 1901) / 100 + (y - 1601) / 400.

(** The year containing day number [d]: the largest [y] with
    [DayFromYear y <= d], found from an estimate that is off by at
    most one. *)
Definition YearFromDay (d : Z) : Z :=
  let c := 1970 + (400 * d) / 146097 in
  if d <? DayFromYear c then c - 1
  else if DayFromYear (c + 1) <=? d then c + 1
  else c.

(** First day of each month within a year, by month index. *)
Definition month_starts (leap : Z) : list Z :=
  [0; 31; 59 + leap; 90 + leap; 120 + leap; 151 + leap; 181 + leap;
   212 + leap; 243 + leap; 273 + leap; 304 + leap; 334 + leap].

Definition month_start (leap : Z) (m : Z) : Z :=
  nth (Z.to_nat m) (month_starts leap) 0.

(** MakeDay(year, month, date), for finite arguments. *)
Definition MakeDay (year month date : Z) : Z :=
  let ym := year + month / 12 in
  let mn := month mod 12 in
  DayFromYear ym + month_start (InLeapYear ym) mn + date - 1.

Definition MonthFromDay (d : Z) : Z :=
  let y := YearFromDay d in
  let diy := d - DayFromYear y in
  Z.of_nat (List.length (List.filter (fun s => s <=? diy) (month_starts (InLeapYear y)))) - 1.

Definition DateFromDay (d : Z) : Z :=
  let y := YearFromDay d in
  let diy := d - DayFromYear y in
  diy - month_start (InLeapYear y) (MonthFromDay d) + 1.

Definition Date := option Z.

(** [new Date(year, monthIndex, day)]: the fields are local time; a
    [NaN] field gives an invalid date; years 0 to 99 are 1900 + year.
    The offset [tza] of local time from UTC is one constant, and the
    time value is left unclipped: [TimeRange.clipped] adds the limit
    of 8.64e15 ms beyond which the constructor yields an invalid
    date. *)
Definition new_Date (tza : Z) (year month day : option Z) : Date :=
  match year, month, day with
  | Some y, Some m, Some d =>
      let yr := if (0 <=? y) && (y <=? 99) then 1900 + y else y in
      Some (MakeDay yr m d * msPerDay - tza)
  | _, _, _ => None
  end.

Definition local_day (tza : Z) (t : Z) : Z := (t + tza) / msPerDay.

Definition getFullYear (tza : Z) (d : Date) : option Z :=
  option_map (fun t => YearFromDay (local_day tza t)) d.

Definition getMonth (tza : Z) (d : Date) : option Z :=
  option_map (fun t => MonthFromDay (local_day tza t)) d.

Definition getDate (tza : Z) (d : Date) : option Z :=
  option_map (fun t => DateFromDay (local_day tza t)) d.

(** [String(n)] for an integral number that may be [NaN]. *)
Definition int_toString (n : option Z) : string :=
  match n with
  | Some z => Z_to_string z
  | None => "NaN"
  end.

End JS.

(** ** Binary64 arithmetic

    The result of an arithmetic operation on Numbers is the exact
    result rounded to the nearest double, a tie going to the double
    with an even significand (ECMA-262, 6.1.6.1; IEEE 754,
    roundTiesToEven).  A finite double is modelled by the rational it
    denotes; the two zeros are not told apart, and a result too large
    for a double (see [finite]) is outside the model. *)

Module Binary64.

(** [floor (log2 q)] for a positive rational [q]. *)
Definition ilog2 (q : Q) : Z :=
  let k := Z.log2 (Qnum q) - Z.log2 (Z.pos (Qden q)) in
  if Qle_bool (2 ^ k) q then k else k - 1.

(** The nearest integer, a tie going to the even one. *)
Definition nearest_even (x : Q) : Z :=
  let f := Qfloor x in
  match Qcompare (x - inject_Z f) (1 # 2) with
  | Lt => f
  | Gt => f + 1
  | Eq => if Z.even f then f else f + 1
  end.

(** The exponent of the unit in the last place at [q]: 53 significant
    bits, and no exponent below the one of the subnormal numbers. *)
Definition ulp_exponent (q : Q) : Z := Z.max (ilog2 (Qabs q) - 52) (-1074).

(** roundTiesToEven. *)
Definition round (q : Q) : Q :=
  if Qeq_bool q 0 then 0%Q
  else
    let e := ulp_exponent q in
    Qred (inject_Z (nearest_even (q / 2 ^ e)) * 2 ^ e).


Definition add (x y : Q) : Q := round (x + y).
Definition sub (x y : Q) : Q := round (x - y).
Definition mul (x y : Q) : Q := round (x * y).
Definition div (x y : Q) : Q := round (x / y).

End Binary64.

(** ** Storage

    The attendance table is read through the hosted database client,
    which stays a black box: a query (the filters the code chains onto
    [supabase.from('attendance')]) is answered by a response carrying
    either rows or an error. *)

Module Row.

(** One row of the [attendance] table as the client delivers it.  The
    numeric columns arrive as JSON values ([None] when the column is
    not part of the row); the code coerces them with [Number(..) || 0]. *)
Record t : Type := mk {
  employee_id : string;
  date : string;
  status : string;
  check_in_time : option string;
  check_out_time : option string;
  present_days : JS.jsval;
  absent_days : JS.jsval;
  late_days : JS.jsval;
  ot_hours : JS.jsval;
  food : JS.jsval;
  uniform : JS.jsval;
  deduction : JS.jsval;
  notes : option string
}.

(** Truthiness of [record.notes]: neither [null] nor the empty string. *)
Definition notes_truthy (n : option string) : bool :=
  match n with
  | Some s => negb (String.eqb s "")
  | None => false
  end.

Definition set_notes (n : option string) (r : t) : t :=
  mk (employee_id r) (date r) (status r) (check_in_time r) (check_out_time r)
     (present_days r) (absent_days r) (late_days r) (ot_hours r)
     (food r) (uniform r) (deduction r) n.

Definition set_times (ci co : option string) (r : t) : t :=
  mk (employee_id r) (date r) (status r) ci co
     (present_days r) (absent_days r) (late_days r) (ot_hours r)
     (food r) (uniform r) (deduction r) (notes r).

End Row.

Module Storage.

Record Query : Type := {
  eq_employee_id : option string;   (* [.eq('employee_id', id)], when chained *)
  gte_date : string;                (* [.gte('date', startOfMonth)] *)
  lte_date : string                 (* [.lte('date', endOfMonth)] *)
}.

Record Response : Type := {
  data : option (list Row.t);
  error : option string
}.

Definition Client := Query -> Response.

End Storage.

(** ** Month boundaries

    The three aggregators compute the range of the selected month with
    the same code: [formatLocalDate] and two [Date]s built from local
    calendar fields. *)

Module MonthRange.
Import JS.

(** [const formatLocalDate = (d) => `${y}-${m}-${day}`]. *)
Definition formatLocalDate (tza : Z) (d : Date) : string :=
  let y := getFullYear tza d in
  let m := padStart2 (int_toString (option_map (fun k => k + 1) (getMonth tza d))) in
  let day := padStart2 (int_toString (getDate tza d)) in
  String.append (int_toString y)
    (String.append "-" (String.append m (String.append "-" day))).

(** [const [yearStr, monthStr] = selectedMonth.split('-')] followed by
    the two [parseInt]s; a missing part is [undefined] and parses to
    [NaN]. *)
Definition year_month (selectedMonth : string) : option Z * option Z :=
  let parts := split_dash selectedMonth in
  let yearStr := nth_error parts 0 in
  let monthStr := nth_error parts 1 in
  (match yearStr with Some s => parseInt s | None => None end,
   match monthStr with Some s => parseInt s | None => None end).

(** The branch taken when a month is selected. *)
Definition of_selected (tza : Z) (selectedMonth : string) : string * string :=
  let '(year, month) := year_month selectedMonth in
  let startOfMonth :=
    formatLocalDate tza (new_Date tza year (option_map (fun m => m - 1) month) (Some 1)) in
  let endOfMonth := formatLocalDate tza (new_Date tza year month (Some 0)) in
  (startOfMonth, endOfMonth).

(** The branch taken otherwise: the month of [now = new Date()]. *)
Definition of_now (tza : Z) (now : Z) : string * string :=
  let n : Date := Some now in
  let startOfMonth :=
    formatLocalDate tza (new_Date tza (getFullYear tza n) (getMonth tza n) (Some 1)) in
  let endOfMonth :=
    formatLocalDate tza
      (new_Date tza (getFullYear tza n) (option_map (fun m => m + 1) (getMonth tza n)) (Some 0)) in
  (startOfMonth, endOfMonth).

(** [if (selectedMonth) .. else ..] of the two hooks. *)
Definition range (tza : Z) (now : Z) (selectedMonth : option string) : string * string :=
  match selectedMonth with
  | Some m => if String.eqb m "" then of_now tza now else of_selected tza m
  | None => of_now tza now
  end.

End MonthRange.

(** ** The attendance hooks (src/hooks/useEmployeeAttendance.ts) *)

Module Attendance.
Import JS.

Record EmployeeAttendanceStats : Type := mkStats {
  employee_id : string;
  present_days : Q;
  absent_days : Q;
  late_days : Q;
  ot_hours : Q;
  total_days : Q;
  food : Q;
  uniform : Q;
  deduction : Q
}.

(** The in-place updates [stats.field += x]. *)
Definition add_present_days (x : Q) (s : EmployeeAttendanceStats) :=
  mkStats (employee_id s) (present_days s + x) (absent_days s) (late_days s)
          (ot_hours s) (total_days s) (food s) (uniform s) (deduction s).
Definition add_absent_days (x : Q) (s : EmployeeAttendanceStats) :=
  mkStats (employee_id s) (present_days s) (absent_days s + x) (late_days s)
          (ot_hours s) (total_days s) (food s) (uniform s) (deduction s).
Definition add_late_days (x : Q) (s : EmployeeAttendanceStats) :=
  mkStats (employee_id s) (present_days s) (absent_days s) (late_days s + x)
          (ot_hours s) (total_days s) (food s) (uniform s) (deduction s).
Definition add_ot_hours (x : Q) (s : EmployeeAttendanceStats) :=
  mkStats (employee_id s) (present_days s) (absent_days s) (late_days s)
          (ot_hours s + x) (total_days s) (food s) (uniform s) (deduction s).
Definition add_total_days (x : Q) (s : EmployeeAttendanceStats) :=
  mkStats (employee_id s) (present_days s) (absent_days s) (late_days s)
          (ot_hours s) (total_days s + x) (food s) (uniform s) (deduction s).
Definition add_food (x : Q) (s : EmployeeAttendanceStats) :=
  mkStats (employee_id s) (present_days s) (absent_days s) (late_days s)
          (ot_hours s) (total_days s) (food s + x) (uniform s) (deduction s).
Definition add_uniform (x : Q) (s : EmployeeAttendanceStats) :=
  mkStats (employee_id s) (present_days s) (absent_days s) (late_days s)
          (ot_hours s) (total_days s) (food s) (uniform s + x) (deduction s).
Definition add_deduction (x : Q) (s : EmployeeAttendanceStats) :=
  mkStats (employee_id s) (present_days s) (absent_days s) (late_days s)
          (ot_hours s) (total_days s) (food s) (uniform s) (deduction s + x).

(** The freshly created accumulator. *)
Definition new_stats (id : string) (total : Q) : EmployeeAttendanceStats :=
  mkStats id 0 0 0 0 total 0 0 0.

(** [Number(v) || 0]. *)
Definition direct (v : jsval) : Q := or_zero (Number v).

(** [Number(parsedNotes.key) || 0], for a [parsedNotes] that passed the
    [typeof parsedNotes === 'object' && parsedNotes !== null] test. *)
Definition from_notes (parsedNotes : json) (key : string) : Q :=
  match get_prop parsedNotes key with
  | Some v => or_zero (Number v)
  | None => 0%Q
  end.

(** PRIORITY 3: [switch (record.status)], which has no default case. *)
Definition count_status (status : string) (stats : EmployeeAttendanceStats)
  : EmployeeAttendanceStats :=
  if String.eqb status "present" then add_present_days 1 stats
  else if String.eqb status "absent" then add_absent_days 1 stats
  else if String.eqb status "late" then add_late_days 1 stats
  else stats.

(** The body of the [forEach] callback from the comment "PRIORITY 1" to
    the end of the [if]: lines 83-149 of [useEmployeeAttendanceStats]
    and, word for word apart from the logging, lines 240-298 of
    [useAllEmployeesAttendanceStats]. *)
Definition process_record (record : Row.t) (stats : EmployeeAttendanceStats)
  : EmployeeAttendanceStats :=
  let directPresent := direct (Row.present_days record) in
  let directAbsent := direct (Row.absent_days record) in
  let directLate := direct (Row.late_days record) in
  let directOT := direct (Row.ot_hours record) in
  let directFood := direct (Row.food record) in
  let directUniform := direct (Row.uniform record) in
  let directDeduction := direct (Row.deduction record) in
  let stats := add_present_days directPresent stats in
  let stats := add_absent_days directAbsent stats in
  let stats := add_late_days directLate stats in
  let stats := add_ot_hours directOT stats in
  let stats := add_food directFood stats in
  let stats := add_uniform directUniform stats in
  let stats := add_deduction directDeduction stats in
  if negb (truthy directPresent) && negb (truthy directAbsent)
     && negb (truthy directLate) && negb (truthy directOT)
     && Row.notes_truthy (Row.notes record)
  then
    match JSON_parse (default ""%string (Row.notes record)) with
    | Some parsedNotes =>
        if is_object parsedNotes then
          let notesPresent := from_notes parsedNotes "present_days" in
          let notesAbsent := from_notes parsedNotes "absent_days" in
          let notesLate := from_notes parsedNotes "late_days" in
          let notesOT := from_notes parsedNotes "ot_hours" in
          let notesFood := from_notes parsedNotes "food" in
          let notesUniform := from_notes parsedNotes "uniform" in
          let stats := add_present_days notesPresent stats in
          let stats := add_absent_days notesAbsent stats in
          let stats := add_late_days notesLate stats in
          let stats := add_ot_hours notesOT stats in
          let stats := add_food notesFood stats in
          let stats := add_uniform notesUniform stats in
          stats
        else stats
    | None => count_status (Row.status record) stats
    end
  else stats.

(** The accumulator of [useEmployeeAttendanceStats] after
    [data?.forEach(..)]; [total_days] starts at [data?.length || 0]. *)
Definition employee_stats (employeeId : string) (data : list Row.t)
  : EmployeeAttendanceStats :=
  let stats := new_stats employeeId (inject_Z (Z.of_nat (List.length data))) in
  fold_left (fun stats record => process_record record stats) data stats.

(** What the [queryFn] does with the response: a storage error is
    thrown to the caller ([inl]), otherwise the rows are aggregated. *)
Definition employee_outcome (employeeId : string) (response : Storage.Response)
  : string + EmployeeAttendanceStats :=
  match Storage.error response with
  | Some error => inl error
  | None => inr (employee_stats employeeId (default [] (Storage.data response)))
  end.

(** [useEmployeeAttendanceStats]: the [queryFn] on the rows of one
    employee. *)
Definition useEmployeeAttendanceStats (supabase : Storage.Client) (tza now : Z)
    (employeeId : string) (selectedMonth : option string)
  : string + EmployeeAttendanceStats :=
  let '(startOfMonth, endOfMonth) := MonthRange.range tza now selectedMonth in
  employee_outcome employeeId
    (supabase {| Storage.eq_employee_id := Some employeeId;
                 Storage.gte_date := startOfMonth;
                 Storage.lte_date := endOfMonth |}).

(** One turn of the [forEach] of [useAllEmployeesAttendanceStats]: the
    entry of the record's employee is created on first sight, then
    updated in place. *)
Definition all_employees_step (employeeStats : gmap string EmployeeAttendanceStats)
    (record : Row.t) : gmap string EmployeeAttendanceStats :=
  let id := Row.employee_id record in
  let stats := default (new_stats id 0) (employeeStats !! id) in
  let stats := add_total_days 1 stats in
  <[ id := process_record record stats ]> employeeStats.

Definition all_employee_stats (data : list Row.t)
  : gmap string EmployeeAttendanceStats :=
  fold_left all_employees_step data ∅.

Definition all_employees_outcome (response : Storage.Response)
  : string + gmap string EmployeeAttendanceStats :=
  match Storage.error response with
  | Some error => inl error
  | None => inr (all_employee_stats (default [] (Storage.data response)))
  end.

Definition useAllEmployeesAttendanceStats (supabase : Storage.Client) (tza now : Z)
    (selectedMonth : option string)
  : string + gmap string EmployeeAttendanceStats :=
  let '(startOfMonth, endOfMonth) := MonthRange.range tza now selectedMonth in
  all_employees_outcome
    (supabase {| Storage.eq_employee_id := None;
                 Storage.gte_date := startOfMonth;
                 Storage.lte_date := endOfMonth |}).

(** *** Vocabulary of the properties *)

(** The seven additions of PRIORITY 1 alone. *)
Definition add_structured (record : Row.t) (stats : EmployeeAttendanceStats)
  : EmployeeAttendanceStats :=
  add_deduction (direct (Row.deduction record))
    (add_uniform (direct (Row.uniform record))
       (add_food (direct (Row.food record))
          (add_ot_hours (direct (Row.ot_hours record))
             (add_late_days (direct (Row.late_days record))
                (add_absent_days (direct (Row.absent_days record))
                   (add_present_days (direct (Row.present_days record)) stats)))))).

(** One of the four guarded columns is non-zero. *)
Definition has_direct_values (record : Row.t) : bool :=
  truthy (direct (Row.present_days record)) || truthy (direct (Row.absent_days record))
  || truthy (direct (Row.late_days record)) || truthy (direct (Row.ot_hours record)).

(** The overtime PRIORITY 2 adds for a record: the [ot_hours] of its
    notes when that branch runs, nothing otherwise. *)
Definition notes_overtime (record : Row.t) : Q :=
  if negb (has_direct_values record) && Row.notes_truthy (Row.notes record) then
    match JSON_parse (default ""%string (Row.notes record)) with
    | Some parsedNotes =>
        if is_object parsedNotes then from_notes parsedNotes "ot_hours" else 0%Q
    | None => 0%Q
    end
  else 0%Q.

End Attendance.

(** ** The payslip aggregator (src/lib/pdf/attendanceStats.ts) *)

Module PdfStats.
Import JS.

Record AttendanceStats : Type := mkStats {
  employee_id : string;
  present_days : Q;
  absent_days : Q;
  late_days : Q;
  ot_hours : Q;
  food : Q;
  uniform : Q
}.

Definition new_stats (id : string) : AttendanceStats := mkStats id 0 0 0 0 0 0.

Definition add_present_days (x : Q) (s : AttendanceStats) :=
  mkStats (employee_id s) (present_days s + x) (absent_days s) (late_days s)
          (ot_hours s) (food s) (uniform s).
Definition add_absent_days (x : Q) (s : AttendanceStats) :=
  mkStats (employee_id s) (present_days s) (absent_days s + x) (late_days s)
          (ot_hours s) (food s) (uniform s).
Definition add_late_days (x : Q) (s : AttendanceStats) :=
  mkStats (employee_id s) (present_days s) (absent_days s) (late_days s + x)
          (ot_hours s) (food s) (uniform s).
Definition add_ot_hours (x : Q) (s : AttendanceStats) :=
  mkStats (employee_id s) (present_days s) (absent_days s) (late_days s)
          (ot_hours s + x) (food s) (uniform s).
Definition add_food (x : Q) (s : AttendanceStats) :=
  mkStats (employee_id s) (present_days s) (absent_days s) (late_days s)
          (ot_hours s) (food s + x) (uniform s).
Definition add_uniform (x : Q) (s : AttendanceStats) :=
  mkStats (employee_id s) (present_days s) (absent_days s) (late_days s)
          (ot_hours s) (food s) (uniform s + x).

(** The operand [parsedNotes.key || 0] of a [+=] on a number-typed
    field.  For a number or a boolean this is what JavaScript adds; a
    non-empty string, an array or an object would make [+=] concatenate
    strings, which the number-typed [AttendanceStats] has no place
    for: such an operand counts with its numeric value here, and
    [Notes.numeric] below singles out the notes whose fields add as
    numbers. *)
Definition operand (v : jsval) : Q :=
  if ToBoolean v then or_zero (Number v) else 0%Q.

Definition two_digits (a b : ascii) : option Z :=
  if is_digit a && is_digit b then Some (10 * digit_val a + digit_val b) else None.

(** Milliseconds given by the digits after the decimal point of the
    seconds: the first three count. *)
Definition millis (ds : list ascii) : option Z :=
  if forallb is_digit ds then
    match ds with
    | [] => None
    | [a] => Some (100 * digit_val a)
    | [a; b] => Some (100 * digit_val a + 10 * digit_val b)
    | a :: b :: c :: _ => Some (100 * digit_val a + 10 * digit_val b + digit_val c)
    end
  else None.

(** [new Date(`1970-01-01T${t}`).getTime()] up to the constant that
    local time adds to both ends of a difference: [t] is a local time
    of day [HH:mm], [HH:mm:ss] or [HH:mm:ss.sss], the form of a [time]
    column.  Anything else gives [None]: an invalid date, or a time
    with a zone designator ([Z] or an offset), which the constructor
    would read as UTC and which is outside the model. *)
Definition time_of_day (t : string) : option Z :=
  match list_ascii_of_string t with
  | h1 :: h2 :: c1 :: m1 :: m2 :: rest =>
      match two_digits h1 h2, two_digits m1 m2 with
      | Some h, Some m =>
          let sec_ms :=
            match rest with
            | [] => Some (0, 0)
            | c2 :: s1 :: s2 :: rest' =>
                if eqc c2 58 then
                  match two_digits s1 s2, rest' with
                  | Some sec, [] => Some (sec, 0)
                  | Some sec, dot :: ds =>
                      if eqc dot 46 then option_map (fun ms => (sec, ms)) (millis ds)
                      else None
                  | None, _ => None
                  end
                else None
            | _ => None
            end in
          match sec_ms with
          | Some (sec, ms) =>
              if eqc c1 58 && (m <=? 59) && (sec <=? 59)
                 && ((h <=? 23) || ((h =? 24) && (m =? 0) && (sec =? 0) && (ms =? 0)))
              then Some (((h * 60 + m) * 60 + sec) * 1000 + ms)
              else None
          | None => None
          end
      | _, _ => None
      end
  | _ => None
  end.

(** [(checkOut.getTime() - checkIn.getTime()) / (1000 * 60 * 60)];
    [None] is [NaN]. *)
Definition workHours (check_in check_out : string) : option Q :=
  match time_of_day check_in, time_of_day check_out with
  | Some i, Some o => Some (inject_Z (o - i) / inject_Z (1000 * 60 * 60))%Q
  | _, _ => None
  end.

Definition time_truthy (t : option string) : bool := Row.notes_truthy t.

(** "Count individual records for non-manual entries". *)
Definition count_status (status : string) (stats : AttendanceStats) : AttendanceStats :=
  if String.eqb status "present" then add_present_days 1 stats
  else if String.eqb status "absent" then add_absent_days 1 stats
  else if String.eqb status "late" then add_late_days 1 stats
  else stats.

(** "Calculate OT hours based on check-in/check-out times". *)
Definition overtime_from_times (record : Row.t) (stats : AttendanceStats) : AttendanceStats :=
  if time_truthy (Row.check_in_time record) && time_truthy (Row.check_out_time record) then
    match workHours (default ""%string (Row.check_in_time record))
                    (default ""%string (Row.check_out_time record)) with
    | Some wh => if gt wh 8 then add_ot_hours (wh - 8) stats else stats
    | None => stats
    end
  else stats.

(** The [try] block: [Some parsedNotes] when control reaches the six
    additions and the [return]; [None] when the condition fails, when
    [JSON.parse] throws, when reading a property of [null] throws, or
    when [parsedNotes.present_days] is [undefined]. *)
Definition manual_entry (record : Row.t) : option json :=
  if Row.notes_truthy (Row.notes record) && String.eqb (Row.status record) "present" then
    match JSON_parse (default ""%string (Row.notes record)) with
    | Some parsedNotes =>
        match get_prop parsedNotes "present_days" with
        | Some (Some _) => Some parsedNotes
        | Some None => None
        | None => None
        end
    | None => None
    end
  else None.

Definition notes_field (parsedNotes : json) (key : string) : Q :=
  match get_prop parsedNotes key with
  | Some v => operand v
  | None => 0%Q
  end.

Definition add_manual_entry (parsedNotes : json) (stats : AttendanceStats) : AttendanceStats :=
  let stats := add_present_days (notes_field parsedNotes "present_days") stats in
  let stats := add_absent_days (notes_field parsedNotes "absent_days") stats in
  let stats := add_late_days (notes_field parsedNotes "late_days") stats in
  let stats := add_ot_hours (notes_field parsedNotes "ot_hours") stats in
  let stats := add_food (notes_field parsedNotes "food") stats in
  let stats := add_uniform (notes_field parsedNotes "uniform") stats in
  stats.

(** The body of the [forEach] callback on the record's accumulator. *)
Definition process_record (record : Row.t) (stats : AttendanceStats) : AttendanceStats :=
  match manual_entry record with
  | Some parsedNotes => add_manual_entry parsedNotes stats
  | None => overtime_from_times record (count_status (Row.status record) stats)
  end.

Definition step (employeeStats : gmap string AttendanceStats) (record : Row.t)
  : gmap string AttendanceStats :=
  let id := Row.employee_id record in
  let stats := default (new_stats id) (employeeStats !! id) in
  <[ id := process_record record stats ]> employeeStats.

Definition aggregate (data : list Row.t) : gmap string AttendanceStats :=
  fold_left step data ∅.

Definition outcome (response : Storage.Response)
  : string + gmap string AttendanceStats :=
  match Storage.error response with
  | Some error => inl error
  | None =>
      match Storage.data response with
      | Some data => inr (aggregate data)
      | None => inl "TypeError"%string   (* [data.forEach] on [null] *)
      end
  end.

Definition fetchAttendanceStats (supabase : Storage.Client) (tza : Z)
    (selectedMonth : string) : string + gmap string AttendanceStats :=
  let '(startOfMonth, endOfMonth) := MonthRange.of_selected tza selectedMonth in
  outcome
    (supabase {| Storage.eq_employee_id := None;
                 Storage.gte_date := startOfMonth;
                 Storage.lte_date := endOfMonth |}).

End PdfStats.

(** ** Reading a CSV file back

    The application only writes CSV files.  This is the reader the
    round-trip property is stated against, the reading of RFC 4180:
    fields are separated by commas and records by line feeds; a field
    that opens with a double quote runs to the matching double quote,
    two double quotes in a row inside it standing for one; a double
    quote anywhere else makes the file unreadable ([None]). *)

Module Csv.
Import JS.

Inductive state : Type := FieldStart | Bare | Quoted | QuoteSeen.

Definition close_field (field : list ascii) (fields : list string) : list string :=
  string_of_list_ascii (rev field) :: fields.

Definition close_row (fields : list string) (rows : list (list string))
  : list (list string) :=
  rev fields :: rows.

Fixpoint read (st : state) (s : string) (field : list ascii) (fields : list string)
    (rows : list (list string)) : option (list (list string)) :=
  match s with
  | EmptyString =>
      match st with
      | Quoted => None
      | _ => Some (rev (close_row (close_field field fields) rows))
      end
  | String c r =>
      match st with
      | FieldStart =>
          if eqc c 34 then read Quoted r [] fields rows
          else if eqc c 44 then read FieldStart r [] (close_field [] fields) rows
          else if eqc c 10 then read FieldStart r [] [] (close_row (close_field [] fields) rows)
          else read Bare r [c] fields rows
      | Bare =>
          if eqc c 34 then None
          else if eqc c 44 then read FieldStart r [] (close_field field fields) rows
          else if eqc c 10 then read FieldStart r [] [] (close_row (close_field field fields) rows)
          else read Bare r (c :: field) fields rows
      | Quoted =>
          if eqc c 34 then read QuoteSeen r field fields rows
          else read Quoted r (c :: field) fields rows
      | QuoteSeen =>
          if eqc c 34 then read Quoted r (c :: field) fields rows
          else if eqc c 44 then read FieldStart r [] (close_field field fields) rows
          else if eqc c 10 then read FieldStart r [] [] (close_row (close_field field fields) rows)
          else None
      end
  end.

Definition parse (content : string) : option (list (list string)) :=
  read FieldStart content [] [] [].

(** A text without a double quote. *)
Fixpoint quote_free (s : string) : bool :=
  match s with
  | EmptyString => true
  | String c r => negb (eqc c 34) && quote_free r
  end.

(** A text that can stand unquoted: no double quote, comma or line feed. *)
Fixpoint plain (s : string) : bool :=
  match s with
  | EmptyString => true
  | String c r => negb (eqc c 34) && negb (eqc c 44) && negb (eqc c 10) && plain r
  end.

(** The text [x] of a file stands for the field [f]: wherever a field
    starts, reading [x] up to the comma, the line feed or the end of
    the file that follows it yields [f]. *)
Definition reads_as (x f : string) : Prop :=
  (forall rest fields rows,
      read FieldStart (String.append x (String (ch 44) rest)) [] fields rows
      = read FieldStart rest [] (f :: fields) rows)
  /\ (forall rest fields rows,
      read FieldStart (String.append x (String (ch 10) rest)) [] fields rows
      = read FieldStart rest [] [] (rev (f :: fields) :: rows))
  /\ (forall fields rows,
      read FieldStart x [] fields rows = Some (rev (rev (f :: fields) :: rows))).

End Csv.

(** ** PF and ESI reports (src/components/GenerateReportsDialog.tsx) *)

Module Reports.
Import JS.

(** The employee fields the two generators read; [None] is [null]. *)
Record Employee : Type := {
  id : string;
  employee_id : option string;
  name : option string;
  pf_number : option string;
  esi_number : option string;
  basic_salary : option Q;
  da_amount : option Q
}.

(** A value stored in a report row: a string or a number. *)
Inductive cell : Type :=
| Text (s : string)
| Num (q : Q).

(** A report row: an object literal, its keys in insertion order. *)
Definition row := list (string * cell).

(** [s || '']. *)
Definition str_or_empty (s : option string) : string := default ""%string s.

(** The predicate of [employees.filter]:
    [stats && (stats.present_days > 0 || stats.ot_hours > 0)]. *)
Definition has_data (attendanceStats : gmap string Attendance.EmployeeAttendanceStats)
    (emp : Employee) : bool :=
  match attendanceStats !! id emp with
  | Some stats =>
      gt (Attendance.present_days stats) 0 || gt (Attendance.ot_hours stats) 0
  | None => false
  end.

(** [stats?.present_days || 0] and [stats?.ot_hours || 0]. *)
Definition presentDays_of (attendanceStats : gmap string Attendance.EmployeeAttendanceStats)
    (employee : Employee) : Q :=
  or_zero (option_map Attendance.present_days (attendanceStats !! id employee)).

Definition otHours_of (attendanceStats : gmap string Attendance.EmployeeAttendanceStats)
    (employee : Employee) : Q :=
  or_zero (option_map Attendance.ot_hours (attendanceStats !! id employee)).

(** The earned amounts, computed the same way by both generators. *)
Definition earnedBasic (basicSalary presentDays : Q) : Z := Math_round (basicSalary * presentDays).
Definition earnedDA (daAmount presentDays : Q) : Z := Math_round (daAmount * presentDays).
Definition otAmount (otHours : Q) : Z := Math_round (otHours * 60).

(** PF figures from the PF-eligible gross. *)
Definition emp12Amount (pfBasic : Z) : Z :=
  Math_min (Math_round (inject_Z pfBasic * 0.12)) 1800.
Definition employerEPF (pfBasic : Z) : Z := Math_round (inject_Z pfBasic * 0.0833).
Definition employerEPS (pfBasic : Z) : Z := Math_round (inject_Z pfBasic * 0.0367).

(** ESI figures from the gross earnings. *)
Definition employeeESI (grossEarnings : Z) : Z :=
  if 21000 <? grossEarnings then 0 else Math_round (inject_Z grossEarnings * 0.0075).
Definition employerESI (grossEarnings : Z) : Z :=
  if 21000 <? grossEarnings then 0 else Math_round (inject_Z grossEarnings * 0.0325).

Definition gross (attendanceStats : gmap string Attendance.EmployeeAttendanceStats)
    (employee : Employee) : Z :=
  let presentDays := presentDays_of attendanceStats employee in
  let otHours := otHours_of attendanceStats employee in
  let basicSalary := or_zero (basic_salary employee) in
  let daAmount := or_zero (da_amount employee) in
  earnedBasic basicSalary presentDays + earnedDA daAmount presentDays + otAmount otHours.

(** The callback of [employeesWithData.map] in [generatePFReport]. *)
Definition pf_row (attendanceStats : gmap string Attendance.EmployeeAttendanceStats)
    (employee : Employee) : row :=
  let presentDays := presentDays_of attendanceStats employee in
  let pfBasic := gross attendanceStats employee in
  [ ("Emp.No"%string, Text (str_or_empty (employee_id employee)));
    ("Employee Name"%string, Text (str_or_empty (name employee)));
    ("PF NO"%string, Text (str_or_empty (pf_number employee)));
    ("Days Present"%string, Num presentDays);
    ("Basic+DA"%string, Num (inject_Z pfBasic));
    ("PF.Basic"%string, Num (inject_Z pfBasic));
    ("Emp.12 Amt"%string, Num (inject_Z (emp12Amount pfBasic)));
    ("E.P.F"%string, Num (inject_Z (employerEPF pfBasic)));
    ("E.P.S"%string, Num (inject_Z (employerEPS pfBasic)));
    ("Total Employer"%string, Num (inject_Z (employerEPF pfBasic + employerEPS pfBasic))) ].

(** The callback of [employeesWithData.map] in [generateESIReport]. *)
Definition esi_row (attendanceStats : gmap string Attendance.EmployeeAttendanceStats)
    (employee : Employee) : row :=
  let presentDays := presentDays_of attendanceStats employee in
  let grossEarnings := gross attendanceStats employee in
  [ ("Emp.No"%string, Text (str_or_empty (employee_id employee)));
    ("Employee Name"%string, Text (str_or_empty (name employee)));
    ("ESI NO"%string, Text (str_or_empty (esi_number employee)));
    ("Days Present"%string, Num presentDays);
    ("Gross Earnings"%string, Num (inject_Z grossEarnings));
    ("Employee ESI (0.75%)"%string, Num (inject_Z (employeeESI grossEarnings)));
    ("Employer ESI (3.25%)"%string, Num (inject_Z (employerESI grossEarnings)));
    ("Total ESI"%string, Num (inject_Z (employeeESI grossEarnings + employerESI grossEarnings))) ].

(** [row[header]]. *)
Fixpoint lookup_cell (header : string) (r : row) : option cell :=
  match r with
  | [] => None
  | (k, c) :: rest => if String.eqb k header then Some c else lookup_cell header rest
  end.

(** [String(v)] of a stored value. *)
Definition cell_toString (c : cell) : string :=
  match c with
  | Text s => s
  | Num q => Number_toString q
  end.

(** [`${row[header] || ''}`]: a falsy value (a missing key, the empty
    string, the number zero) gives the empty text. *)
Definition field_text (v : option cell) : string :=
  match v with
  | Some (Text s) => s
  | Some (Num q) => if truthy q then Number_toString q else ""%string
  | None => ""%string
  end.

Definition quote : string := String (ch 34) EmptyString.
Definition comma : string := String (ch 44) EmptyString.
Definition newline : string := String (ch 10) EmptyString.

(** [`"${..}"`]. *)
Definition quoted (s : string) : string := String.append quote (String.append s quote).

(** "Convert to CSV". *)
Definition csvContent (data : list row) : string :=
  let headers := map fst (match data with r :: _ => r | [] => [] end) in
  String.concat newline
    (String.concat comma headers ::
     map (fun r => String.concat comma
                     (map (fun header => quoted (field_text (lookup_cell header r))) headers))
         data).

(** What a generator leaves behind: the destructive "No Data Found"
    notice and no file, or a downloaded file. *)
Inductive Outcome : Type :=
| NoDataFound
| MonthRequired
| Download (filename : string) (content : string).

Definition generatePFReport (employees : list Employee)
    (attendanceStats : gmap string Attendance.EmployeeAttendanceStats)
    (selectedMonth : string) : Outcome :=
  let employeesWithData := List.filter (has_data attendanceStats) employees in
  if (List.length employeesWithData =? 0)%nat then NoDataFound
  else
    let pfData := map (pf_row attendanceStats) employeesWithData in
    Download (String.append "pf_report_" (String.append selectedMonth ".csv"))
             (csvContent pfData).

Definition generateESIReport (employees : list Employee)
    (attendanceStats : gmap string Attendance.EmployeeAttendanceStats)
    (selectedMonth : string) : Outcome :=
  let employeesWithData := List.filter (has_data attendanceStats) employees in
  if (List.length employeesWithData =? 0)%nat then NoDataFound
  else
    let esiData := map (esi_row attendanceStats) employeesWithData in
    Download (String.append "esi_report_" (String.append selectedMonth ".csv"))
             (csvContent esiData).

Inductive ReportType : Type := pf | esi.

(** *** Vocabulary of the properties *)

(** The employee has no statistics for the month, or statistics with
    neither present days nor overtime. *)
Definition without_attendance
    (attendanceStats : gmap string Attendance.EmployeeAttendanceStats)
    (emp : Employee) : Prop :=
  attendanceStats !! id emp = None
  \/ exists stats, attendanceStats !! id emp = Some stats
       /\ (Attendance.present_days stats == 0)%Q /\ (Attendance.ot_hours stats == 0)%Q.

(** The three texts of an employee that reach a report. *)
Definition texts_quote_free (emp : Employee) : bool :=
  Csv.quote_free (str_or_empty (employee_id emp))
  && Csv.quote_free (str_or_empty (name emp))
  && Csv.quote_free (str_or_empty (pf_number emp))
  && Csv.quote_free (str_or_empty (esi_number emp)).

(** The text a report carries for a stored value: its decimal text,
    except that the number zero and the empty string leave the field
    empty. *)
Definition shown (c : cell) : string := field_text (Some c).

(** The column names of the two reports. *)
Definition pf_keys : list string :=
  ["Emp.No"; "Employee Name"; "PF NO"; "Days Present"; "Basic+DA"; "PF.Basic";
   "Emp.12 Amt"; "E.P.F"; "E.P.S"; "Total Employer"]%string.

Definition esi_keys : list string :=
  ["Emp.No"; "Employee Name"; "ESI NO"; "Days Present"; "Gross Earnings";
   "Employee ESI (0.75%)"; "Employer ESI (3.25%)"; "Total ESI"]%string.

(** The table a report stands for: the header row, then one row of
    texts per employee. *)
Definition table (data : list row) : list (list string) :=
  map fst (match data with r :: _ => r | [] => [] end) :: map (fun r => map (fun kc => shown (snd kc)) r) data.

(** [handleExportExcel] (and [handleExportPDF], which has the same body). *)
Definition handleExportExcel (employees : list Employee)
    (attendanceStats : gmap string Attendance.EmployeeAttendanceStats)
    (selectedMonth : string) (reportType : ReportType) : Outcome :=
  if String.eqb selectedMonth "" then MonthRequired
  else match reportType with
       | pf => generatePFReport employees attendanceStats selectedMonth
       | esi => generateESIReport employees attendanceStats selectedMonth
       end.

End Reports.

(** ** Payslip figures (src/lib/pdf/payslipLayout.ts) *)

Module Payslip.
Import JS.

Record Employee : Type := {
  basic_salary : Q;
  hra : Q;
  allowances : Q;
  gross_salary : option Q
}.

Record Stats : Type := {
  present_days : Q;
  absent_days : Q;
  late_days : Q;
  ot_hours : Q
}.

(** "Calculate financial values": the locals of [drawPayslipSection]. *)
Record Financials : Type := {
  otAmount : Q;
  grossEarnings : Q;
  pfBaseSalary : Q;
  pf : Z;
  esi : Z;
  totalDeductions : Z;
  netPay : Q
}.

(** [employee.gross_salary || (basic + hra + allowances) || 0]. *)
Definition gross_of (employee : Employee) : Q :=
  let stored := or_zero (gross_salary employee) in
  if truthy stored then stored
  else or_zero (Some (basic_salary employee + hra employee + allowances employee)%Q).

Definition financials (employee : Employee) (stats : Stats) : Financials :=
  let otAmount := (ot_hours stats * 60)%Q in
  let grossEarnings := gross_of employee in
  let pfBaseSalary := (basic_salary employee + hra employee + allowances employee)%Q in
  let pf := Math_min (Math_round (pfBaseSalary * 0.12)) 1800 in
  let esi := Math_round (grossEarnings * 0.0075) in
  let totalDeductions := pf + esi in
  let netPay := (grossEarnings + otAmount - inject_Z totalDeductions)%Q in
  {| otAmount := otAmount; grossEarnings := grossEarnings; pfBaseSalary := pfBaseSalary;
     pf := pf; esi := esi; totalDeductions := totalDeductions; netPay := netPay |}.

End Payslip.

(** ** The money figures in binary64 arithmetic

    The figures of [Reports] and [Payslip] above are written with
    exact products and sums.  The runtime rounds every product and
    every sum to a double before [Math.round] sees it; the modules
    below spell the same expressions out with [Binary64]'s operations.
    A decimal literal of the source, such as [0.12], is the double
    nearest to it. *)

Module Payslip64.
Import JS Payslip.

(** The locals of [drawPayslipSection]; [Math.round] returns an
    integral double, kept as an integer. *)
Record Financials : Type := {
  otAmount : Q;
  grossEarnings : Q;
  pfBaseSalary : Q;
  pf : Z;
  esi : Z;
  totalDeductions : Q;
  netPay : Q
}.

(** [employee.gross_salary || (basic + hra + allowances) || 0]. *)
Definition gross_of (employee : Employee) : Q :=
  let stored := or_zero (gross_salary employee) in
  if truthy stored then stored
  else or_zero (Some (Binary64.add (Binary64.add (basic_salary employee) (hra employee))
                                   (allowances employee))).

Definition financials (employee : Employee) (stats : Stats) : Financials :=
  let otAmount := Binary64.mul (ot_hours stats) 60 in
  let grossEarnings := gross_of employee in
  let pfBaseSalary :=
    Binary64.add (Binary64.add (basic_salary employee) (hra employee))
                 (allowances employee) in
  let pf := Math_min (Math_round (Binary64.mul pfBaseSalary (Binary64.round 0.12))) 1800 in
  let esi := Math_round (Binary64.mul grossEarnings (Binary64.round 0.0075)) in
  let totalDeductions := Binary64.add (inject_Z pf) (inject_Z esi) in
  let netPay := Binary64.sub (Binary64.add grossEarnings otAmount) totalDeductions in
  {| otAmount := otAmount; grossEarnings := grossEarnings; pfBaseSalary := pfBaseSalary;
     pf := pf; esi := esi; totalDeductions := totalDeductions; netPay := netPay |}.



End Payslip64.

Module Reports64.
Import JS Reports.

(** The earned amounts: [Math.round] of a double product. *)
Definition earnedBasic (basicSalary presentDays : Q) : Z :=
  Math_round (Binary64.mul basicSalary presentDays).
Definition earnedDA (daAmount presentDays : Q) : Z :=
  Math_round (Binary64.mul daAmount presentDays).
Definition otAmount (otHours : Q) : Z := Math_round (Binary64.mul otHours 60).

(** The PF and ESI shares of an integral gross. *)
Definition emp12Amount (pfBasic : Z) : Z :=
  Math_min (Math_round (Binary64.mul (inject_Z pfBasic) (Binary64.round 0.12))) 1800.
Definition employerEPF (pfBasic : Z) : Z :=
  Math_round (Binary64.mul (inject_Z pfBasic) (Binary64.round 0.0833)).
Definition employerEPS (pfBasic : Z) : Z :=
  Math_round (Binary64.mul (inject_Z pfBasic) (Binary64.round 0.0367)).
Definition employeeESI (grossEarnings : Z) : Z :=
  if 21000 <? grossEarnings then 0
  else Math_round (Binary64.mul (inject_Z grossEarnings) (Binary64.round 0.0075)).
Definition employerESI (grossEarnings : Z) : Z :=
  if 21000 <? grossEarnings then 0
  else Math_round (Binary64.mul (inject_Z grossEarnings) (Binary64.round 0.0325)).

(** [earnedBasic + earnedDA + otAmount]: a sum of integral doubles. *)
Definition gross (attendanceStats : gmap string Attendance.EmployeeAttendanceStats)
    (employee : Employee) : Z :=
  let presentDays := presentDays_of attendanceStats employee in
  let otHours := otHours_of attendanceStats employee in
  let basicSalary := or_zero (basic_salary employee) in
  let daAmount := or_zero (da_amount employee) in
  earnedBasic basicSalary presentDays + earnedDA daAmount presentDays + otAmount otHours.

End Reports64.

(** ** The overtime of a daily record in binary64 arithmetic *)

Module PdfStats64.
Import JS.

(** [(checkOut.getTime() - checkIn.getTime()) / (1000 * 60 * 60)] for
    the time values [i] and [o]: the difference of two time values is
    an integer and exact, the quotient is rounded to a double. *)
Definition workHours (i o : Z) : Q :=
  Binary64.div (inject_Z (o - i)) (inject_Z (1000 * 60 * 60)).

(** The operand of [stats.ot_hours += (workHours - 8)], when the
    guard [workHours > 8] lets it through. *)
Definition overtime (i o : Z) : option Q :=
  let workHours := workHours i o in
  if gt workHours 8 then Some (Binary64.sub workHours 8) else None.

End PdfStats64.

(** ** Sample data *)

Module Samples.
Import JS.
Local Open Scope string_scope.

(** Writes a text that contains double quotes: every apostrophe of [s]
    becomes a double quote. *)
Fixpoint double_quotes (s : string) : string :=
  match s with
  | EmptyString => EmptyString
  | String c r => String (if eqc c 39 then ch 34 else c) (double_quotes r)
  end.

(** A daily row of employee [e1]: present from 09:00 to 19:00, every
    numeric column [null], no notes. *)
Definition daily_row : Row.t :=
  Row.mk "e1" "2024-02-05" "present" (Some "09:00:00") (Some "19:00:00")
         (Some JNull) (Some JNull) (Some JNull) (Some JNull)
         (Some JNull) (Some JNull) (Some JNull) None.

(** The same row with notes that parse to the number 5. *)
Definition number_notes_row : Row.t := Row.set_notes (Some "5") daily_row.

(** The same row with notes that are not JSON. *)
Definition text_notes_row : Row.t := Row.set_notes (Some "came late, left early") daily_row.

(** A row with a food allowance of 50 in its column and notes that are
    not JSON. *)
Definition food_row : Row.t :=
  Row.mk "e1" "2024-02-06" "present" None None
         (Some JNull) (Some JNull) (Some JNull) (Some JNull)
         (Some (JNum 50)) (Some JNull) (Some JNull) (Some "n/a").

(** A row with a food allowance of 50 in its column and a manual
    entry in its notes. *)
Definition food_and_manual_row : Row.t :=
  Row.mk "e1" "2024-02-07" "present" None None
         (Some JNull) (Some JNull) (Some JNull) (Some JNull)
         (Some (JNum 50)) (Some JNull) (Some JNull)
         (Some (double_quotes "{'present_days': 20, 'ot_hours': 4, 'food': 5}")).

(** A bulk row: 22 present days in the column, and notes. *)
Definition bulk_row : Row.t :=
  Row.mk "e1" "2024-02-29" "present" None None
         (Some (JNum 22)) (Some JNull) (Some JNull) (Some (JNum 6))
         (Some JNull) (Some JNull) (Some JNull)
         (Some (double_quotes "{'present_days': 20, 'ot_hours': 4}")).

(** A manual entry carried by the notes alone. *)
Definition manual_row : Row.t :=
  Row.mk "e1" "2024-02-29" "present" (Some "09:00:00") (Some "19:00:00")
         (Some JNull) (Some JNull) (Some JNull) (Some JNull)
         (Some JNull) (Some JNull) (Some JNull)
         (Some (double_quotes "{'present_days': 20, 'ot_hours': 4}")).

(** A row counted through its column, with time stamps ten hours
    apart. *)
Definition stamped_row : Row.t :=
  Row.mk "e1" "2024-02-08" "present" (Some "09:00:00") (Some "19:00:00")
         (Some (JNum 1)) (Some JNull) (Some JNull) (Some JNull)
         (Some JNull) (Some JNull) (Some JNull) None.

(** A storage client that answers every query with the given rows. *)
Definition client_of (rows : list Row.t) : Storage.Client :=
  fun _ => {| Storage.data := Some rows; Storage.error := None |}.

(** Employees: [asha] with 25 present days and 10 overtime hours,
    [ravi] without statistics, [ray] whose name contains double
    quotes, [part_timer] with half an hour of overtime only, and
    [adjusted] whose dearness allowance is a negative adjustment of
    2.5 a day. *)
Definition asha : Reports.Employee :=
  {| Reports.id := "u1"; Reports.employee_id := Some "E001"; Reports.name := Some "Asha";
     Reports.pf_number := Some "PF/1"; Reports.esi_number := Some "ESI/1";
     Reports.basic_salary := Some 10000%Q; Reports.da_amount := Some 2000%Q |}.

Definition ravi : Reports.Employee :=
  {| Reports.id := "u2"; Reports.employee_id := Some "E002"; Reports.name := Some "Ravi";
     Reports.pf_number := None; Reports.esi_number := None;
     Reports.basic_salary := Some 400%Q; Reports.da_amount := Some 50%Q |}.

Definition ray : Reports.Employee :=
  {| Reports.id := "u3"; Reports.employee_id := Some "E003";
     Reports.name := Some (double_quotes "Ravi 'Ray' Kumar");
     Reports.pf_number := None; Reports.esi_number := None;
     Reports.basic_salary := Some 400%Q; Reports.da_amount := Some 50%Q |}.

Definition part_timer : Reports.Employee :=
  {| Reports.id := "u4"; Reports.employee_id := Some "E004"; Reports.name := Some "Mina";
     Reports.pf_number := None; Reports.esi_number := Some "ESI/4";
     Reports.basic_salary := Some 400%Q; Reports.da_amount := Some 50%Q |}.

Definition adjusted : Reports.Employee :=
  {| Reports.id := "u5"; Reports.employee_id := Some "E005"; Reports.name := Some "Dev";
     Reports.pf_number := None; Reports.esi_number := None;
     Reports.basic_salary := Some 100%Q; Reports.da_amount := Some (-5 # 2)%Q |}.

Definition february : gmap string Attendance.EmployeeAttendanceStats :=
  {[ "u1" := Attendance.mkStats "u1" 25 0 0 10 25 0 0 0;
     "u3" := Attendance.mkStats "u3" 20 0 0 0 20 0 0 0;
     "u4" := Attendance.mkStats "u4" 0 0 0 (1 # 2) 1 0 0 0;
     "u5" := Attendance.mkStats "u5" 1 0 0 0 1 0 0 0 ]}.

End Samples.

(** Amounts with fractions, as the doubles nearest to the decimals. *)
Module Samples64.




(** A daily rate of 300.90 and 25 present days. *)
Definition daily_rated : Reports.Employee :=
  {| Reports.id := "u6"; Reports.employee_id := Some "E006"; Reports.name := Some "Lata";
     Reports.pf_number := None; Reports.esi_number := None;
     Reports.basic_salary := Some (Binary64.round 300.9); Reports.da_amount := None |}.

Definition march : gmap string Attendance.EmployeeAttendanceStats :=
  {[ "u6" := Attendance.mkStats "u6" 25 0 0 0 25 0 0 0 ]}.

End Samples64.

Module MoreSamples.
Import JS.


End MoreSamples.


(** ** Vocabulary for whole aggregations *)

Module Rows.

(** The rows of one employee, in the order of the data. *)
Definition rows_of (id : string) (data : list Row.t) : list Row.t :=
  List.filter (fun r => String.eqb (Row.employee_id r) id) data.

Definition set_status (st : string) (r : Row.t) : Row.t :=
  Row.mk (Row.employee_id r) (Row.date r) st (Row.check_in_time r) (Row.check_out_time r)
         (Row.present_days r) (Row.absent_days r) (Row.late_days r) (Row.ot_hours r)
         (Row.food r) (Row.uniform r) (Row.deduction r) (Row.notes r).

(** The row's status is one of the three the [switch]es know. *)
Definition known_status (r : Row.t) : bool :=
  String.eqb (Row.status r) "present" || String.eqb (Row.status r) "absent"
  || String.eqb (Row.status r) "late".

End Rows.

Module Delta.
Import Attendance.

(** The [catch] branch is the only place where a hook reads the status
    of a row: no guarded column is set, the notes are a non-empty text,
    and [JSON.parse] throws. *)
Definition status_is_read (r : Row.t) : bool :=
  negb (has_direct_values r) && Row.notes_truthy (Row.notes r)
  && match JS.JSON_parse (default ""%string (Row.notes r)) with
     | Some _ => false
     | None => true
     end.

End Delta.

(** ** Page geometry of the payslip (src/lib/pdf/payslipLayout.ts) *)

Module Layout.
Import JS.

(** [A4_DIMENSIONS]. *)
Definition A4_width : Z := 210.
Definition A4_height : Z := 297.

(** [doc.internal.pageSize]: what [getWidth()] and [getHeight()] return. *)
Record PageSize : Type := { getWidth : Q; getHeight : Q }.

Record Verification : Type := {
  isValid : bool;
  actual : Z * Z
}.

(** [verifyPDFPageSize], without its logging. *)
Definition verifyPDFPageSize (pageInfo : PageSize) : Verification :=
  let actualWidth := Math_round (getWidth pageInfo) in
  let actualHeight := Math_round (getHeight pageInfo) in
  {| isValid := (actualWidth =? A4_width) && (actualHeight =? A4_height);
     actual := (actualWidth, actualHeight) |}.

(** The constants and derived lengths of [drawPayslipSection]. *)
Definition startX : Q := 12.
Definition margin : Q := 8.
Definition sectionGap : Q := 2.
Definition contentPadding : Q := 8.
Definition infoLineHeight : Q := 4.8.
Definition dataLineHeight : Q := 4.4.
Definition netPayHeight : Q := 8.

Definition availableWidth (page : PageSize) : Q := (getWidth page - 2 * margin)%Q.
Definition availableHeight (page : PageSize) : Q := (getHeight page - 2 * margin)%Q.
Definition sectionHeight (page : PageSize) : Q :=
  ((availableHeight page - 2 * sectionGap) / 3)%Q.
Definition headerHeight (page : PageSize) : Q := (sectionHeight page * 0.18)%Q.
Definition infoHeight (page : PageSize) : Q := (sectionHeight page * 0.26)%Q.

(** [Math.min(earnings.length, deductions.length, 3)], both tables
    having five rows. *)
Definition maxRows : nat := Nat.min (Nat.min 5 5) 3.

(** The vertical positions at which one call of [drawPayslipSection]
    writes, for a section whose border starts at [yPos]. *)
Record Positions : Type := {
  border_top : Q;
  border_bottom : Q;
  header_lines : list Q;       (* SSS SOLUTIONS, PAYSLIP, branch name *)
  header_rule : Q;
  info_lines : list Q;         (* the three lines of employee information *)
  table_head : Q;
  table_rows : list Q;
  net_pay_box_top : Q;
  net_pay_text : Q;
  totals : Q;
  footer : Q;
  next_section : Q             (* the value returned *)
}.

(** The successive values of a cursor that starts at [y0] and is
    advanced by [step] after each of [n] lines. *)
Fixpoint cursor_lines (n : nat) (y0 step : Q) : list Q :=
  match n with
  | O => []
  | S k => y0 :: cursor_lines k (y0 + step)%Q step
  end.

Definition cursor_after (n : nat) (y0 step : Q) : Q :=
  Nat.iter n (fun y => (y + step)%Q) y0.

Definition drawPayslipSection_positions (page : PageSize) (yPosition : Q) : Positions :=
  let yPos := yPosition in
  let headerBottom := (yPos + headerHeight page)%Q in
  let infoY := (headerBottom + 5)%Q in
  let tableStartY := (headerBottom + infoHeight page + 2)%Q in
  let dataY := (tableStartY + 4)%Q in
  let dataY_end := cursor_after maxRows dataY dataLineHeight in
  let netPayY := (dataY_end + 3)%Q in
  let totalsY := (netPayY + netPayHeight + 3)%Q in
  let footerY := (yPos + sectionHeight page - 15)%Q in
  {| border_top := yPos;
     border_bottom := (yPos + sectionHeight page)%Q;
     header_lines := [(yPos + 8)%Q; (yPos + 15)%Q; (yPos + 21)%Q];
     header_rule := (headerBottom + 1)%Q;
     info_lines := cursor_lines 3 infoY infoLineHeight;
     table_head := tableStartY;
     table_rows := cursor_lines maxRows dataY dataLineHeight;
     net_pay_box_top := netPayY;
     net_pay_text := (netPayY + netPayHeight / 2 + 1)%Q;
     totals := totalsY;
     footer := footerY;
     next_section := (yPosition + sectionHeight page + sectionGap)%Q |}.

(** All text base lines of a section, in the order they are written. *)
Definition text_lines (p : Positions) : list Q :=
  header_lines p ++ info_lines p ++ [table_head p] ++ table_rows p
  ++ [net_pay_text p; totals p; footer p].

(** Strictly increasing. *)
Fixpoint ascending (l : list Q) : Prop :=
  match l with
  | x :: ((y :: _) as rest) => (x < y)%Q /\ ascending rest
  | _ => True
  end.

End Layout.

(** ** The Gregorian calendar, for stating what a month range is *)

Module Calendar.
Import JS.

Definition leap_year (y : Z) : bool :=
  (y mod 4 =? 0) && (negb (y mod 100 =? 0) || (y mod 400 =? 0)).

Definition days_in_month (y m : Z) : Z :=
  if m =? 2 then (if leap_year y then 29 else 28)
  else if (m =? 4) || (m =? 6) || (m =? 9) || (m =? 11) then 30
  else 31.

Definition dash : string := String (ch 45) EmptyString.

(** A month selector [YYYY-MM], as the month picker writes it. *)
Definition selector (y m : Z) : string :=
  String.append (Z_to_string y) (String.append dash (padStart2 (Z_to_string m))).

(** The date [YYYY-MM-DD]. *)
Definition iso (y m d : Z) : string :=
  String.append (selector y m) (String.append dash (padStart2 (Z_to_string d))).

Definition month_range (y m : Z) : string * string :=
  (iso y m 1, iso y m (days_in_month y m)).

(** The value of a sequence of decimal digits read after [acc]. *)
Fixpoint uint_val (d : Decimal.uint) (acc : Z) : Z :=
  match d with
  | Decimal.Nil => acc
  | Decimal.D0 l => uint_val l (10 * acc)
  | Decimal.D1 l => uint_val l (10 * acc + 1)
  | Decimal.D2 l => uint_val l (10 * acc + 2)
  | Decimal.D3 l => uint_val l (10 * acc + 3)
  | Decimal.D4 l => uint_val l (10 * acc + 4)
  | Decimal.D5 l => uint_val l (10 * acc + 5)
  | Decimal.D6 l => uint_val l (10 * acc + 6)
  | Decimal.D7 l => uint_val l (10 * acc + 7)
  | Decimal.D8 l => uint_val l (10 * acc + 8)
  | Decimal.D9 l => uint_val l (10 * acc + 9)
  end.

End Calendar.

(** ** Vocabulary for the payslip aggregator *)

Module Notes.
Import JS.

(** A notes value that [+=] adds as a number: an absent property,
    [null], a boolean, a number, or the empty string (which is falsy
    and gives way to the [0] of [|| 0]).  With a non-empty string, an
    array or an object the [+=] of the source concatenates strings. *)
Definition adds_as_number (v : jsval) : bool :=
  match v with
  | None | Some JNull | Some (JBool _) | Some (JNum _) => true
  | Some (JStr s) => String.eqb s ""
  | Some (JArr _) | Some (JObj _) => false
  end.

Definition keys : list string :=
  ["present_days"; "absent_days"; "late_days"; "ot_hours"; "food"; "uniform"]%string.

(** Each of the six fields the manual entry reads adds as a number. *)
Definition numeric (parsedNotes : json) : bool :=
  forallb (fun key => match get_prop parsedNotes key with
                      | Some v => adds_as_number v
                      | None => true
                      end) keys.

End Notes.

(** ** The range of time values *)

Module TimeRange.
Import JS.

(** TimeClip: a time value more than 8.64e15 ms from the epoch is no
    date. *)
Definition TimeClip (t : Z) : option Z :=
  if Z.abs t <=? 8640000000000000 then Some t else None.

(** The date as the constructor leaves it once the time value is
    clipped. *)
Definition clipped (d : Date) : Date :=
  match d with
  | Some t => TimeClip t
  | None => None
  end.

End TimeRange.

(** ** The single-employee hook in binary64 arithmetic *)

Module Attendance64.
Import JS Attendance.

(** The in-place updates [stats.field += x] on doubles. *)
Definition add_present_days (x : Q) (s : EmployeeAttendanceStats) :=
  mkStats (employee_id s) (Binary64.add (present_days s) x) (absent_days s) (late_days s)
          (ot_hours s) (total_days s) (food s) (uniform s) (deduction s).
Definition add_absent_days (x : Q) (s : EmployeeAttendanceStats) :=
  mkStats (employee_id s) (present_days s) (Binary64.add (absent_days s) x) (late_days s)
          (ot_hours s) (total_days s) (food s) (uniform s) (deduction s).
Definition add_late_days (x : Q) (s : EmployeeAttendanceStats) :=
  mkStats (employee_id s) (present_days s) (absent_days s) (Binary64.add (late_days s) x)
          (ot_hours s) (total_days s) (food s) (uniform s) (deduction s).
Definition add_ot_hours (x : Q) (s : EmployeeAttendanceStats) :=
  mkStats (employee_id s) (present_days s) (absent_days s) (late_days s)
          (Binary64.add (ot_hours s) x) (total_days s) (food s) (uniform s) (deduction s).
Definition add_food (x : Q) (s : EmployeeAttendanceStats) :=
  mkStats (employee_id s) (present_days s) (absent_days s) (late_days s)
          (ot_hours s) (total_days s) (Binary64.add (food s) x) (uniform s) (deduction s).
Definition add_uniform (x : Q) (s : EmployeeAttendanceStats) :=
  mkStats (employee_id s) (present_days s) (absent_days s) (late_days s)
          (ot_hours s) (total_days s) (food s) (Binary64.add (uniform s) x) (deduction s).
Definition add_deduction (x : Q) (s : EmployeeAttendanceStats) :=
  mkStats (employee_id s) (present_days s) (absent_days s) (late_days s)
          (ot_hours s) (total_days s) (food s) (uniform s) (Binary64.add (deduction s) x).

(** [Number(v) || 0]: [Number] yields the double nearest to the value
    it reads. *)
Definition direct (v : jsval) : Q := or_zero (option_map Binary64.round (Number v)).

(** [Number(parsedNotes.key) || 0]. *)
Definition from_notes (parsedNotes : json) (key : string) : Q :=
  match get_prop parsedNotes key with
  | Some v => or_zero (option_map Binary64.round (Number v))
  | None => 0%Q
  end.

(** PRIORITY 3: [switch (record.status)]. *)
Definition count_status (status : string) (stats : EmployeeAttendanceStats)
  : EmployeeAttendanceStats :=
  if String.eqb status "present" then add_present_days 1 stats
  else if String.eqb status "absent" then add_absent_days 1 stats
  else if String.eqb status "late" then add_late_days 1 stats
  else stats.

(** The body of the [forEach] callback, lines 83-149 of
    [useEmployeeAttendanceStats], every [+=] rounding its sum. *)
Definition process_record (record : Row.t) (stats : EmployeeAttendanceStats)
  : EmployeeAttendanceStats :=
  let directPresent := direct (Row.present_days record) in
  let directAbsent := direct (Row.absent_days record) in
  let directLate := direct (Row.late_days record) in
  let directOT := direct (Row.ot_hours record) in
  let directFood := direct (Row.food record) in
  let directUniform := direct (Row.uniform record) in
  let directDeduction := direct (Row.deduction record) in
  let stats := add_present_days directPresent stats in
  let stats := add_absent_days directAbsent stats in
  let stats := add_late_days directLate stats in
  let stats := add_ot_hours directOT stats in
  let stats := add_food directFood stats in
  let stats := add_uniform directUniform stats in
  let stats := add_deduction directDeduction stats in
  if negb (truthy directPresent) && negb (truthy directAbsent)
     && negb (truthy directLate) && negb (truthy directOT)
     && Row.notes_truthy (Row.notes record)
  then
    match JSON_parse (default ""%string (Row.notes record)) with
    | Some parsedNotes =>
        if is_object parsedNotes then
          let notesPresent := from_notes parsedNotes "present_days" in
          let notesAbsent := from_notes parsedNotes "absent_days" in
          let notesLate := from_notes parsedNotes "late_days" in
          let notesOT := from_notes parsedNotes "ot_hours" in
          let notesFood := from_notes parsedNotes "food" in
          let notesUniform := from_notes parsedNotes "uniform" in
          let stats := add_present_days notesPresent stats in
          let stats := add_absent_days notesAbsent stats in
          let stats := add_late_days notesLate stats in
          let stats := add_ot_hours notesOT stats in
          let stats := add_food notesFood stats in
          let stats := add_uniform notesUniform stats in
          stats
        else stats
    | None => count_status (Row.status record) stats
    end
  else stats.

(** The accumulator of [useEmployeeAttendanceStats] after
    [data?.forEach(..)]. *)
Definition employee_stats (employeeId : string) (data : list Row.t)
  : EmployeeAttendanceStats :=
  let stats := new_stats employeeId (inject_Z (Z.of_nat (List.length data))) in
  fold_left (fun stats record => process_record record stats) data stats.

End Attendance64.

(** ** Vocabulary for the order of the rows *)

Module Equal.

(** Two accumulators hold the same numbers (rationals are compared as
    numbers, not as fractions). *)
Definition stats (a b : Attendance.EmployeeAttendanceStats) : Prop :=
  Attendance.employee_id a = Attendance.employee_id b
  /\ (Attendance.present_days a == Attendance.present_days b)%Q
  /\ (Attendance.absent_days a == Attendance.absent_days b)%Q
  /\ (Attendance.late_days a == Attendance.late_days b)%Q
  /\ (Attendance.ot_hours a == Attendance.ot_hours b)%Q
  /\ (Attendance.total_days a == Attendance.total_days b)%Q
  /\ (Attendance.food a == Attendance.food b)%Q
  /\ (Attendance.uniform a == Attendance.uniform b)%Q
  /\ (Attendance.deduction a == Attendance.deduction b)%Q.

End Equal.

Module Contribution.
Import Attendance.



End Contribution.

Module Whole.
Import JS.

(** A whole number of magnitude at most [B]. *)
Definition number (B : Z) (q : Q) : bool :=
  Qeq_bool q (inject_Z (Qfloor q)) && (Z.abs (Qfloor q) <=? B).

(** Every number the hooks read from the row is whole: the seven
    columns and, when the notes parse, their six fields. *)
Definition row (B : Z) (r : Row.t) : bool :=
  number B (Attendance.direct (Row.present_days r))
  && number B (Attendance.direct (Row.absent_days r))
  && number B (Attendance.direct (Row.late_days r))
  && number B (Attendance.direct (Row.ot_hours r))
  && number B (Attendance.direct (Row.food r))
  && number B (Attendance.direct (Row.uniform r))
  && number B (Attendance.direct (Row.deduction r))
  && match JSON_parse (default ""%string (Row.notes r)) with
     | Some parsedNotes =>
         forallb (fun key => number B (Attendance.from_notes parsedNotes key)) Notes.keys
     | None => true
     end.

(** The double [q] is the integer [n] for some [n] of magnitude at
    most [K]. *)
Definition double (K : Z) (q : Q) : Prop := exists n, q = inject_Z n /\ Z.abs n <= K.

Definition stats (K : Z) (s : Attendance.EmployeeAttendanceStats) : Prop :=
  double K (Attendance.present_days s) /\ double K (Attendance.absent_days s)
  /\ double K (Attendance.late_days s) /\ double K (Attendance.ot_hours s)
  /\ double K (Attendance.total_days s) /\ double K (Attendance.food s)
  /\ double K (Attendance.uniform s) /\ double K (Attendance.deduction s).


End Whole.

Module Fractions.
Import JS.

(** Three rows of one employee with overtime of 0.1, 0.2 and 0.7 hours
    in the [ot_hours] column. *)
Definition overtime (q : Q) : Row.t :=
  Row.mk "e1" "2024-02-08" "present" None None
         (Some JNull) (Some JNull) (Some JNull) (Some (JNum q))
         (Some JNull) (Some JNull) (Some JNull) None.

Definition ascending : list Row.t := [overtime 0.1; overtime 0.2; overtime 0.7].

End Fractions.

(** * Properties *)

(** ** Numbers *)

Lemma Qplus_0_r_eq (x : Q) : (x + 0)%Q = x.
Proof.
  destruct x as [a b]. unfold Qplus. simpl.
  rewrite Z.mul_1_r, Pos.mul_1_r, Z.add_0_r. reflexivity.
Qed.

Lemma or_zero_falsy (x : option Q) :
  JS.truthy (JS.or_zero x) = false -> JS.or_zero x = 0%Q.
Proof.
  unfold JS.or_zero. destruct x as [q|]; [|reflexivity].
  destruct (JS.truthy q) eqn:E; [congruence | reflexivity].
Qed.

(** ** Binary64 rounding *)

Section Binary64Facts.
Import Binary64.
Local Open Scope Q_scope.

Lemma two_not_zero : ~ 2 == 0.
Proof. discriminate. Qed.

Lemma pow2_pos (k : Z) : 0 < 2 ^ k.
Proof. apply Qpower_0_lt. reflexivity. Qed.

Lemma pow2_le (a b : Z) : (a <= b)%Z -> 2 ^ a <= 2 ^ b.
Proof. intros H. apply Qpower_le_compat_l; [exact H | discriminate]. Qed.


Lemma pow2_lt_inv (a b : Z) : 2 ^ a < 2 ^ b -> (a < b)%Z.
Proof. intros H. apply (Qpower_lt_compat_l_inv 2); [exact H | reflexivity]. Qed.

Lemma pow2_add (a b : Z) : 2 ^ (a + b) == 2 ^ a * 2 ^ b.
Proof. apply Qpower_plus, two_not_zero. Qed.

Lemma pow2_sub (a b : Z) : 2 ^ (a - b) == 2 ^ a / 2 ^ b.
Proof. apply Qpower_minus, two_not_zero. Qed.

Lemma pow2_Z (k : Z) : (0 <= k)%Z -> inject_Z (2 ^ k) == 2 ^ k.
Proof. intros H. apply (Zpower_Qpower 2 k H). Qed.

(** Dividing by a power of two and multiplying back. *)
Lemma scale_back (q : Q) (e : Z) : q / 2 ^ e * 2 ^ e == q.
Proof. field. apply Qpower_not_0, two_not_zero. Qed.

Lemma scale_le (x y : Q) (e : Z) : x <= y -> x / 2 ^ e <= y / 2 ^ e.
Proof.
  intros H. unfold Qdiv. apply Qmult_le_compat_r; [exact H|].
  apply Qlt_le_weak, Qinv_lt_0_compat, pow2_pos.
Qed.

Lemma ilog2_spec (q : Q) : 0 < q -> 2 ^ ilog2 q <= q /\ q < 2 ^ (ilog2 q + 1).
Proof.
  intros Hq. unfold ilog2. cbv zeta.
  destruct q as [n d]. assert (Hn : (0 < n)%Z).
  { unfold Qlt in Hq. cbn in Hq. lia. }
  cbn [Qnum Qden].
  pose proof (Z.log2_spec n Hn) as [Ha1 Ha2].
  pose proof (Z.log2_spec (Z.pos d) (Pos2Z.is_pos d)) as [Hb1 Hb2].
  pose proof (Z.log2_nonneg n) as Ha0. pose proof (Z.log2_nonneg (Z.pos d)) as Hb0.
  set (a := Z.log2 n) in *. set (b := Z.log2 (Z.pos d)) in *.
  assert (HN1 : 2 ^ a <= inject_Z n).
  { rewrite <- (pow2_Z a Ha0). rewrite <- Zle_Qle. exact Ha1. }
  assert (HN2 : inject_Z n < 2 ^ (a + 1)).
  { rewrite <- (pow2_Z (a + 1)) by lia. rewrite <- Zlt_Qlt. exact Ha2. }
  assert (HD1 : 2 ^ b <= inject_Z (Z.pos d)).
  { rewrite <- (pow2_Z b Hb0). rewrite <- Zle_Qle. exact Hb1. }
  assert (HD2 : inject_Z (Z.pos d) < 2 ^ (b + 1)).
  { rewrite <- (pow2_Z (b + 1)) by lia. rewrite <- Zlt_Qlt. exact Hb2. }
  assert (Eq : (n # d) * inject_Z (Z.pos d) == inject_Z n).
  { rewrite (Qmake_Qdiv n d). field. discriminate. }
  assert (HD0 : 0 < inject_Z (Z.pos d)) by reflexivity.
  pose proof (pow2_pos (a - b)) as HP.
  assert (EP : 2 ^ (a - b) * 2 ^ b == 2 ^ a).
  { rewrite <- pow2_add. apply Qpower_comp; [reflexivity | lia]. }
  assert (E1 : 2 ^ (a + 1) == 2 * 2 ^ a).
  { rewrite pow2_add. rewrite Qmult_comm. reflexivity. }
  assert (E2 : 2 ^ (b + 1) == 2 * 2 ^ b).
  { rewrite pow2_add. rewrite Qmult_comm. reflexivity. }
  assert (E3 : 2 ^ (a - b - 1 + 1) == 2 ^ (a - b)).
  { apply Qpower_comp; [reflexivity | lia]. }
  assert (E4 : 2 ^ (a - b + 1) == 2 * 2 ^ (a - b)).
  { rewrite pow2_add. rewrite Qmult_comm. reflexivity. }
  assert (E5 : 2 * 2 ^ (a - b - 1) == 2 ^ (a - b)).
  { rewrite <- E3, pow2_add. rewrite Qmult_comm. reflexivity. }
  pose proof (pow2_pos b) as HB. pose proof (pow2_pos (a - b - 1)) as HP1.
  set (q := n # d) in *. set (N := inject_Z n) in *. set (D := inject_Z (Z.pos d)) in *.
  destruct (Qle_bool (2 ^ (a - b)) q) eqn:Hc.
  - apply Qle_bool_iff in Hc. split; [exact Hc|].
    rewrite E4. apply (Qmult_lt_r _ _ D HD0). rewrite Eq.
    apply Qlt_le_trans with (2 * 2 ^ a); [rewrite <- E1; exact HN2|].
    rewrite <- EP. rewrite !Qmult_assoc.
    apply Qmult_le_l; [nra | exact HD1].
  - assert (Hlt : q < 2 ^ (a - b)).
    { apply Qnot_le_lt. intros H. apply Qle_bool_iff in H. congruence. }
    split; [|rewrite E3; exact Hlt].
    apply (Qmult_le_r _ _ D HD0). rewrite Eq.
    apply Qle_trans with (2 ^ a); [|exact HN1].
    rewrite <- EP, <- E5.
    apply Qle_trans with (2 ^ (a - b - 1) * (2 * 2 ^ b)); [|lra].
    apply Qmult_le_l; [exact HP1|]. rewrite <- E2. apply Qlt_le_weak, HD2.
Qed.

Lemma ilog2_unique (q : Q) (k : Z) :
  0 < q -> 2 ^ k <= q -> q < 2 ^ (k + 1) -> ilog2 q = k.
Proof.
  intros Hq H1 H2. destruct (ilog2_spec q Hq) as [S1 S2].
  assert (ilog2 q < k + 1)%Z by (apply pow2_lt_inv; lra).
  assert (k < ilog2 q + 1)%Z by (apply pow2_lt_inv; lra).
  lia.
Qed.

Lemma ilog2_comp (x y : Q) : 0 < x -> x == y -> ilog2 x = ilog2 y.
Proof.
  intros Hx E. assert (Hy : 0 < y) by lra.
  destruct (ilog2_spec y Hy) as [S1 S2].
  apply ilog2_unique; lra.
Qed.

Lemma ilog2_monotone (x y : Q) : 0 < x -> x <= y -> (ilog2 x <= ilog2 y)%Z.
Proof.
  intros Hx H. assert (Hy : 0 < y) by lra.
  destruct (ilog2_spec x Hx) as [X1 X2]. destruct (ilog2_spec y Hy) as [Y1 Y2].
  assert (ilog2 x < ilog2 y + 1)%Z by (apply pow2_lt_inv; lra).
  lia.
Qed.


(** *** The nearest integer *)

Lemma nearest_even_spec (x : Q) :
  (inject_Z (nearest_even x) - (1 # 2) <= x /\ x <= inject_Z (nearest_even x) + (1 # 2))
  /\ (x == inject_Z (nearest_even x) - (1 # 2) \/ x == inject_Z (nearest_even x) + (1 # 2) ->
      Z.even (nearest_even x) = true).
Proof.
  unfold nearest_even. cbv zeta.
  pose proof (Qfloor_le x) as Hlo. pose proof (Qlt_floor x) as Hhi.
  rewrite inject_Z_plus in Hhi. change (inject_Z 1) with 1 in Hhi.
  set (f := Qfloor x) in *.
  destruct (Qcompare_spec (x - inject_Z f) (1 # 2)) as [E|L|G].
  - destruct (Z.even f) eqn:Ev.
    + split; [split; lra|]. intros _. exact Ev.
    + rewrite inject_Z_plus. change (inject_Z 1) with 1.
      split; [split; lra|]. intros _.
      rewrite Z.even_add, Ev. reflexivity.
  - split; [split; lra|]. intros [H|H]; exfalso; lra.
  - rewrite inject_Z_plus. change (inject_Z 1) with 1.
    split; [split; lra|]. intros [H|H]; exfalso; lra.
Qed.

Lemma Z_of_Qeq (n m : Z) : inject_Z n == inject_Z m -> n = m.
Proof. unfold Qeq. cbn. lia. Qed.

Lemma even_neighbours (n m : Z) :
  Z.even n = true -> Z.even m = true -> m <> (n + 1)%Z.
Proof.
  intros Hn Hm E. subst m. rewrite Z.even_add, Hn in Hm. discriminate.
Qed.

Lemma nearest_even_unique (x : Q) (n : Z) :
  inject_Z n - (1 # 2) <= x -> x <= inject_Z n + (1 # 2) ->
  (x == inject_Z n - (1 # 2) \/ x == inject_Z n + (1 # 2) -> Z.even n = true) ->
  nearest_even x = n.
Proof.
  intros H1 H2 He.
  destruct (nearest_even_spec x) as [[S1 S2] Se].
  set (m := nearest_even x) in *.
  destruct (Z.lt_total m n) as [Hlt|[Heq|Hgt]]; [exfalso | exact Heq | exfalso].
  - assert (Hn : (m + 1 <= n)%Z) by lia.
    rewrite Zle_Qle in Hn. rewrite inject_Z_plus in Hn. change (inject_Z 1) with 1 in Hn.
    assert (E1 : x == inject_Z m + (1 # 2)) by lra.
    assert (E2 : x == inject_Z n - (1 # 2)) by lra.
    assert (E3 : inject_Z n == inject_Z (m + 1)).
    { rewrite inject_Z_plus. change (inject_Z 1) with 1. lra. }
    apply Z_of_Qeq in E3.
    apply (even_neighbours m n); [apply Se; right; exact E1 | apply He; left; exact E2 | exact E3].
  - assert (Hn : (n + 1 <= m)%Z) by lia.
    rewrite Zle_Qle in Hn. rewrite inject_Z_plus in Hn. change (inject_Z 1) with 1 in Hn.
    assert (E1 : x == inject_Z n + (1 # 2)) by lra.
    assert (E2 : x == inject_Z m - (1 # 2)) by lra.
    assert (E3 : inject_Z m == inject_Z (n + 1)).
    { rewrite inject_Z_plus. change (inject_Z 1) with 1. lra. }
    apply Z_of_Qeq in E3.
    apply (even_neighbours n m); [apply He; right; exact E1 | apply Se; left; exact E2 | exact E3].
Qed.

Lemma nearest_even_Z (n : Z) : nearest_even (inject_Z n) = n.
Proof.
  apply nearest_even_unique; [lra | lra |]. intros [H|H]; exfalso; lra.
Qed.

Lemma nearest_even_comp (x y : Q) : x == y -> nearest_even x = nearest_even y.
Proof.
  intros E. destruct (nearest_even_spec y) as [[S1 S2] Se].
  apply nearest_even_unique; [lra | lra |].
  intros [H|H]; apply Se; [left | right]; lra.
Qed.

Lemma nearest_even_opp (x : Q) : nearest_even (- x) = (- nearest_even x)%Z.
Proof.
  destruct (nearest_even_spec x) as [[S1 S2] Se].
  apply nearest_even_unique; rewrite ?inject_Z_opp; [lra | lra |].
  rewrite Z.even_opp. intros [H|H]; apply Se; [right | left]; lra.
Qed.

Lemma nearest_even_monotone (x y : Q) : x <= y -> (nearest_even x <= nearest_even y)%Z.
Proof.
  intros H.
  destruct (nearest_even_spec x) as [[X1 X2] Xe].
  destruct (nearest_even_spec y) as [[Y1 Y2] Ye].
  set (n := nearest_even x) in *. set (m := nearest_even y) in *.
  destruct (Z_le_gt_dec n m) as [Hle|Hgt]; [exact Hle | exfalso].
  assert (Hn : (m + 1 <= n)%Z) by lia.
  rewrite Zle_Qle in Hn. rewrite inject_Z_plus in Hn. change (inject_Z 1) with 1 in Hn.
  assert (E1 : y == inject_Z m + (1 # 2)) by lra.
  assert (E2 : x == inject_Z n - (1 # 2)) by lra.
  assert (E3 : inject_Z n == inject_Z (m + 1)).
  { rewrite inject_Z_plus. change (inject_Z 1) with 1. lra. }
  apply Z_of_Qeq in E3.
  apply (even_neighbours m n); [apply Ye; right; exact E1 | apply Xe; left; exact E2 | exact E3].
Qed.

(** *** Rounding to a double *)

Lemma Qabs_pos_lt (q : Q) : ~ q == 0 -> 0 < Qabs q.
Proof.
  intros H. destruct (Qlt_le_dec 0 (Qabs q)) as [Hp|Hn]; [exact Hp | exfalso].
  pose proof (Qabs_nonneg q). apply H.
  destruct (Qabs_Qle_condition q 0) as [F _]. specialize (F Hn). lra.
Qed.

Lemma ulp_exponent_comp (x y : Q) : ~ x == 0 -> x == y -> ulp_exponent x = ulp_exponent y.
Proof.
  intros Hx E. unfold ulp_exponent.
  rewrite (ilog2_comp (Qabs x) (Qabs y)); [reflexivity | apply Qabs_pos_lt, Hx |].
  apply Qabs_wd, E.
Qed.

Lemma ulp_exponent_opp (x : Q) : ~ x == 0 -> ulp_exponent (- x) = ulp_exponent x.
Proof.
  intros Hx. unfold ulp_exponent.
  rewrite (ilog2_comp (Qabs (- x)) (Qabs x)); [reflexivity | |apply Qabs_opp].
  apply Qabs_pos_lt. intros H. apply Hx. lra.
Qed.

(** [round] does not depend on how its argument is written as a
    fraction. *)
Lemma round_comp (x y : Q) : x == y -> round x = round y.
Proof.
  intros E. unfold round. rewrite (Qeqb_comp x y E 0 0 (Qeq_refl 0)).
  destruct (Qeq_bool y 0) eqn:Hz; [reflexivity|].
  apply Qeq_bool_neq in Hz. assert (Hx : ~ x == 0) by (intros H; apply Hz; lra).
  cbv zeta. rewrite (ulp_exponent_comp x y Hx E).
  apply Qred_complete.
  rewrite (nearest_even_comp (x / 2 ^ ulp_exponent y) (y / 2 ^ ulp_exponent y));
    [reflexivity|]. rewrite E. reflexivity.
Qed.

Lemma round_zero (q : Q) : q == 0 -> round q = 0.
Proof. intros E. rewrite (round_comp q 0 E). reflexivity. Qed.

Lemma round_nonzero (q : Q) :
  ~ q == 0 ->
  round q == inject_Z (nearest_even (q / 2 ^ ulp_exponent q)) * 2 ^ ulp_exponent q.
Proof.
  intros H. unfold round.
  destruct (Qeq_bool q 0) eqn:Hz; [apply Qeq_bool_eq in Hz; contradiction|].
  cbv zeta. apply Qred_correct.
Qed.

Lemma round_opp (q : Q) : round (- q) == - round q.
Proof.
  destruct (Qeq_dec q 0) as [E|N].
  - rewrite (round_zero q E), (round_zero (- q)); [reflexivity | lra].
  - assert (N' : ~ - q == 0) by (intros H; apply N; lra).
    rewrite (round_nonzero _ N), (round_nonzero _ N'), (ulp_exponent_opp q N).
    rewrite (nearest_even_comp (- q / 2 ^ ulp_exponent q) (- (q / 2 ^ ulp_exponent q))).
    + rewrite nearest_even_opp, inject_Z_opp. ring.
    + field. apply Qpower_not_0, two_not_zero.
Qed.


Lemma ulp_exponent_pos (q : Q) :
  0 < q ->
  (-1074 <= ulp_exponent q)%Z
  /\ q / 2 ^ ulp_exponent q < 2 ^ 53
  /\ ((-1074 < ulp_exponent q)%Z -> 2 ^ 52 <= q / 2 ^ ulp_exponent q).
Proof.
  intros Hq. unfold ulp_exponent.
  assert (El : ilog2 (Qabs q) = ilog2 q).
  { apply ilog2_comp; [apply Qabs_pos_lt; lra | apply Qabs_pos; lra]. }
  rewrite El. destruct (ilog2_spec q Hq) as [S1 S2].
  set (l := ilog2 q) in *. set (e := Z.max (l - 52) (-1074)).
  assert (He : (l - 52 <= e)%Z) by lia.
  split; [lia|]. split.
  - apply Qlt_shift_div_r; [apply pow2_pos|].
    rewrite <- pow2_add. apply Qlt_le_trans with (2 ^ (l + 1)); [exact S2|].
    apply pow2_le. lia.
  - intros Hn. assert (Ee : e = (l - 52)%Z) by lia.
    apply Qle_shift_div_l; [apply pow2_pos|].
    rewrite <- pow2_add. apply Qle_trans with (2 ^ l); [|exact S1].
    apply pow2_le. lia.
Qed.

Lemma ulp_exponent_monotone (x y : Q) :
  0 < x -> x <= y -> (ulp_exponent x <= ulp_exponent y)%Z.
Proof.
  intros Hx H. unfold ulp_exponent.
  assert (ilog2 (Qabs x) <= ilog2 (Qabs y))%Z; [|lia].
  apply ilog2_monotone; [apply Qabs_pos_lt; lra|].
  rewrite !Qabs_pos by lra. exact H.
Qed.

Lemma round_pos_monotone (x y : Q) : 0 < x -> x <= y -> round x <= round y.
Proof.
  intros Hx H. assert (Hy : 0 < y) by lra.
  assert (Nx : ~ x == 0) by lra. assert (Ny : ~ y == 0) by lra.
  rewrite (round_nonzero x Nx), (round_nonzero y Ny).
  pose proof (ulp_exponent_monotone x y Hx H) as He.
  destruct (ulp_exponent_pos x Hx) as (X0 & X1 & _).
  destruct (ulp_exponent_pos y Hy) as (_ & _ & Y2).
  set (ex := ulp_exponent x) in *. set (ey := ulp_exponent y) in *.
  destruct (Z.eq_dec ex ey) as [E|N].
  - rewrite <- E. apply Qmult_le_compat_r; [|apply Qlt_le_weak, pow2_pos].
    rewrite <- Zle_Qle. apply nearest_even_monotone, scale_le, H.
  - assert (Hlt : (ex < ey)%Z) by lia.
    apply Qle_trans with (2 ^ 53 * 2 ^ ex).
    + apply Qmult_le_compat_r; [|apply Qlt_le_weak, pow2_pos].
      rewrite <- (pow2_Z 53) by lia. rewrite <- Zle_Qle.
      rewrite <- (nearest_even_Z (2 ^ 53)).
      apply nearest_even_monotone. rewrite (pow2_Z 53) by lia. lra.
    + apply Qle_trans with (2 ^ 52 * 2 ^ ey).
      * rewrite <- !pow2_add. apply pow2_le. lia.
      * apply Qmult_le_compat_r; [|apply Qlt_le_weak, pow2_pos].
        rewrite <- (pow2_Z 52) by lia. rewrite <- Zle_Qle.
        rewrite <- (nearest_even_Z (2 ^ 52)).
        apply nearest_even_monotone. rewrite (pow2_Z 52) by lia. apply Y2. lia.
Qed.

Lemma round_nonneg (q : Q) : 0 <= q -> 0 <= round q.
Proof.
  intros H. destruct (Qeq_dec q 0) as [E|N]; [rewrite (round_zero q E); lra|].
  rewrite (round_nonzero q N).
  apply Qmult_le_0_compat; [|apply Qlt_le_weak, pow2_pos].
  change 0 with (inject_Z 0). rewrite <- Zle_Qle.
  rewrite <- (nearest_even_Z 0). apply nearest_even_monotone.
  apply Qle_shift_div_l; [apply pow2_pos|].
  change (inject_Z 0) with 0. rewrite Qmult_0_l. exact H.
Qed.

(** Rounding keeps the order. *)
Lemma round_monotone (x y : Q) : x <= y -> round x <= round y.
Proof.
  intros H. destruct (Qlt_le_dec 0 x) as [Hx|Hx].
  - apply round_pos_monotone; assumption.
  - destruct (Qlt_le_dec y 0) as [Hy|Hy].
    + assert (G : round (- y) <= round (- x)) by (apply round_pos_monotone; lra).
      rewrite !round_opp in G. lra.
    + pose proof (round_nonneg y Hy).
      assert (G : 0 <= round (- x)) by (apply round_nonneg; lra).
      rewrite round_opp in G. lra.
Qed.

(** A number that is a whole multiple of its unit in the last place is
    a double, and rounds to itself. *)
Lemma round_exact (q : Q) (m : Z) :
  q / 2 ^ ulp_exponent q == inject_Z m -> round q == q.
Proof.
  intros H. destruct (Qeq_dec q 0) as [E|N]; [rewrite (round_zero q E); lra|].
  rewrite (round_nonzero q N), (nearest_even_comp _ _ H), nearest_even_Z, <- H.
  apply scale_back.
Qed.




(** The integers below [2^53] in magnitude are doubles. *)
Lemma round_Z (n : Z) : (Z.abs n < 2 ^ 53)%Z -> round (inject_Z n) == inject_Z n.
Proof.
  intros Hn. destruct (Z.eq_dec n 0%Z) as [->|N]; [reflexivity|].
  assert (Ha : Qabs (inject_Z n) == inject_Z (Z.abs n)) by reflexivity.
  assert (Hp : 0 < Qabs (inject_Z n)).
  { rewrite Ha. change 0 with (inject_Z 0). rewrite <- Zlt_Qlt. lia. }
  destruct (ilog2_spec _ Hp) as [S1 S2].
  set (l := ilog2 (Qabs (inject_Z n))) in *.
  assert (Hl : (l < 53)%Z).
  { apply pow2_lt_inv. apply Qle_lt_trans with (Qabs (inject_Z n)); [exact S1|].
    rewrite Ha, <- (pow2_Z 53) by lia. rewrite <- Zlt_Qlt. exact Hn. }
  assert (Hl0 : (0 <= l)%Z).
  { assert (0 < l + 1)%Z; [|lia]. apply pow2_lt_inv.
    apply Qle_lt_trans with (Qabs (inject_Z n)); [|exact S2].
    rewrite Ha. change (2 ^ 0) with (inject_Z 1). rewrite <- Zle_Qle. lia. }
  assert (Ee : ulp_exponent (inject_Z n) = (l - 52)%Z) by (unfold ulp_exponent; fold l; lia).
  apply (round_exact _ (n * 2 ^ (52 - l))). rewrite Ee.
  rewrite inject_Z_mult, pow2_Z by lia.
  rewrite pow2_sub, (pow2_sub 52 l). field.
  repeat split; apply Qpower_not_0, two_not_zero.
Qed.

End Binary64Facts.

(** ** The attendance hooks *)

Section AttendanceHooks.
Import JS Attendance.

Lemma direct_falsy (v : jsval) : truthy (direct v) = false -> direct v = 0%Q.
Proof. apply or_zero_falsy. Qed.

Lemma has_direct_values_false (r : Row.t) :
  has_direct_values r = false ->
  direct (Row.present_days r) = 0%Q /\ direct (Row.absent_days r) = 0%Q
  /\ direct (Row.late_days r) = 0%Q /\ direct (Row.ot_hours r) = 0%Q.
Proof.
  unfold has_direct_values. intros H.
  apply orb_false_elim in H as [H Ho]. apply orb_false_elim in H as [H Hl].
  apply orb_false_elim in H as [Hp Ha].
  auto using direct_falsy.
Qed.

(** The callback body, with its guard folded into [has_direct_values]. *)
Lemma process_record_unfold (r : Row.t) (s : EmployeeAttendanceStats) :
  process_record r s =
  let stats := add_structured r s in
  if negb (has_direct_values r) && Row.notes_truthy (Row.notes r) then
    match JSON_parse (default ""%string (Row.notes r)) with
    | Some parsedNotes =>
        if is_object parsedNotes then
          add_uniform (from_notes parsedNotes "uniform")
            (add_food (from_notes parsedNotes "food")
               (add_ot_hours (from_notes parsedNotes "ot_hours")
                  (add_late_days (from_notes parsedNotes "late_days")
                     (add_absent_days (from_notes parsedNotes "absent_days")
                        (add_present_days (from_notes parsedNotes "present_days") stats)))))
        else stats
    | None => count_status (Row.status r) stats
    end
  else stats.
Proof.
  unfold process_record, has_direct_values, add_structured.
  rewrite !negb_orb. rewrite <- !andb_assoc. reflexivity.
Qed.

Lemma add_structured_no_direct (r : Row.t) (s : EmployeeAttendanceStats) :
  has_direct_values r = false ->
  add_structured r s =
  add_deduction (direct (Row.deduction r))
    (add_uniform (direct (Row.uniform r)) (add_food (direct (Row.food r)) s)).
Proof.
  intros H. destruct (has_direct_values_false r H) as (Hp & Ha & Hl & Ho).
  unfold add_structured. rewrite Hp, Ha, Hl, Ho.
  unfold add_deduction, add_uniform, add_food, add_ot_hours, add_late_days,
    add_absent_days, add_present_days; simpl.
  rewrite !Qplus_0_r_eq. reflexivity.
Qed.

Lemma count_status_commutes (st : string) (r : Row.t) (s : EmployeeAttendanceStats) :
  count_status st
    (add_deduction (direct (Row.deduction r))
       (add_uniform (direct (Row.uniform r)) (add_food (direct (Row.food r)) s)))
  = add_deduction (direct (Row.deduction r))
      (add_uniform (direct (Row.uniform r))
         (add_food (direct (Row.food r)) (count_status st s))).
Proof.
  unfold count_status.
  destruct (String.eqb st "present"); [reflexivity|].
  destruct (String.eqb st "absent"); [reflexivity|].
  destruct (String.eqb st "late"); reflexivity.
Qed.

Lemma all_employees_step_lookup (m : gmap string EmployeeAttendanceStats) (r : Row.t) :
  all_employees_step m r !! Row.employee_id r
  = Some (process_record r
            (add_total_days 1
               (default (new_stats (Row.employee_id r) 0) (m !! Row.employee_id r)))).
Proof. unfold all_employees_step. apply lookup_insert_eq. Qed.

End AttendanceHooks.
Section AttendanceClaims.
Import JS Attendance Samples.

Lemma ot_hours_count_status (st : string) (s : EmployeeAttendanceStats) :
  ot_hours (count_status st s) = ot_hours s.
Proof.
  unfold count_status.
  destruct (String.eqb st "present"); [reflexivity|].
  destruct (String.eqb st "absent"); [reflexivity|].
  destruct (String.eqb st "late"); reflexivity.
Qed.

Lemma process_record_direct (r : Row.t) (s : EmployeeAttendanceStats) :
  has_direct_values r = true -> process_record r s = add_structured r s.
Proof. intros H. rewrite process_record_unfold, H. reflexivity. Qed.

Lemma process_record_set_times (ci co : option string) (r : Row.t)
    (s : EmployeeAttendanceStats) :
  process_record (Row.set_times ci co r) s = process_record r s.
Proof. reflexivity. Qed.

Lemma all_employees_step_set_times (ci co : option string) (r : Row.t)
    (m : gmap string EmployeeAttendanceStats) :
  all_employees_step m (Row.set_times ci co r) = all_employees_step m r.
Proof. reflexivity. Qed.

(** C1 (amended).  In both hook aggregators, for a record in which none
    of present_days, absent_days, late_days, ot_hours is non-zero and
    whose notes are a non-empty text that fails to parse as JSON, the
    status decides which one of the present, absent and late counters
    grows by 1; besides that counter the record only adds its own
    food, uniform and deduction columns, and, in the all-employees
    hook, 1 to total_days. *)
Theorem C1_status_counted_when_notes_fail_to_parse (r : Row.t) (n : string) :
  has_direct_values r = false ->
  Row.notes r = Some n -> n <> ""%string -> JSON_parse n = None ->
  (forall s,
      process_record r s
      = add_deduction (direct (Row.deduction r))
          (add_uniform (direct (Row.uniform r))
             (add_food (direct (Row.food r)) (count_status (Row.status r) s))))
  /\ (forall m : gmap string EmployeeAttendanceStats,
      all_employees_step m r !! Row.employee_id r
      = Some (add_deduction (direct (Row.deduction r))
                (add_uniform (direct (Row.uniform r))
                   (add_food (direct (Row.food r))
                      (count_status (Row.status r)
                         (add_total_days 1
                            (default (new_stats (Row.employee_id r) 0)
                                     (m !! Row.employee_id r))))))))
  /\ (forall s, Row.status r = "present"%string ->
         count_status (Row.status r) s = add_present_days 1 s)
  /\ (forall s, Row.status r = "absent"%string ->
         count_status (Row.status r) s = add_absent_days 1 s)
  /\ (forall s, Row.status r = "late"%string ->
         count_status (Row.status r) s = add_late_days 1 s).
Proof.
  intros Hd Hn Hne Hparse.
  assert (Hs : forall s,
             process_record r s
             = add_deduction (direct (Row.deduction r))
                 (add_uniform (direct (Row.uniform r))
                    (add_food (direct (Row.food r)) (count_status (Row.status r) s)))).
  { intros s. rewrite process_record_unfold. cbv zeta.
    rewrite Hd, Hn. simpl.
    apply String.eqb_neq in Hne. rewrite Hne. simpl. rewrite Hparse.
    rewrite add_structured_no_direct by exact Hd.
    apply count_status_commutes. }
  split; [exact Hs|].
  split; [intros m; rewrite all_employees_step_lookup, Hs; reflexivity|].
  repeat split; intros s E; rewrite E; reflexivity.
Qed.

Lemma C1_witness :
  has_direct_values text_notes_row = false
  /\ process_record text_notes_row (new_stats "e1" 0) = mkStats "e1" 1 0 0 0 0 0 0 0.
Proof.
  split; [vm_compute; reflexivity|].
  rewrite (proj1 (C1_status_counted_when_notes_fail_to_parse text_notes_row
                    "came late, left early"
                    ltac:(vm_compute; reflexivity) eq_refl
                    ltac:(discriminate) ltac:(vm_compute; reflexivity))).
  vm_compute. reflexivity.
Defined.

(** C1 as stated fails: a row without notes, or with notes that parse
    to a number, is not counted at all; a row counted by its status
    still adds its food column; and the all-employees hook adds 1 to
    total_days for every row. *)
Lemma C1_counterexample :
  (has_direct_values daily_row = false /\ Row.notes daily_row = None
   /\ process_record daily_row (new_stats "e1" 0) = new_stats "e1" 0
   /\ count_status (Row.status daily_row) (new_stats "e1" 0) = mkStats "e1" 1 0 0 0 0 0 0 0
   /\ useEmployeeAttendanceStats (client_of [daily_row]) 0 0 "e1" (Some "2024-02"%string)
      = inr (mkStats "e1" 0 0 0 0 1 0 0 0))
  /\ (has_direct_values number_notes_row = false
      /\ JSON_parse "5" = Some (JNum 5) /\ is_object (JNum 5) = false
      /\ process_record number_notes_row (new_stats "e1" 0) = new_stats "e1" 0)
  /\ (has_direct_values food_row = false /\ JSON_parse "n/a" = None
      /\ process_record food_row (new_stats "e1" 0) = mkStats "e1" 1 0 0 0 0 50 0 0)
  /\ (all_employee_stats [text_notes_row] !! "e1"%string
      = Some (mkStats "e1" 1 0 0 0 1 0 0 0)).
Proof. vm_compute. repeat split; reflexivity. Qed.

(** C3 (amended).  For a record in which one of present_days,
    absent_days, late_days, ot_hours is non-zero, both hooks add the
    structured columns and nothing else: the notes are never read, so
    replacing them changes nothing. *)
Theorem C3_direct_values_shadow_notes (r : Row.t) (n' : option string) :
  has_direct_values r = true ->
  (forall s, process_record r s = add_structured r s)
  /\ (forall s, process_record (Row.set_notes n' r) s = process_record r s)
  /\ (forall m : gmap string EmployeeAttendanceStats,
         all_employees_step m (Row.set_notes n' r) = all_employees_step m r).
Proof.
  intros H.
  assert (H' : has_direct_values (Row.set_notes n' r) = true) by exact H.
  assert (Hs : forall s, process_record (Row.set_notes n' r) s = process_record r s).
  { intros s. rewrite !process_record_direct by assumption. reflexivity. }
  split; [intros s; apply process_record_direct, H|].
  split; [exact Hs|].
  intros m. unfold all_employees_step. simpl. rewrite Hs. reflexivity.
Qed.

Lemma C3_witness :
  has_direct_values bulk_row = true
  /\ process_record bulk_row (new_stats "e1" 0) = mkStats "e1" 22 0 0 6 0 0 0 0.
Proof.
  split; [vm_compute; reflexivity|].
  rewrite (proj1 (C3_direct_values_shadow_notes bulk_row None
                    ltac:(vm_compute; reflexivity))).
  vm_compute. reflexivity.
Defined.

(** C3 as stated fails: food is one of the seven structured fields,
    yet a row whose only non-zero column is food has its notes read
    and added on top of the column. *)
Lemma C3_counterexample :
  direct (Row.food food_and_manual_row) = 50%Q
  /\ process_record food_and_manual_row (new_stats "e1" 0)
     = mkStats "e1" 20 0 0 4 0 55 0 0
  /\ process_record (Row.set_notes None food_and_manual_row) (new_stats "e1" 0)
     = mkStats "e1" 0 0 0 0 0 50 0 0
  /\ all_employee_stats [food_and_manual_row] !! "e1"%string
     = Some (mkStats "e1" 20 0 0 4 1 55 0 0).
Proof. vm_compute. repeat split; reflexivity. Qed.

End AttendanceClaims.
(** ** Overtime from time stamps, and the payslip aggregator *)

Section OvertimeClaims.
Import JS Samples.

Lemma employee_fold_set_times (g : Row.t -> option string * option string)
    (data : list Row.t) (s : Attendance.EmployeeAttendanceStats) :
  fold_left (fun stats record => Attendance.process_record record stats)
            (map (fun r => Row.set_times (fst (g r)) (snd (g r)) r) data) s
  = fold_left (fun stats record => Attendance.process_record record stats) data s.
Proof.
  revert s. induction data as [|r data IH]; intros s; [reflexivity|].
  simpl. rewrite IH. reflexivity.
Qed.

Lemma all_employees_fold_set_times (g : Row.t -> option string * option string)
    (data : list Row.t) (m : gmap string Attendance.EmployeeAttendanceStats) :
  fold_left Attendance.all_employees_step
            (map (fun r => Row.set_times (fst (g r)) (snd (g r)) r) data) m
  = fold_left Attendance.all_employees_step data m.
Proof.
  revert m. induction data as [|r data IH]; intros m; [reflexivity|].
  simpl. rewrite IH. reflexivity.
Qed.

Lemma hook_ot_hours (r : Row.t) (s : Attendance.EmployeeAttendanceStats) :
  Attendance.ot_hours (Attendance.process_record r s)
  = (Attendance.ot_hours s + Attendance.direct (Row.ot_hours r)
     + Attendance.notes_overtime r)%Q.
Proof.
  rewrite process_record_unfold. cbv zeta. unfold Attendance.notes_overtime.
  destruct (negb (Attendance.has_direct_values r) && Row.notes_truthy (Row.notes r));
    [|simpl; rewrite Qplus_0_r_eq; reflexivity].
  destruct (JSON_parse (default ""%string (Row.notes r))) as [p|].
  - destruct (is_object p); simpl; [reflexivity|].
    rewrite Qplus_0_r_eq. reflexivity.
  - rewrite ot_hours_count_status. simpl. rewrite Qplus_0_r_eq. reflexivity.
Qed.

Lemma manual_entry_iff (r : Row.t) (p : json) :
  PdfStats.manual_entry r = Some p <->
  Row.status r = "present"%string
  /\ (exists n, Row.notes r = Some n /\ n <> ""%string /\ JSON_parse n = Some p)
  /\ (exists members v, p = JObj members /\ get_member "present_days" members = Some v).
Proof.
  unfold PdfStats.manual_entry. split.
  - destruct (Row.notes r) as [n|] eqn:Hn; simpl; [|discriminate].
    destruct (String.eqb n "") eqn:Hne; simpl; [discriminate|].
    destruct (String.eqb (Row.status r) "present") eqn:Hst; [|discriminate].
    destruct (JSON_parse n) as [q|] eqn:Hp; [|discriminate].
    destruct q as [| | | |items|members]; simpl; try discriminate.
    destruct (get_member "present_days" members) as [v|] eqn:Hm; [|discriminate].
    intros E. inversion E; subst p.
    split; [apply String.eqb_eq, Hst|].
    split; [exists n; repeat split; [apply String.eqb_neq, Hne | exact Hp]|].
    exists members, v. split; [reflexivity | exact Hm].
  - intros (Hst & (n & Hn & Hne & Hp) & (members & v & -> & Hm)).
    rewrite Hn. simpl. apply String.eqb_neq in Hne. rewrite Hne. simpl.
    apply String.eqb_eq in Hst. rewrite Hst, Hp. simpl. rewrite Hm. reflexivity.
Qed.

Lemma pdf_step_lookup (m : gmap string PdfStats.AttendanceStats) (r : Row.t) :
  PdfStats.step m r !! Row.employee_id r
  = Some (PdfStats.process_record r
            (default (PdfStats.new_stats (Row.employee_id r)) (m !! Row.employee_id r))).
Proof. unfold PdfStats.step. apply lookup_insert_eq. Qed.

(** C2 (amended).  Neither hook applies the overtime-from-time-stamps
    rule: the single-employee and the all-employees aggregation give
    the same result whatever the check-in and check-out times of the
    rows are, and the overtime a record adds is its ot_hours column
    plus, when priority 2 runs, the ot_hours of its notes.  The rule is
    applied by [fetchAttendanceStats] alone, and there only to records
    that are not manual entries. *)
Theorem C2_time_stamp_overtime_is_absent_from_both_hooks :
  (forall (g : Row.t -> option string * option string) employeeId data,
      Attendance.employee_stats employeeId
        (map (fun r => Row.set_times (fst (g r)) (snd (g r)) r) data)
      = Attendance.employee_stats employeeId data)
  /\ (forall (g : Row.t -> option string * option string) data,
      Attendance.all_employee_stats
        (map (fun r => Row.set_times (fst (g r)) (snd (g r)) r) data)
      = Attendance.all_employee_stats data)
  /\ (forall r s,
      Attendance.ot_hours (Attendance.process_record r s)
      = (Attendance.ot_hours s + Attendance.direct (Row.ot_hours r)
         + Attendance.notes_overtime r)%Q)
  /\ (forall r s,
      PdfStats.manual_entry r = None ->
      PdfStats.process_record r s
      = PdfStats.overtime_from_times r (PdfStats.count_status (Row.status r) s))
  /\ (forall r s p,
      PdfStats.manual_entry r = Some p ->
      PdfStats.ot_hours (PdfStats.process_record r s)
      = (PdfStats.ot_hours s + PdfStats.notes_field p "ot_hours")%Q).
Proof.
  split.
  { intros g employeeId data. unfold Attendance.employee_stats.
    rewrite length_map. apply employee_fold_set_times. }
  split.
  { intros g data. apply all_employees_fold_set_times. }
  split; [exact hook_ot_hours|].
  split.
  - intros r s H. unfold PdfStats.process_record. rewrite H. reflexivity.
  - intros r s p H. unfold PdfStats.process_record. rewrite H. reflexivity.
Qed.

(** C2 as stated fails: the single-employee hook does not add the two
    hours by which a ten-hour day exceeds eight, while the payslip
    aggregator does. *)
Lemma C2_counterexample :
  PdfStats.workHours "09:00:00" "19:00:00" = Some (36000000 # 3600000)
  /\ Attendance.useEmployeeAttendanceStats (client_of [stamped_row]) 0 0 "e1"
       (Some "2024-02"%string)
     = inr (Attendance.mkStats "e1" 1 0 0 0 1 0 0 0)
  /\ Attendance.ot_hours
       (Attendance.process_record stamped_row (Attendance.new_stats "e1" 0)) = 0%Q
  /\ PdfStats.ot_hours
       (PdfStats.process_record stamped_row (PdfStats.new_stats "e1")) = (7200000 # 3600000).
Proof. vm_compute. repeat split; reflexivity. Qed.

End OvertimeClaims.

(** ** Manual entries and daily records of the payslip aggregator *)

Section ManualEntries.
Import JS PdfStats.
Local Open Scope Q_scope.

Lemma time_of_day_truthy (t : string) (v : Z) :
  time_of_day t = Some v -> time_truthy (Some t) = true.
Proof.
  intros H. unfold time_truthy, Row.notes_truthy.
  destruct t as [|c t]; [discriminate H | reflexivity].
Qed.

Lemma overtime_without_stamps (r : Row.t) (s : AttendanceStats) :
  time_truthy (Row.check_in_time r) = false \/ time_truthy (Row.check_out_time r) = false ->
  overtime_from_times r s = s.
Proof.
  intros [H|H]; unfold overtime_from_times; rewrite H; [reflexivity|].
  rewrite andb_false_r. reflexivity.
Qed.

Lemma overtime_with_stamps (r : Row.t) (s : AttendanceStats) (ci co : string) (i o : Z) :
  Row.check_in_time r = Some ci -> Row.check_out_time r = Some co ->
  time_of_day ci = Some i -> time_of_day co = Some o ->
  overtime_from_times r s
  = if gt (inject_Z (o - i) / inject_Z (1000 * 60 * 60)) 8
    then add_ot_hours (inject_Z (o - i) / inject_Z (1000 * 60 * 60) - 8) s
    else s.
Proof.
  intros Hci Hco Hi Ho. unfold overtime_from_times. rewrite Hci, Hco.
  rewrite (time_of_day_truthy ci i Hi), (time_of_day_truthy co o Ho).
  change (default ""%string (Some ci)) with ci.
  change (default ""%string (Some co)) with co.
  unfold workHours. rewrite Hi, Ho. reflexivity.
Qed.

Lemma more_than_eight_hours (d : Z) :
  gt (inject_Z d / inject_Z (1000 * 60 * 60)) 8 = true <-> (8 * 3600000 < d)%Z.
Proof.
  unfold gt. rewrite negb_true_iff.
  change (inject_Z (1000 * 60 * 60)) with (3600000 # 1).
  split.
  - intros H. destruct (Z_lt_le_dec (8 * 3600000) d) as [L|L]; [exact L | exfalso].
    assert (G : Qle_bool (inject_Z d / (3600000 # 1)) 8 = true); [|congruence].
    apply Qle_bool_iff. unfold Qdiv, Qinv. cbn [Qnum Qden].
    unfold Qle, Qmult, inject_Z. cbn [Qnum Qden]. lia.
  - intros H. destruct (Qle_bool (inject_Z d / (3600000 # 1)) 8) eqn:E; [exfalso | reflexivity].
    apply Qle_bool_iff in E. unfold Qdiv, Qinv in E. cbn [Qnum Qden] in E.
    unfold Qle, Qmult, inject_Z in E. cbn [Qnum Qden] in E. lia.
Qed.

Lemma notes_field_number (members : list (string * json)) (key : string) (q : Q) :
  get_member key members = Some (JNum q) -> notes_field (JObj members) key == q.
Proof.
  intros H. unfold notes_field, get_prop. rewrite H. unfold operand, ToBoolean.
  cbn [Number ToNumber or_zero]. unfold truthy.
  destruct (Qeq_bool q 0) eqn:E; cbn [negb]; [|reflexivity].
  apply Qeq_bool_eq in E. rewrite E. reflexivity.
Qed.


(** C10.  In [fetchAttendanceStats] the notes branch is taken exactly
    for a record whose status is 'present', whose notes are present and
    whose notes parse to a value with a defined present_days property.
    Then neither the status count nor the overtime from the time stamps
    happens: the result does not depend on the time stamps, and (for
    notes whose six fields add as numbers) each of the six fields grows
    by the value of the notes and by nothing else.  Every other record
    is counted by its status (one more present, absent or late day;
    nothing for another status) and then gets the overtime from its
    time stamps: nothing when a time stamp is missing or the day is not
    longer than eight hours, the hours beyond eight otherwise.  A
    manual entry of 20 days and 4 hours stamped 09:00 to 19:00 counts
    20 days and 4 hours; a daily record with these stamps counts one
    day and 2 hours. *)
Theorem C10_manual_entry_branch :
  (forall r p,
      manual_entry r = Some p <->
      Row.status r = "present"%string
      /\ (exists n, Row.notes r = Some n /\ n <> ""%string /\ JSON_parse n = Some p)
      /\ (exists members v,
             p = JObj members /\ get_member "present_days" members = Some v))
  /\ (forall r p s,
      manual_entry r = Some p ->
      (forall ci co, process_record (Row.set_times ci co r) s = process_record r s)
      /\ (Notes.numeric p = true ->
          process_record r s
          = mkStats (employee_id s)
              (present_days s + notes_field p "present_days")
              (absent_days s + notes_field p "absent_days")
              (late_days s + notes_field p "late_days")
              (ot_hours s + notes_field p "ot_hours")
              (food s + notes_field p "food")
              (uniform s + notes_field p "uniform")))
  /\ (forall members key q,
      get_member key members = Some (JNum q) -> notes_field (JObj members) key == q)
  /\ (forall r s,
      manual_entry r = None ->
      process_record r s = overtime_from_times r (count_status (Row.status r) s))
  /\ (forall s,
      count_status "present" s
      = mkStats (employee_id s) (present_days s + 1) (absent_days s) (late_days s)
                (ot_hours s) (food s) (uniform s)
      /\ count_status "absent" s
         = mkStats (employee_id s) (present_days s) (absent_days s + 1) (late_days s)
                   (ot_hours s) (food s) (uniform s)
      /\ count_status "late" s
         = mkStats (employee_id s) (present_days s) (absent_days s) (late_days s + 1)
                   (ot_hours s) (food s) (uniform s)
      /\ (forall status,
            status <> "present"%string -> status <> "absent"%string ->
            status <> "late"%string -> count_status status s = s))
  /\ (forall r s,
      time_truthy (Row.check_in_time r) = false
      \/ time_truthy (Row.check_out_time r) = false ->
      overtime_from_times r s = s)
  /\ (forall r s ci co i o,
      Row.check_in_time r = Some ci -> Row.check_out_time r = Some co ->
      time_of_day ci = Some i -> time_of_day co = Some o ->
      ((8 * 3600000 < o - i)%Z ->
       overtime_from_times r s
       = mkStats (employee_id s) (present_days s) (absent_days s) (late_days s)
                 (ot_hours s + (inject_Z (o - i) / inject_Z (1000 * 60 * 60) - 8))
                 (food s) (uniform s))
      /\ ((o - i <= 8 * 3600000)%Z -> overtime_from_times r s = s))
  /\ (forall (m : gmap string AttendanceStats) r,
      step m r !! Row.employee_id r
      = Some (process_record r
                (default (new_stats (Row.employee_id r)) (m !! Row.employee_id r))))
  /\ (manual_entry Samples.manual_row <> None
      /\ present_days (process_record Samples.manual_row (new_stats "e1")) == 20
      /\ ot_hours (process_record Samples.manual_row (new_stats "e1")) == 4
      /\ manual_entry Samples.daily_row = None
      /\ present_days (process_record Samples.daily_row (new_stats "e1")) == 1
      /\ ot_hours (process_record Samples.daily_row (new_stats "e1")) == 2).
Proof.
  split; [exact manual_entry_iff|].
  split.
  { intros r p s H. unfold process_record.
    assert (H' : forall ci co, manual_entry (Row.set_times ci co r) = Some p)
      by (intros; exact H).
    split; [intros ci co; rewrite H', H; reflexivity|].
    intros _. rewrite H. reflexivity. }
  split; [exact notes_field_number|].
  split.
  { intros r s H. unfold process_record. rewrite H. reflexivity. }
  split.
  { intros s. split; [reflexivity|]. split; [reflexivity|]. split; [reflexivity|].
    intros status H1 H2 H3. unfold count_status.
    apply String.eqb_neq in H1, H2, H3. rewrite H1, H2, H3. reflexivity. }
  split; [exact overtime_without_stamps|].
  split.
  { intros r s ci co i o Hci Hco Hi Ho.
    rewrite (overtime_with_stamps r s ci co i o Hci Hco Hi Ho).
    split; intros H.
    - rewrite (proj2 (more_than_eight_hours (o - i)) H). reflexivity.
    - destruct (gt (inject_Z (o - i) / inject_Z (1000 * 60 * 60)) 8) eqn:E; [|reflexivity].
      apply more_than_eight_hours in E. lia. }
  split; [exact pdf_step_lookup|].
  vm_compute. repeat split; try reflexivity; discriminate.
Qed.

End ManualEntries.

(** ** Month boundaries *)

Section MonthBoundaries.
Import JS MonthRange.

Lemma local_day_new_Date (tza D : Z) : local_day tza (D * msPerDay - tza) = D.
Proof.
  unfold local_day. rewrite Z.sub_add. apply Z.div_mul. discriminate.
Qed.

(** A date built from local calendar fields prints the same in every
    time zone. *)
Lemma formatLocalDate_new_Date (tza : Z) (y m d : option Z) :
  formatLocalDate tza (new_Date tza y m d) = formatLocalDate 0 (new_Date 0 y m d).
Proof.
  destruct y as [y|], m as [m|], d as [d|]; try reflexivity.
  unfold formatLocalDate, getFullYear, getMonth, getDate, new_Date. simpl option_map.
  rewrite !local_day_new_Date. reflexivity.
Qed.

Lemma of_selected_any_zone (tza : Z) (selectedMonth : string) :
  of_selected tza selectedMonth = of_selected 0 selectedMonth.
Proof.
  unfold of_selected. destruct (year_month selectedMonth) as [year month].
  rewrite !(formatLocalDate_new_Date tza). reflexivity.
Qed.

(** C8.  For the month selector "2024-02" every aggregator queries the
    rows dated from 2024-02-01 to 2024-02-29, both ends included,
    whatever the time zone of the process (and whatever the current
    time); the boundaries of any selected month are those computed in
    UTC. *)
Theorem C8_february_2024_boundaries (tza now : Z) (supabase : Storage.Client)
    (employeeId : string) :
  of_selected tza "2024-02" = ("2024-02-01"%string, "2024-02-29"%string)
  /\ (forall selectedMonth, of_selected tza selectedMonth = of_selected 0 selectedMonth)
  /\ Attendance.useEmployeeAttendanceStats supabase tza now employeeId (Some "2024-02"%string)
     = Attendance.employee_outcome employeeId
         (supabase {| Storage.eq_employee_id := Some employeeId;
                      Storage.gte_date := "2024-02-01";
                      Storage.lte_date := "2024-02-29" |})
  /\ Attendance.useAllEmployeesAttendanceStats supabase tza now (Some "2024-02"%string)
     = Attendance.all_employees_outcome
         (supabase {| Storage.eq_employee_id := None;
                      Storage.gte_date := "2024-02-01";
                      Storage.lte_date := "2024-02-29" |})
  /\ PdfStats.fetchAttendanceStats supabase tza "2024-02"
     = PdfStats.outcome
         (supabase {| Storage.eq_employee_id := None;
                      Storage.gte_date := "2024-02-01";
                      Storage.lte_date := "2024-02-29" |}).
Proof.
  assert (H : of_selected tza "2024-02" = ("2024-02-01"%string, "2024-02-29"%string)).
  { rewrite of_selected_any_zone. vm_compute. reflexivity. }
  split; [exact H|].
  split; [exact (of_selected_any_zone tza)|].
  unfold Attendance.useEmployeeAttendanceStats, Attendance.useAllEmployeesAttendanceStats,
    PdfStats.fetchAttendanceStats, range.
  simpl String.eqb. cbv iota. rewrite H. repeat split; reflexivity.
Qed.

End MonthBoundaries.
(** ** The PF and ESI reports *)

Section ReportClaims.
Import JS Reports.

Lemma gt_zero_false (x : Q) : (x == 0)%Q -> gt x 0 = false.
Proof.
  intros H. unfold gt. apply negb_false_iff, Qle_bool_iff.
  rewrite H. apply Qle_refl.
Qed.

Lemma without_attendance_has_no_data
    (attendanceStats : gmap string Attendance.EmployeeAttendanceStats) (emp : Employee) :
  without_attendance attendanceStats emp -> has_data attendanceStats emp = false.
Proof.
  unfold has_data. intros [H | (stats & H & Hp & Ho)]; rewrite H; [reflexivity|].
  rewrite (gt_zero_false _ Hp), (gt_zero_false _ Ho). reflexivity.
Qed.

Lemma filter_drops (attendanceStats : gmap string Attendance.EmployeeAttendanceStats)
    (before after : list Employee) (emp : Employee) :
  has_data attendanceStats emp = false ->
  List.filter (has_data attendanceStats) (before ++ emp :: after)
  = List.filter (has_data attendanceStats) (before ++ after).
Proof.
  intros H. rewrite !List.filter_app. simpl. rewrite H. reflexivity.
Qed.

(** C9.  An employee without statistics for the month, or whose
    statistics have present_days = 0 and ot_hours = 0, fails the filter
    both generators start with, so the PF and the ESI report are what
    they would be without that employee; and when the filter leaves no
    employee, both generators end with the "No Data Found" notice and
    download nothing. *)
Theorem C9_employees_without_attendance_are_left_out
    (attendanceStats : gmap string Attendance.EmployeeAttendanceStats)
    (selectedMonth : string) (before after : list Employee) (emp : Employee) :
  without_attendance attendanceStats emp ->
  has_data attendanceStats emp = false
  /\ ~ In emp (List.filter (has_data attendanceStats) (before ++ emp :: after))
  /\ generatePFReport (before ++ emp :: after) attendanceStats selectedMonth
     = generatePFReport (before ++ after) attendanceStats selectedMonth
  /\ generateESIReport (before ++ emp :: after) attendanceStats selectedMonth
     = generateESIReport (before ++ after) attendanceStats selectedMonth
  /\ (forall employees,
         List.filter (has_data attendanceStats) employees = [] ->
         generatePFReport employees attendanceStats selectedMonth = NoDataFound
         /\ generateESIReport employees attendanceStats selectedMonth = NoDataFound).
Proof.
  intros H. pose proof (without_attendance_has_no_data _ _ H) as Hd.
  split; [exact Hd|].
  split.
  { intros Hin. apply List.filter_In in Hin. destruct Hin as [_ Hin]. congruence. }
  unfold generatePFReport, generateESIReport.
  rewrite !(filter_drops _ _ _ _ Hd).
  split; [reflexivity|]. split; [reflexivity|].
  intros employees He. cbv zeta. rewrite He. split; reflexivity.
Qed.

Lemma C9_witness :
  without_attendance Samples.february Samples.ravi
  /\ generatePFReport [Samples.asha; Samples.ravi] Samples.february "2024-02"
     = generatePFReport [Samples.asha] Samples.february "2024-02".
Proof.
  assert (H : without_attendance Samples.february Samples.ravi)
    by (left; vm_compute; reflexivity).
  split; [exact H|].
  exact (proj1 (proj2 (proj2
           (C9_employees_without_attendance_are_left_out Samples.february "2024-02"
              [Samples.asha] [] Samples.ravi H)))).
Defined.

End ReportClaims.
(** ** Rounding, ESI and the payslip *)

Section MoneyClaims.
Import JS.

Lemma Math_round_nearest (x : Q) :
  (inject_Z (Math_round x) - (1 # 2) <= x)%Q /\ (x < inject_Z (Math_round x) + (1 # 2))%Q.
Proof.
  unfold Math_round.
  pose proof (Qfloor_le (x + (1 # 2))) as Hlo.
  pose proof (Qlt_floor (x + (1 # 2))) as Hhi.
  rewrite inject_Z_plus in Hhi. change (inject_Z 1) with 1%Q in Hhi.
  split; lra.
Qed.

Lemma Math_round_half_away (x : Q) :
  (0 <= x)%Q -> Math_round x = round_half_away_from_zero x.
Proof.
  intros H. unfold round_half_away_from_zero, Math_round.
  apply Qle_bool_iff in H. rewrite H. reflexivity.
Qed.

Lemma Math_round_monotone (x y : Q) : (x <= y)%Q -> Math_round x <= Math_round y.
Proof. intros H. unfold Math_round. apply Qfloor_resp_le. lra. Qed.

Lemma round_employee_share (g : Z) :
  Math_round (inject_Z g * 0.0075) = (150 * g + 10000) / 20000.
Proof.
  unfold Math_round, Qfloor, Qplus, Qmult, inject_Z. simpl. f_equal; lia.
Qed.

Lemma round_employer_share (g : Z) :
  Math_round (inject_Z g * 0.0325) = (650 * g + 10000) / 20000.
Proof.
  unfold Math_round, Qfloor, Qplus, Qmult, inject_Z. simpl. f_equal; lia.
Qed.

(** C5 (amended).  In the ESI report both contributions are exactly 0
    whenever grossEarnings > 21000; otherwise they are
    round(grossEarnings x 0.0075) and round(grossEarnings x 0.0325),
    which are strictly positive from a gross of 67 (employee) and of 16
    (employer) on, and 0 for a smaller positive gross. *)
Theorem C5_esi_contributions (grossEarnings : Z) :
  (21000 < grossEarnings ->
     Reports.employeeESI grossEarnings = 0 /\ Reports.employerESI grossEarnings = 0)
  /\ (grossEarnings <= 21000 ->
     Reports.employeeESI grossEarnings = Math_round (inject_Z grossEarnings * 0.0075)
     /\ Reports.employerESI grossEarnings = Math_round (inject_Z grossEarnings * 0.0325))
  /\ (67 <= grossEarnings <= 21000 -> 0 < Reports.employeeESI grossEarnings)
  /\ (16 <= grossEarnings <= 21000 -> 0 < Reports.employerESI grossEarnings)
  /\ (0 <= grossEarnings <= 66 -> Reports.employeeESI grossEarnings = 0)
  /\ (0 <= grossEarnings <= 15 -> Reports.employerESI grossEarnings = 0)
  /\ (forall attendanceStats employee,
        Reports.lookup_cell "Employee ESI (0.75%)" (Reports.esi_row attendanceStats employee)
        = Some (Reports.Num
                  (inject_Z (Reports.employeeESI (Reports.gross attendanceStats employee))))
        /\ Reports.lookup_cell "Employer ESI (3.25%)" (Reports.esi_row attendanceStats employee)
           = Some (Reports.Num
                     (inject_Z (Reports.employerESI (Reports.gross attendanceStats employee))))).
Proof.
  unfold Reports.employeeESI, Reports.employerESI.
  rewrite round_employee_share, round_employer_share.
  split.
  { intros H. apply Z.ltb_lt in H. rewrite H. split; reflexivity. }
  split.
  { intros H. apply Z.ltb_ge in H. rewrite H. split; reflexivity. }
  split.
  { intros [H1 H2]. apply Z.ltb_ge in H2. rewrite H2.
    apply Z.div_str_pos. lia. }
  split.
  { intros [H1 H2]. apply Z.ltb_ge in H2. rewrite H2.
    apply Z.div_str_pos. lia. }
  split.
  { intros [H1 H2]. assert (H : grossEarnings <= 21000) by lia.
    apply Z.ltb_ge in H. rewrite H. apply Z.div_small. lia. }
  split.
  { intros [H1 H2]. assert (H : grossEarnings <= 21000) by lia.
    apply Z.ltb_ge in H. rewrite H. apply Z.div_small. lia. }
  intros attendanceStats employee. split; reflexivity.
Qed.

(** C5 as stated fails: a positive gross below the threshold can give
    a contribution of 0.  Half an hour of overtime and no present day
    earn 30, on which the employee share rounds to 0; a gross of 10
    gives 0 for both shares. *)
Lemma C5_counterexample :
  Reports.otAmount (1 # 2) = 30
  /\ Reports.employeeESI 30 = 0
  /\ Reports.employeeESI 10 = 0 /\ Reports.employerESI 10 = 0.
Proof. vm_compute. repeat split; reflexivity. Qed.

End MoneyClaims.

(** ** The payslip and the rounding steps in binary64 arithmetic *)

Section PayslipDoubles.
Import JS.
Local Open Scope Q_scope.











(** The locals of [Payslip64.financials], written out. *)
Lemma financials_fields (employee : Payslip.Employee) (stats : Payslip.Stats) :
  let pfBase :=
    Binary64.add (Binary64.add (Payslip.basic_salary employee) (Payslip.hra employee))
                 (Payslip.allowances employee) in
  let gross := Payslip64.gross_of employee in
  let ot := Binary64.mul (Payslip.ot_hours stats) 60 in
  let pf := Z.min (Math_round (Binary64.mul pfBase (Binary64.round 0.12))) 1800 in
  let esi := Math_round (Binary64.mul gross (Binary64.round 0.0075)) in
  let total := Binary64.add (inject_Z pf) (inject_Z esi) in
  Payslip64.financials employee stats
  = {| Payslip64.otAmount := ot; Payslip64.grossEarnings := gross;
       Payslip64.pfBaseSalary := pfBase; Payslip64.pf := pf; Payslip64.esi := esi;
       Payslip64.totalDeductions := total;
       Payslip64.netPay := Binary64.sub (Binary64.add gross ot) total |}.
Proof. reflexivity. Qed.







End PayslipDoubles.

Section MoneyDoubles.
Import JS.
Local Open Scope Q_scope.


(** C7 (amended).  Every rounding step of the PF, ESI and payslip
    derivations is a [Math.round] of the double the step computes: it
    yields the integer nearest to that double, a tie going toward
    positive infinity, which on amounts that are not negative is
    rounding half away from zero.  The steps round their own
    intermediate value (earnedBasic, earnedDA and otAmount before they
    are summed, each PF and ESI share on its own), not a final
    total.  The double is the rounded product: 300.9 x 25 gives
    7522, 1.025 x 60 gives 61 and 143.82 x 25 gives 3596. *)
Theorem C7_every_step_rounds_half_up :
  (forall x,
      inject_Z (Math_round x) - (1 # 2) <= x /\ x < inject_Z (Math_round x) + (1 # 2))
  /\ (forall x, 0 <= x -> Math_round x = round_half_away_from_zero x)
  /\ (forall attendanceStats employee,
      Reports64.gross attendanceStats employee
      = (Math_round (Binary64.mul (or_zero (Reports.basic_salary employee))
                                  (Reports.presentDays_of attendanceStats employee))
         + Math_round (Binary64.mul (or_zero (Reports.da_amount employee))
                                    (Reports.presentDays_of attendanceStats employee))
         + Math_round (Binary64.mul (Reports.otHours_of attendanceStats employee) 60))%Z)
  /\ (forall pfBasic,
      Reports64.emp12Amount pfBasic
      = Z.min (Math_round (Binary64.mul (inject_Z pfBasic) (Binary64.round 0.12))) 1800
      /\ Reports64.employerEPF pfBasic
         = Math_round (Binary64.mul (inject_Z pfBasic) (Binary64.round 0.0833))
      /\ Reports64.employerEPS pfBasic
         = Math_round (Binary64.mul (inject_Z pfBasic) (Binary64.round 0.0367)))
  /\ (forall grossEarnings,
      (grossEarnings <= 21000)%Z ->
      Reports64.employeeESI grossEarnings
      = Math_round (Binary64.mul (inject_Z grossEarnings) (Binary64.round 0.0075))
      /\ Reports64.employerESI grossEarnings
         = Math_round (Binary64.mul (inject_Z grossEarnings) (Binary64.round 0.0325)))
  /\ (forall employee stats,
      Payslip64.pf (Payslip64.financials employee stats)
      = Z.min (Math_round
                 (Binary64.mul (Payslip64.pfBaseSalary (Payslip64.financials employee stats))
                               (Binary64.round 0.12))) 1800
      /\ Payslip64.esi (Payslip64.financials employee stats)
         = Math_round
             (Binary64.mul (Payslip64.grossEarnings (Payslip64.financials employee stats))
                           (Binary64.round 0.0075)))
  /\ ((Reports64.earnedBasic (Binary64.round 0.4) 1
       + Reports64.earnedDA (Binary64.round 0.4) 1 = 0)%Z
      /\ Math_round (Binary64.add (Binary64.mul (Binary64.round 0.4) 1)
                                  (Binary64.mul (Binary64.round 0.4) 1)) = 1%Z)
  /\ (Reports64.earnedBasic (Binary64.round 300.9) 25 = 7522%Z
      /\ Reports64.otAmount (Binary64.round 1.025) = 61%Z
      /\ Reports64.earnedDA (Binary64.round 143.82) 25 = 3596%Z).
Proof.
  split; [exact Math_round_nearest|].
  split; [exact Math_round_half_away|].
  split; [intros; unfold Reports64.gross, Reports64.earnedBasic, Reports64.earnedDA,
            Reports64.otAmount; reflexivity|].
  split; [intros; unfold Reports64.emp12Amount, Reports64.employerEPF,
            Reports64.employerEPS, Math_min; repeat split; reflexivity|].
  split.
  { intros g H. unfold Reports64.employeeESI, Reports64.employerESI.
    apply Z.ltb_ge in H. rewrite H. split; reflexivity. }
  split; [intros employee stats; rewrite financials_fields; split; reflexivity|].
  split; [vm_compute; split; reflexivity|].
  vm_compute. repeat split; reflexivity.
Qed.

(** C7 as stated fails in two ways.  A negative amount that ends in one
    half: [Math.round] takes -2.5 to -2, rounding half away from zero
    takes it to -3, so that a daily allowance of -2.5 over one present
    day turns a basic salary of 100 into a gross of 98.  And an amount
    whose decimal product is a tie: the double 300.9 x 25 lies just
    below 7522.5 and is rounded to 7522, where rounding the product
    itself half away from zero gives 7523. *)
Lemma C7_counterexample :
  Math_round (-5 # 2) = (-2)%Z
  /\ round_half_away_from_zero (-5 # 2) = (-3)%Z
  /\ Reports64.earnedDA (-5 # 2) 1 = (-2)%Z
  /\ round_half_away_from_zero (Binary64.mul (-5 # 2) 1) = (-3)%Z
  /\ Reports.has_data Samples.february Samples.adjusted = true
  /\ Reports64.gross Samples.february Samples.adjusted = 98%Z
  /\ Reports.has_data Samples64.march Samples64.daily_rated = true
  /\ Reports64.gross Samples64.march Samples64.daily_rated = 7522%Z
  /\ round_half_away_from_zero (300.9 * 25) = 7523%Z.
Proof. vm_compute. repeat split; reflexivity. Qed.

End MoneyDoubles.

(** ** The CSV files *)

Section CsvReader.
Import JS Csv.

Lemma append_cons (x : ascii) (a b : string) :
  String.append (String x a) b = String x (String.append a b).
Proof. reflexivity. Qed.

Lemma append_empty (b : string) : String.append EmptyString b = b.
Proof. reflexivity. Qed.

Lemma append_assoc (a b c : string) :
  String.append (String.append a b) c = String.append a (String.append b c).
Proof.
  induction a as [|x a IH]; [reflexivity|].
  rewrite !append_cons, IH. reflexivity.
Qed.

Lemma close_field_rev (f : string) (fields : list string) :
  close_field (rev (list_ascii_of_string f) ++ []) fields = f :: fields.
Proof.
  unfold close_field. rewrite app_nil_r, rev_involutive, string_of_list_ascii_of_string.
  reflexivity.
Qed.

Lemma read_quoted_body (f rest : string) (field : list ascii) (fields : list string)
    (rows : list (list string)) :
  quote_free f = true ->
  read Quoted (String.append f (String (ch 34) rest)) field fields rows
  = read QuoteSeen rest (rev (list_ascii_of_string f) ++ field) fields rows.
Proof.
  revert field. induction f as [|c f IH]; intros field H.
  - reflexivity.
  - simpl in H. apply andb_prop in H as [Hc Hf].
    apply negb_true_iff in Hc.
    rewrite ?append_cons, ?append_empty; cbn [read]. rewrite Hc, IH by exact Hf.
    cbn [list_ascii_of_string rev]. rewrite <- app_assoc. reflexivity.
Qed.

Lemma read_bare_body (f rest : string) (field : list ascii) (fields : list string)
    (rows : list (list string)) :
  plain f = true ->
  read Bare (String.append f rest) field fields rows
  = read Bare rest (rev (list_ascii_of_string f) ++ field) fields rows.
Proof.
  revert field. induction f as [|c f IH]; intros field H.
  - reflexivity.
  - simpl in H. repeat (apply andb_prop in H as [H ?]).
    rewrite negb_true_iff in *.
    rewrite ?append_cons, ?append_empty; cbn [read].
    repeat match goal with E : eqc c _ = false |- _ => rewrite E; clear E end.
    rewrite IH by assumption.
    cbn [list_ascii_of_string rev]. rewrite <- app_assoc. reflexivity.
Qed.

Lemma read_bare_end (f : string) (field : list ascii) (fields : list string)
    (rows : list (list string)) :
  plain f = true ->
  read Bare f field fields rows
  = Some (rev (close_row (close_field (rev (list_ascii_of_string f) ++ field) fields) rows)).
Proof.
  revert field. induction f as [|c f IH]; intros field H.
  - reflexivity.
  - simpl in H. repeat (apply andb_prop in H as [H ?]).
    rewrite negb_true_iff in *.
    cbn [read].
    repeat match goal with E : eqc c _ = false |- _ => rewrite E; clear E end.
    rewrite IH by assumption.
    cbn [list_ascii_of_string rev]. rewrite <- app_assoc. reflexivity.
Qed.

Lemma quoted_reads_as (f : string) :
  quote_free f = true -> reads_as (Reports.quoted f) f.
Proof.
  intros H. unfold reads_as, Reports.quoted, Reports.quote.
  repeat split; intros.
  - rewrite ?append_cons, ?append_empty. rewrite append_assoc. rewrite ?append_cons, ?append_empty; cbn [read].
    change (eqc (ch 34) 34) with true. cbv iota.
    rewrite read_quoted_body by exact H.
    cbn [read]. change (eqc (ch 44) 34) with false. change (eqc (ch 44) 44) with true.
    cbv iota. rewrite close_field_rev. reflexivity.
  - rewrite ?append_cons, ?append_empty. rewrite append_assoc. rewrite ?append_cons, ?append_empty; cbn [read].
    change (eqc (ch 34) 34) with true. cbv iota.
    rewrite read_quoted_body by exact H.
    cbn [read]. change (eqc (ch 10) 34) with false. change (eqc (ch 10) 44) with false.
    change (eqc (ch 10) 10) with true.
    cbv iota. rewrite close_field_rev. reflexivity.
  - rewrite ?append_cons, ?append_empty; cbn [read].
    change (eqc (ch 34) 34) with true. cbv iota.
    rewrite read_quoted_body by exact H.
    cbn [read]. rewrite close_field_rev. reflexivity.
Qed.

Lemma plain_reads_as (f : string) : plain f = true -> reads_as f f.
Proof.
  intros H. unfold reads_as. destruct f as [|c f].
  - repeat split; intros; reflexivity.
  - simpl in H. repeat (apply andb_prop in H as [H ?]).
    rewrite negb_true_iff in *.
    assert (Hf : close_field (rev (list_ascii_of_string f) ++ [c]) =
                 fun fields => String c f :: fields).
    { unfold close_field. rewrite rev_app_distr, rev_involutive. simpl.
      rewrite string_of_list_ascii_of_string. reflexivity. }
    repeat split; intros; rewrite ?append_cons, ?append_empty; cbn [read];
      repeat match goal with E : eqc c _ = false |- _ => rewrite E end.
    + rewrite read_bare_body by assumption. cbn [read].
      change (eqc (ch 44) 34) with false. change (eqc (ch 44) 44) with true.
      cbv iota. rewrite Hf. reflexivity.
    + rewrite read_bare_body by assumption. cbn [read].
      change (eqc (ch 10) 34) with false. change (eqc (ch 10) 44) with false.
      change (eqc (ch 10) 10) with true.
      cbv iota. rewrite Hf. reflexivity.
    + rewrite read_bare_end by assumption. rewrite Hf. reflexivity.
Qed.

Lemma read_line (xs fs : list string) :
  Forall2 reads_as xs fs -> xs <> [] ->
  (forall rest fields rows,
      read FieldStart (String.append (String.concat Reports.comma xs) (String (ch 10) rest))
           [] fields rows
      = read FieldStart rest [] [] (rev (rev fs ++ fields) :: rows))
  /\ (forall fields rows,
      read FieldStart (String.concat Reports.comma xs) [] fields rows
      = Some (rev (rev (rev fs ++ fields) :: rows))).
Proof.
  induction 1 as [|x f xs fs Hx Hrest IH]; intros Hne; [congruence|].
  destruct Hx as (Hcomma & Hnl & Hend).
  destruct xs as [|x' xs'].
  - inversion Hrest; subst. cbn [String.concat rev app]. split; intros.
    + apply Hnl.
    + apply Hend.
  - destruct (IH ltac:(discriminate)) as [IHnl IHend].
    assert (E : String.concat Reports.comma (x :: x' :: xs')
                = String.append x (String (ch 44) (String.concat Reports.comma (x' :: xs'))))
      by reflexivity.
    rewrite E. cbn [rev]. split; intros.
    + rewrite append_assoc, append_cons, Hcomma, IHnl, <- app_assoc. reflexivity.
    + rewrite Hcomma, IHend, <- app_assoc. reflexivity.
Qed.

Lemma read_lines (xss fss : list (list string)) :
  Forall2 (fun xs fs => Forall2 reads_as xs fs /\ xs <> []) xss fss -> xss <> [] ->
  forall rows,
    read FieldStart (String.concat Reports.newline (map (String.concat Reports.comma) xss))
         [] [] rows
    = Some (rev (rev fss ++ rows)).
Proof.
  induction 1 as [|xs fs xss fss [Hx Hne] Hrest IH]; intros Hne' rows; [congruence|].
  destruct (read_line xs fs Hx Hne) as [Hnl Hend].
  destruct xss as [|xs' xss'].
  - inversion Hrest; subst. cbn [map String.concat rev app].
    rewrite Hend, app_nil_r, rev_involutive. reflexivity.
  - assert (E : String.concat Reports.newline
                  (map (String.concat Reports.comma) (xs :: xs' :: xss'))
                = String.append (String.concat Reports.comma xs)
                    (String (ch 10)
                       (String.concat Reports.newline
                          (map (String.concat Reports.comma) (xs' :: xss')))))
      by reflexivity.
    rewrite E, Hnl, IH by discriminate.
    rewrite app_nil_r, rev_involutive. cbn [rev]. rewrite <- app_assoc. reflexivity.
Qed.

(** What the reader makes of a file of a plain header line followed
    by lines of quoted fields. *)
Lemma parse_header_and_quoted_lines (headers : list string) (lines : list (list string)) :
  headers <> [] ->
  forallb plain headers = true ->
  Forall (fun l => l <> [] /\ forallb quote_free l = true) lines ->
  parse (String.concat Reports.newline
           (String.concat Reports.comma headers
            :: map (fun l => String.concat Reports.comma (map Reports.quoted l)) lines))
  = Some (headers :: lines).
Proof.
  intros Hne Hplain Hlines. unfold parse.
  rewrite <- (map_map (map Reports.quoted) (String.concat Reports.comma)).
  change (String.concat Reports.comma headers
          :: map (String.concat Reports.comma) (map (map Reports.quoted) lines))
    with (map (String.concat Reports.comma) (headers :: map (map Reports.quoted) lines)).
  rewrite (read_lines _ (headers :: lines)).
  - rewrite app_nil_r, rev_involutive. reflexivity.
  - constructor.
    + split; [|exact Hne].
      clear Hne. induction headers as [|h hs IH]; [constructor|].
      simpl in Hplain. apply andb_prop in Hplain as [Hh Hhs].
      constructor; [apply plain_reads_as, Hh | apply IH, Hhs].
    + induction Hlines as [|l ls [Hl Hq] _ IH]; [constructor|].
      simpl. constructor; [|exact IH].
      split; [|destruct l; [congruence | discriminate]].
      clear Hl. induction l as [|f l IHl]; [constructor|].
      simpl in Hq. apply andb_prop in Hq as [Hf Hq].
      constructor; [apply quoted_reads_as, Hf | apply IHl, Hq].
  - discriminate.
Qed.

End CsvReader.
Section ReportFiles.
Import JS Csv Reports.

Lemma quote_free_append (a b : string) :
  quote_free (String.append a b) = quote_free a && quote_free b.
Proof.
  induction a as [|c a IH]; [reflexivity|].
  rewrite append_cons. cbn [quote_free]. rewrite IH, andb_assoc. reflexivity.
Qed.

Lemma quote_free_uint (d : Decimal.uint) :
  quote_free (DecimalString.NilEmpty.string_of_uint d) = true.
Proof. induction d; cbn [DecimalString.NilEmpty.string_of_uint quote_free]; auto. Qed.

Lemma quote_free_Z_to_string (n : Z) : quote_free (Z_to_string n) = true.
Proof.
  unfold Z_to_string, DecimalString.NilZero.string_of_int,
    DecimalString.NilZero.string_of_uint.
  destruct (Z.to_int n) as [d|d]; destruct d; cbn [quote_free];
    try reflexivity; apply quote_free_uint.
Qed.

Lemma digit_char_not_quote (k : Z) :
  0 <= k <= 9 -> eqc (ch (Z.to_nat (48 + k))) 34 = false.
Proof.
  intros H. unfold eqc, ch. rewrite nat_ascii_embedding by lia.
  apply Nat.eqb_neq. lia.
Qed.

Lemma quote_free_frac_digits (fuel : nat) (num den : Z) :
  0 <= num < den ->
  quote_free (string_of_list_ascii (frac_digits fuel num den)) = true.
Proof.
  revert num. induction fuel as [|fuel IH]; intros num H; [reflexivity|].
  cbn [frac_digits]. destruct (num =? 0); [reflexivity|].
  cbn [string_of_list_ascii quote_free].
  rewrite digit_char_not_quote, IH; [reflexivity| |].
  - apply Z.mod_pos_bound. lia.
  - split; [apply Z.div_pos; lia|].
    assert (10 * num / den < 10); [apply Z.div_lt_upper_bound; lia | lia].
Qed.

Lemma quote_free_Number_toString (x : Q) : quote_free (Number_toString x) = true.
Proof.
  unfold Number_toString. cbv zeta.
  destruct (Z.abs (Qnum x) mod Z.pos (Qden x) =? 0); [apply quote_free_Z_to_string|].
  rewrite !quote_free_append, quote_free_Z_to_string. cbn [quote_free].
  rewrite quote_free_frac_digits by (apply Z.mod_pos_bound; reflexivity).
  destruct (Qnum x <? 0); reflexivity.
Qed.

Lemma quote_free_shown (c : cell) :
  match c with Text s => quote_free s | Num _ => true end = true ->
  quote_free (shown c) = true.
Proof.
  destruct c as [s|q]; unfold shown, field_text; [trivial|].
  intros _. destruct (truthy q); [apply quote_free_Number_toString | reflexivity].
Qed.

Lemma lookup_cell_fresh (h k : string) (c : cell) (r : row) :
  h <> k -> lookup_cell h ((k, c) :: r) = lookup_cell h r.
Proof.
  intros H. cbn [lookup_cell]. destruct (String.eqb k h) eqn:E; [|reflexivity].
  apply String.eqb_eq in E. congruence.
Qed.

(** Reading a row by its own keys visits its values in order. *)
Lemma lookup_own_keys (r : row) :
  List.NoDup (map fst r) ->
  map (fun header => field_text (lookup_cell header r)) (map fst r)
  = map (fun kc => shown (snd kc)) r.
Proof.
  induction r as [|[k c] r IH]; intros H; [reflexivity|].
  cbn [map fst] in H. apply List.NoDup_cons_iff in H as [Hk Hr].
  cbn [map fst snd]. f_equal.
  - cbn [lookup_cell]. rewrite String.eqb_refl. reflexivity.
  - rewrite <- IH by exact Hr. apply List.map_ext_in. intros h Hin.
    rewrite lookup_cell_fresh; [reflexivity|]. intros ->. apply Hk, Hin.
Qed.

Lemma csvContent_reads_back (keys : list string) (data : list row) :
  data <> [] -> keys <> [] -> List.NoDup keys -> forallb plain keys = true ->
  Forall (fun r => map fst r = keys
                   /\ forallb (fun kc => quote_free (shown (snd kc))) r = true) data ->
  parse (csvContent data) = Some (table data).
Proof.
  intros Hdata Hkeys Hnodup Hplain Hrows.
  assert (Hhead : map fst (match data with r :: _ => r | [] => [] end) = keys).
  { destruct data as [|r data]; [congruence|]. inversion Hrows as [|? ? [E _] _]; exact E. }
  unfold csvContent, table. cbv zeta. rewrite Hhead.
  assert (E : map (fun r => String.concat comma
                     (map (fun header => quoted (field_text (lookup_cell header r))) keys))
                  data
              = map (fun l => String.concat comma (map quoted l))
                    (map (fun r => map (fun kc => shown (snd kc)) r) data)).
  { rewrite map_map. apply List.map_ext_in. intros r Hin.
    rewrite List.Forall_forall in Hrows. destruct (Hrows r Hin) as [Hk _].
    rewrite <- lookup_own_keys by (rewrite Hk; exact Hnodup).
    rewrite Hk, map_map. reflexivity. }
  rewrite E. apply parse_header_and_quoted_lines; [exact Hkeys | exact Hplain |].
  rewrite List.Forall_forall in *. intros l Hin.
  apply List.in_map_iff in Hin as (r & <- & Hin). destruct (Hrows r Hin) as [Hk Hq].
  split.
  - destruct r; [simpl in Hk; congruence | discriminate].
  - rewrite List.forallb_forall in *. intros f Hf.
    apply List.in_map_iff in Hf as (kc & <- & Hkc). apply Hq, Hkc.
Qed.

Lemma pf_keys_NoDup : List.NoDup pf_keys.
Proof.
  unfold pf_keys.
  repeat (constructor; [cbn [In]; intuition discriminate|]). constructor.
Qed.

Lemma esi_keys_NoDup : List.NoDup esi_keys.
Proof.
  unfold esi_keys.
  repeat (constructor; [cbn [In]; intuition discriminate|]). constructor.
Qed.

Lemma quote_free_shown_num (q : Q) : quote_free (shown (Num q)) = true.
Proof. apply quote_free_shown. reflexivity. Qed.

Lemma pf_row_quote_free
    (attendanceStats : gmap string Attendance.EmployeeAttendanceStats) (e : Employee) :
  texts_quote_free e = true ->
  forallb (fun kc => quote_free (shown (snd kc))) (pf_row attendanceStats e) = true.
Proof.
  unfold texts_quote_free. intros H.
  repeat (apply andb_prop in H as [H ?]).
  unfold pf_row. cbv zeta. cbn [forallb snd].
  rewrite !quote_free_shown_num. unfold shown, field_text.
  repeat (apply andb_true_intro; split); trivial.
Qed.

Lemma esi_row_quote_free
    (attendanceStats : gmap string Attendance.EmployeeAttendanceStats) (e : Employee) :
  texts_quote_free e = true ->
  forallb (fun kc => quote_free (shown (snd kc))) (esi_row attendanceStats e) = true.
Proof.
  unfold texts_quote_free. intros H.
  repeat (apply andb_prop in H as [H ?]).
  unfold esi_row. cbv zeta. cbn [forallb snd].
  rewrite !quote_free_shown_num. unfold shown, field_text.
  repeat (apply andb_true_intro; split); trivial.
Qed.

Lemma length_zero_false {A : Type} (l : list A) :
  (List.length l =? 0)%nat = false -> l <> [].
Proof. destruct l; [discriminate | discriminate]. Qed.

(** What the writer gets right.  When the employee number, name and
    account numbers of the reported employees contain no double quote,
    reading back
    the file of the PF or of the ESI report yields the header row and,
    for every employee and every column, the text of the computed
    value: its decimal text, except that the number zero (like the
    empty string) is written as an empty field. *)
Theorem report_files_read_back (employees : list Employee)
    (attendanceStats : gmap string Attendance.EmployeeAttendanceStats)
    (selectedMonth : string) :
  (forall e, In e employees -> has_data attendanceStats e = true ->
             texts_quote_free e = true) ->
  (forall filename content,
      generatePFReport employees attendanceStats selectedMonth = Download filename content ->
      parse content
      = Some (table (map (pf_row attendanceStats)
                         (List.filter (has_data attendanceStats) employees))))
  /\ (forall filename content,
      generateESIReport employees attendanceStats selectedMonth = Download filename content ->
      parse content
      = Some (table (map (esi_row attendanceStats)
                         (List.filter (has_data attendanceStats) employees))))
  /\ (forall s, shown (Text s) = s)
  /\ (forall q, truthy q = true -> shown (Num q) = Number_toString q)
  /\ (forall q, truthy q = false -> shown (Num q) = ""%string).
Proof.
  intros Htexts.
  assert (Hin : forall e, In e (List.filter (has_data attendanceStats) employees) ->
                          texts_quote_free e = true).
  { intros e He. apply List.filter_In in He as [He Hd]. auto. }
  split; [|split].
  - intros filename content. unfold generatePFReport. cbv zeta.
    destruct (List.length (List.filter (has_data attendanceStats) employees) =? 0)%nat eqn:E;
      [discriminate|].
    intros [= _ <-]. apply length_zero_false in E.
    apply (csvContent_reads_back pf_keys).
    + destruct (List.filter (has_data attendanceStats) employees); [congruence | discriminate].
    + discriminate.
    + exact pf_keys_NoDup.
    + reflexivity.
    + rewrite List.Forall_forall. intros r Hr. apply List.in_map_iff in Hr as (e & <- & He).
      split; [reflexivity | apply pf_row_quote_free, Hin, He].
  - intros filename content. unfold generateESIReport. cbv zeta.
    destruct (List.length (List.filter (has_data attendanceStats) employees) =? 0)%nat eqn:E;
      [discriminate|].
    intros [= _ <-]. apply length_zero_false in E.
    apply (csvContent_reads_back esi_keys).
    + destruct (List.filter (has_data attendanceStats) employees); [congruence | discriminate].
    + discriminate.
    + exact esi_keys_NoDup.
    + reflexivity.
    + rewrite List.Forall_forall. intros r Hr. apply List.in_map_iff in Hr as (e & <- & He).
      split; [reflexivity | apply esi_row_quote_free, Hin, He].
  - repeat split.
    + intros q H. unfold shown, field_text. rewrite H. reflexivity.
    + intros q H. unfold shown, field_text. rewrite H. reflexivity.
Qed.

Lemma report_files_read_back_example :
  texts_quote_free Samples.asha = true
  /\ parse (csvContent (map (pf_row Samples.february)
                            (List.filter (has_data Samples.february) [Samples.asha])))
     = Some (table (map (pf_row Samples.february)
                        (List.filter (has_data Samples.february) [Samples.asha]))).
Proof.
  split; [vm_compute; reflexivity|].
  apply (proj1 (report_files_read_back [Samples.asha] Samples.february "2024-02"
                  ltac:(intros e [<-|[]] _; vm_compute; reflexivity))
               "pf_report_2024-02.csv"%string).
  vm_compute. reflexivity.
Defined.

(** C4.  The files do not always read back.  Asha's gross of 300600
    is above the ESI threshold, so her three ESI amounts are 0, whose
    decimal text is "0"; [row[header] || ''] takes the number 0 for a
    missing value and the file carries three empty fields.  And a name
    that contains double quotes is written without escaping them,
    which yields a file that cannot be read back. *)
Lemma C4_report_files_lose_zeros_and_quotes :
  match generateESIReport [Samples.asha] Samples.february "2024-02" with
  | Download _ content => parse content
  | _ => None
  end
  = Some [esi_keys; ["E001"; "Asha"; "ESI/1"; "25"; "300600"; ""; ""; ""]%string]
  /\ gross Samples.february Samples.asha = 300600
  /\ employeeESI 300600 = 0
  /\ Number_toString (inject_Z 0) = "0"%string
  /\ match generatePFReport [Samples.ray] Samples.february "2024-02" with
     | Download _ content => parse content
     | _ => Some []
     end = None.
Proof. vm_compute. repeat split; reflexivity. Qed.

End ReportFiles.
(** ** Worked examples *)

Section Examples.
Import JS.

(** The PF scenario: basic 10000 and DA 2000 a day, 25 days, 10 hours. *)
Example pf_scenario :
  Reports.gross Samples.february Samples.asha = 300600
  /\ Reports.emp12Amount 300600 = 1800
  /\ Reports.employerEPF 300600 = 25040
  /\ Reports.employerEPS 300600 = 11032.
Proof. vm_compute. repeat split; reflexivity. Qed.

(** A gross of exactly 21000 is not exempt. *)
Example esi_at_threshold :
  Reports.employeeESI 21000 = 158 /\ Reports.employerESI 21000 = 683
  /\ Reports.employeeESI 21001 = 0 /\ Reports.employerESI 21001 = 0.
Proof. vm_compute. repeat split; reflexivity. Qed.

(** The employee with half an hour of overtime is reported with a
    gross of 30, on which the employee share is 0. *)
Example part_timer_row :
  Reports.has_data Samples.february Samples.part_timer = true
  /\ Reports.gross Samples.february Samples.part_timer = 30
  /\ Reports.employeeESI 30 = 0 /\ Reports.employerESI 30 = 1.
Proof. vm_compute. repeat split; reflexivity. Qed.

(** [JSON.parse] on the texts the aggregators meet. *)
Example parse_manual_entry :
  JSON_parse (Samples.double_quotes "{'present_days': 20, 'ot_hours': 4}")
  = Some (JObj [("present_days"%string, JNum 20); ("ot_hours"%string, JNum 4)]).
Proof. vm_compute. reflexivity. Qed.

Example parse_failures :
  JSON_parse "came late, left early" = None /\ JSON_parse "" = None
  /\ JSON_parse "{" = None /\ JSON_parse "05" = None.
Proof. vm_compute. repeat split; reflexivity. Qed.

(** Notes that say [null] are not a manual entry for the payslip
    aggregator: reading a property of [null] throws, and the row is
    counted by its status and its time stamps. *)
Example null_notes_row :
  PdfStats.manual_entry (Row.set_notes (Some "null"%string) Samples.daily_row) = None
  /\ PdfStats.process_record (Row.set_notes (Some "null"%string) Samples.daily_row)
       (PdfStats.new_stats "e1")
     = PdfStats.mkStats "e1" 1 0 0 (7200000 # 3600000) 0 0.
Proof. vm_compute. split; reflexivity. Qed.

(** A manual entry replaces the count and the overtime of its row. *)
Example manual_entry_row :
  PdfStats.process_record Samples.manual_row (PdfStats.new_stats "e1")
  = PdfStats.mkStats "e1" 20 0 0 4 0 0.
Proof. vm_compute. reflexivity. Qed.

(** Month boundaries of a 31-day month and of a common-year February,
    east and west of Greenwich. *)
Example other_boundaries :
  MonthRange.of_selected 19800000 "2023-12" = ("2023-12-01"%string, "2023-12-31"%string)
  /\ MonthRange.of_selected (-28800000) "2023-02" = ("2023-02-01"%string, "2023-02-28"%string).
Proof. vm_compute. split; reflexivity. Qed.

(** The payslip of an employee with a stored gross of 30000. *)
Example payslip_scenario :
  Payslip.financials
    {| Payslip.basic_salary := 10000; Payslip.hra := 2000; Payslip.allowances := 500;
       Payslip.gross_salary := Some 30000%Q |}
    {| Payslip.present_days := 25; Payslip.absent_days := 0; Payslip.late_days := 0;
       Payslip.ot_hours := 10 |}
  = {| Payslip.otAmount := 600; Payslip.grossEarnings := 30000;
       Payslip.pfBaseSalary := 12500; Payslip.pf := 1500; Payslip.esi := 225;
       Payslip.totalDeductions := 1725; Payslip.netPay := 28875 |}.
Proof. vm_compute. reflexivity. Qed.

End Examples.

(** * Further properties of the aggregators *)

Section HookAggregation.
Import JS Attendance.

Lemma count_status_total (st : string) (x : Q) (s : EmployeeAttendanceStats) :
  count_status st (add_total_days x s) = add_total_days x (count_status st s).
Proof.
  unfold count_status.
  destruct (String.eqb st "present"); [reflexivity|].
  destruct (String.eqb st "absent"); [reflexivity|].
  destruct (String.eqb st "late"); reflexivity.
Qed.

Lemma process_record_total (r : Row.t) (x : Q) (s : EmployeeAttendanceStats) :
  process_record r (add_total_days x s) = add_total_days x (process_record r s).
Proof.
  rewrite !process_record_unfold. cbv zeta.
  destruct (negb (has_direct_values r) && Row.notes_truthy (Row.notes r)); [|reflexivity].
  destruct (JSON_parse (default ""%string (Row.notes r))) as [p|].
  - destruct (is_object p); reflexivity.
  - change (add_structured r (add_total_days x s))
      with (add_total_days x (add_structured r s)).
    apply count_status_total.
Qed.

Lemma count_status_keeps (st : string) (s : EmployeeAttendanceStats) :
  employee_id (count_status st s) = employee_id s
  /\ total_days (count_status st s) = total_days s.
Proof.
  unfold count_status.
  destruct (String.eqb st "present"); [split; reflexivity|].
  destruct (String.eqb st "absent"); [split; reflexivity|].
  destruct (String.eqb st "late"); split; reflexivity.
Qed.

Lemma process_record_keeps (r : Row.t) (s : EmployeeAttendanceStats) :
  employee_id (process_record r s) = employee_id s
  /\ total_days (process_record r s) = total_days s.
Proof.
  rewrite process_record_unfold. cbv zeta.
  destruct (negb (has_direct_values r) && Row.notes_truthy (Row.notes r));
    [|split; reflexivity].
  destruct (JSON_parse (default ""%string (Row.notes r))) as [p|].
  - destruct (is_object p); split; reflexivity.
  - destruct (count_status_keeps (Row.status r) (add_structured r s)) as [-> ->].
    split; reflexivity.
Qed.

Lemma fold_process_keeps (data : list Row.t) (s : EmployeeAttendanceStats) :
  employee_id (fold_left (fun stats record => process_record record stats) data s)
  = employee_id s
  /\ total_days (fold_left (fun stats record => process_record record stats) data s)
     = total_days s.
Proof.
  revert s. induction data as [|r data IH]; intros s; [split; reflexivity|].
  cbn [fold_left]. destruct (IH (process_record r s)) as [-> ->].
  apply process_record_keeps.
Qed.

(** X1.  The single-employee hook never touches the employee id or the
    day total while it folds the rows: whatever the rows contain, the
    result carries the requested id and a total_days equal to the
    number of rows received. *)
Theorem X1_total_days_is_the_row_count (employeeId : string) (data : list Row.t) :
  employee_id (employee_stats employeeId data) = employeeId
  /\ total_days (employee_stats employeeId data) = inject_Z (Z.of_nat (List.length data)).
Proof. unfold employee_stats. cbv zeta. apply fold_process_keeps. Qed.

Lemma all_employees_step_other (m : gmap string EmployeeAttendanceStats) (r : Row.t)
    (id : string) :
  Row.employee_id r <> id -> all_employees_step m r !! id = m !! id.
Proof. intros H. unfold all_employees_step. apply lookup_insert_ne, H. Qed.

(** The all-employees loop seen from one key: only the rows of that
    employee count, each adding 1 to total_days before it is
    processed. *)
Lemma all_employees_fold_lookup (data : list Row.t)
    (m : gmap string EmployeeAttendanceStats) (id : string) :
  fold_left all_employees_step data m !! id
  = fold_left (fun o r => Some (process_record r
                                  (add_total_days 1 (default (new_stats id 0) o))))
              (Rows.rows_of id data) (m !! id).
Proof.
  revert m. induction data as [|r data IH]; intros m; [reflexivity|].
  cbn [fold_left]. rewrite IH. unfold Rows.rows_of. cbn [List.filter].
  destruct (String.eqb (Row.employee_id r) id) eqn:E.
  - apply String.eqb_eq in E. subst id. rewrite all_employees_step_lookup. reflexivity.
  - apply String.eqb_neq in E. rewrite all_employees_step_other by exact E. reflexivity.
Qed.

Lemma fold_turn_some (rows : list Row.t) (id : string) (s : EmployeeAttendanceStats) :
  fold_left (fun o r => Some (process_record r
                                (add_total_days 1 (default (new_stats id 0) o))))
            rows (Some s)
  = Some (fold_left (fun stats r => process_record r (add_total_days 1 stats)) rows s).
Proof.
  revert s. induction rows as [|r rows IH]; intros s; [reflexivity|].
  cbn [fold_left default]. apply IH.
Qed.

Lemma iter_add_total_shift (n : nat) (s : EmployeeAttendanceStats) :
  Nat.iter n (add_total_days 1) (add_total_days 1 s)
  = add_total_days 1 (Nat.iter n (add_total_days 1) s).
Proof. rewrite <- Nat.iter_succ_r. apply Nat.iter_succ. Qed.

Lemma process_record_iter_total (r : Row.t) (n : nat) (s : EmployeeAttendanceStats) :
  process_record r (Nat.iter n (add_total_days 1) s)
  = Nat.iter n (add_total_days 1) (process_record r s).
Proof.
  induction n as [|n IH]; [reflexivity|].
  rewrite !Nat.iter_succ, process_record_total, IH. reflexivity.
Qed.

Lemma fold_counting_rows (rows : list Row.t) (s : EmployeeAttendanceStats) :
  fold_left (fun stats r => process_record r (add_total_days 1 stats)) rows s
  = fold_left (fun stats r => process_record r stats) rows
      (Nat.iter (List.length rows) (add_total_days 1) s).
Proof.
  revert s. induction rows as [|r rows IH]; intros s; [reflexivity|].
  cbn [fold_left List.length]. rewrite IH, Nat.iter_succ.
  rewrite !process_record_total, process_record_iter_total, iter_add_total_shift.
  reflexivity.
Qed.

Lemma inject_Z_succ (k : Z) : (inject_Z k + 1)%Q = inject_Z (k + 1).
Proof. unfold Qplus, inject_Z. simpl. rewrite Z.mul_1_r. reflexivity. Qed.

Lemma iter_add_total_new (n : nat) (id : string) :
  Nat.iter n (add_total_days 1) (new_stats id 0) = new_stats id (inject_Z (Z.of_nat n)).
Proof.
  induction n as [|n IH]; [reflexivity|].
  rewrite Nat.iter_succ, IH. unfold add_total_days, new_stats.
  cbn [employee_id present_days absent_days late_days ot_hours total_days food
       uniform deduction].
  rewrite inject_Z_succ. repeat f_equal. lia.
Qed.

Lemma all_employee_stats_lookup (data : list Row.t) (id : string) :
  all_employee_stats data !! id
  = match Rows.rows_of id data with
    | [] => None
    | rows => Some (employee_stats id rows)
    end.
Proof.
  unfold all_employee_stats. rewrite all_employees_fold_lookup, lookup_empty.
  destruct (Rows.rows_of id data) as [|r rows]; [reflexivity|].
  cbn [fold_left default]. rewrite fold_turn_some, fold_counting_rows.
  unfold employee_stats. cbv zeta. cbn [fold_left].
  rewrite <- iter_add_total_new. cbn [List.length]. rewrite Nat.iter_succ.
  rewrite !process_record_total, process_record_iter_total, iter_add_total_shift.
  reflexivity.
Qed.

(** X2.  The all-employees hook gives every employee exactly what the
    single-employee hook computes from that employee's rows: an
    employee without a row in the data has no entry, and the entry of
    any other is the single-employee aggregation of its rows, taken in
    the order of the data. *)
Theorem X2_all_employees_agrees_with_single_employee (data : list Row.t) (id : string) :
  all_employee_stats data !! id
  = match Rows.rows_of id data with
    | [] => None
    | rows => Some (employee_stats id rows)
    end.
Proof. apply all_employee_stats_lookup. Qed.

Lemma status_not_read (r : Row.t) (st : string) (s : EmployeeAttendanceStats) :
  Delta.status_is_read r = false ->
  process_record (Rows.set_status st r) s = process_record r s.
Proof.
  unfold Delta.status_is_read. intros H.
  rewrite !process_record_unfold. cbv zeta.
  change (has_direct_values (Rows.set_status st r)) with (has_direct_values r).
  change (Row.notes (Rows.set_status st r)) with (Row.notes r).
  change (add_structured (Rows.set_status st r) s) with (add_structured r s).
  destruct (negb (has_direct_values r) && Row.notes_truthy (Row.notes r));
    [|reflexivity].
  destruct (JSON_parse (default ""%string (Row.notes r))); [reflexivity | discriminate].
Qed.

(** X4.  The hooks read the status of a row only when its notes are a
    non-empty text that [JSON.parse] rejects and none of the four
    guarded columns is set.  For every other row (in particular a row
    without notes) the status is never consulted: changing it changes
    neither the single-employee accumulator nor the all-employees
    map. *)
Theorem X4_status_is_read_only_after_a_parse_failure (r : Row.t) (st : string) :
  Delta.status_is_read r = false ->
  (forall s, process_record (Rows.set_status st r) s = process_record r s)
  /\ (forall m : gmap string EmployeeAttendanceStats,
         all_employees_step m (Rows.set_status st r) = all_employees_step m r).
Proof.
  intros H. split; [intros s; apply status_not_read, H|].
  intros m. unfold all_employees_step.
  change (Row.employee_id (Rows.set_status st r)) with (Row.employee_id r).
  cbv zeta. rewrite status_not_read by exact H. reflexivity.
Qed.

Lemma X4_witness :
  Delta.status_is_read Samples.daily_row = false
  /\ process_record (Rows.set_status "absent" Samples.daily_row) (new_stats "e1" 0)
     = process_record Samples.daily_row (new_stats "e1" 0).
Proof.
  split; [vm_compute; reflexivity|].
  apply (proj1 (X4_status_is_read_only_after_a_parse_failure Samples.daily_row "absent"
                  ltac:(vm_compute; reflexivity))).
Defined.

End HookAggregation.

(** ** The order of the rows *)

Section RowOrder.
Import JS Attendance.
Local Open Scope Q_scope.

(** *** Exact sums commute *)














(** *** Whole numbers add without rounding *)











(** *** The hook on whole numbers *)






















End RowOrder.

(** * Further properties of the payslip aggregator *)

Section PayslipAggregation.
Import JS PdfStats.

Lemma pdf_step_other (m : gmap string AttendanceStats) (r : Row.t) (id : string) :
  Row.employee_id r <> id -> step m r !! id = m !! id.
Proof. intros H. unfold step. apply lookup_insert_ne, H. Qed.

Lemma pdf_fold_lookup (data : list Row.t) (m : gmap string AttendanceStats) (id : string) :
  fold_left step data m !! id
  = fold_left (fun o r => Some (process_record r (default (new_stats id) o)))
              (Rows.rows_of id data) (m !! id).
Proof.
  revert m. induction data as [|r data IH]; intros m; [reflexivity|].
  cbn [fold_left]. rewrite IH. unfold Rows.rows_of. cbn [List.filter].
  destruct (String.eqb (Row.employee_id r) id) eqn:E.
  - apply String.eqb_eq in E. subst id. rewrite pdf_step_lookup. reflexivity.
  - apply String.eqb_neq in E. rewrite pdf_step_other by exact E. reflexivity.
Qed.

Lemma pdf_fold_some (rows : list Row.t) (id : string) (s : AttendanceStats) :
  fold_left (fun o r => Some (process_record r (default (new_stats id) o))) rows (Some s)
  = Some (fold_left (fun stats r => process_record r stats) rows s).
Proof.
  revert s. induction rows as [|r rows IH]; intros s; [reflexivity|].
  cbn [fold_left default]. apply IH.
Qed.

Lemma aggregate_lookup (data : list Row.t) (id : string) :
  aggregate data !! id
  = match Rows.rows_of id data with
    | [] => None
    | rows => Some (fold_left (fun stats r => process_record r stats) rows (new_stats id))
    end.
Proof.
  unfold aggregate. rewrite pdf_fold_lookup, lookup_empty.
  destruct (Rows.rows_of id data) as [|r rows]; [reflexivity|].
  cbn [fold_left default]. apply pdf_fold_some.
Qed.

(** X5.  In [fetchAttendanceStats] the statistics of an employee depend
    on the rows of that employee only: an employee without a row has
    no entry, and the entry of any other is the fold of the callback
    over its own rows, in the order of the data, from an empty
    accumulator; rows of other employees never interfere. *)
Theorem X5_payslip_statistics_are_per_employee (data : list Row.t) (id : string) :
  aggregate data !! id
  = match Rows.rows_of id data with
    | [] => None
    | rows => Some (fold_left (fun stats r => process_record r stats) rows (new_stats id))
    end.
Proof. apply aggregate_lookup. Qed.

(** The three day counters together. *)
Lemma count_status_days (r : Row.t) (s : AttendanceStats) :
  Rows.known_status r = true ->
  (present_days (count_status (Row.status r) s)
   + absent_days (count_status (Row.status r) s)
   + late_days (count_status (Row.status r) s)
   == present_days s + absent_days s + late_days s + 1)%Q.
Proof.
  unfold Rows.known_status, count_status. intros H.
  destruct (String.eqb (Row.status r) "present"); [cbn; lra|].
  destruct (String.eqb (Row.status r) "absent"); [cbn; lra|].
  destruct (String.eqb (Row.status r) "late"); [cbn; lra | discriminate].
Qed.

Lemma overtime_keeps_days (r : Row.t) (s : AttendanceStats) :
  present_days (overtime_from_times r s) = present_days s
  /\ absent_days (overtime_from_times r s) = absent_days s
  /\ late_days (overtime_from_times r s) = late_days s.
Proof.
  unfold overtime_from_times.
  destruct (time_truthy (Row.check_in_time r) && time_truthy (Row.check_out_time r));
    [|repeat split].
  destruct (workHours _ _) as [wh|]; [|repeat split].
  destruct (gt wh 8); repeat split.
Qed.

Lemma fold_counts_rows (rows : list Row.t) (s : AttendanceStats) :
  Forall (fun r => manual_entry r = None /\ Rows.known_status r = true) rows ->
  (present_days (fold_left (fun stats r => process_record r stats) rows s)
   + absent_days (fold_left (fun stats r => process_record r stats) rows s)
   + late_days (fold_left (fun stats r => process_record r stats) rows s)
   == present_days s + absent_days s + late_days s
      + inject_Z (Z.of_nat (List.length rows)))%Q.
Proof.
  intros H. revert s. induction H as [|r rows [Hm Hk] _ IH]; intros s.
  - cbn [fold_left List.length]. change (inject_Z (Z.of_nat 0)) with 0%Q. lra.
  - cbn [fold_left]. rewrite IH. unfold process_record at 1 2 3. rewrite Hm.
    destruct (overtime_keeps_days r (count_status (Row.status r) s)) as (-> & -> & ->).
    rewrite (count_status_days r s Hk).
    cbn [List.length]. rewrite Nat2Z.inj_succ, <- Z.add_1_r, inject_Z_plus.
    change (inject_Z 1) with 1%Q. lra.
Qed.

(** X6.  When none of an employee's rows is a manual entry and each
    has one of the three known statuses, [fetchAttendanceStats] counts
    every row exactly once: present, absent and late days of that
    employee add up to the number of its rows. *)
Theorem X6_every_daily_row_is_counted_once (data : list Row.t) (id : string)
    (stats : AttendanceStats) :
  Forall (fun r => manual_entry r = None /\ Rows.known_status r = true)
         (Rows.rows_of id data) ->
  aggregate data !! id = Some stats ->
  (present_days stats + absent_days stats + late_days stats
   == inject_Z (Z.of_nat (List.length (Rows.rows_of id data))))%Q.
Proof.
  intros H. rewrite aggregate_lookup.
  destruct (Rows.rows_of id data) as [|r rows] eqn:E; [discriminate|].
  intros [= <-]. pose proof (fold_counts_rows _ (new_stats id) H) as F.
  cbn [new_stats present_days absent_days late_days fold_left] in F.
  cbn [fold_left]. lra.
Qed.

Lemma X6_witness :
  aggregate [Samples.daily_row; Samples.stamped_row] !! "e1"%string
  = Some (mkStats "e1" 2 0 0 (51840000000000 # 12960000000000) 0 0)
  /\ (2 + 0 + 0 == inject_Z 2)%Q.
Proof.
  assert (E : aggregate [Samples.daily_row; Samples.stamped_row] !! "e1"%string
              = Some (mkStats "e1" 2 0 0 (51840000000000 # 12960000000000) 0 0))
    by (vm_compute; reflexivity).
  split; [exact E|].
  apply (X6_every_daily_row_is_counted_once
           [Samples.daily_row; Samples.stamped_row] "e1" _
           ltac:(repeat constructor) E).
Defined.

End PayslipAggregation.

Section OvertimeBounds.
Import JS PdfStats.

Lemma digit_val_bounds (c : ascii) : is_digit c = true -> 0 <= digit_val c <= 9.
Proof.
  unfold is_digit, digit_val. intros H. apply andb_prop in H as [H1 H2].
  apply Nat.leb_le in H1, H2. lia.
Qed.

Lemma two_digits_bounds (a b : ascii) (v : Z) :
  two_digits a b = Some v -> 0 <= v <= 99.
Proof.
  unfold two_digits. destruct (is_digit a) eqn:Ha; [|discriminate].
  destruct (is_digit b) eqn:Hb; [|discriminate].
  intros [= <-].
  pose proof (digit_val_bounds a Ha). pose proof (digit_val_bounds b Hb). lia.
Qed.

Lemma millis_bounds (ds : list ascii) (v : Z) : millis ds = Some v -> 0 <= v <= 999.
Proof.
  unfold millis. destruct (forallb is_digit ds) eqn:H; [|discriminate].
  destruct ds as [|a [|b [|c rest]]]; [discriminate| | |];
    cbn [forallb] in H; intros [= <-];
    repeat match goal with
           | H : _ && _ = true |- _ => apply andb_prop in H as [? H]
           end;
    repeat match goal with
           | H : is_digit ?x = true |- _ => apply digit_val_bounds in H
           end;
    lia.
Qed.

(** A time of day lies between midnight and the next midnight. *)
Lemma time_of_day_bounds (t : string) (v : Z) :
  time_of_day t = Some v -> 0 <= v <= 86400000.
Proof.
  unfold time_of_day.
  destruct (list_ascii_of_string t) as [|h1 [|h2 [|c1 [|m1 [|m2 rest]]]]];
    try discriminate.
  destruct (two_digits h1 h2) as [h|] eqn:Hh; [|discriminate].
  destruct (two_digits m1 m2) as [m|] eqn:Hm; [|discriminate].
  apply two_digits_bounds in Hh, Hm.
  match goal with
  | |- match ?e with _ => _ end = _ -> _ => destruct e as [[sec ms]|] eqn:Hs
  end; [|discriminate].
  assert (Hb : 0 <= sec <= 99 /\ 0 <= ms <= 999).
  { destruct rest as [|c2 [|s1 [|s2 rest']]]; try discriminate.
    - injection Hs as <- <-. lia.
    - destruct (eqc c2 58); [|discriminate].
      destruct (two_digits s1 s2) as [sec'|] eqn:Hsec; [|discriminate].
      apply two_digits_bounds in Hsec.
      destruct rest' as [|dot ds].
      + injection Hs as <- <-. lia.
      + destruct (eqc dot 46); [|discriminate].
        destruct (millis ds) as [ms'|] eqn:Hms; [|discriminate].
        apply millis_bounds in Hms. injection Hs as <- <-. lia. }
  destruct (eqc c1 58 && (m <=? 59) && (sec <=? 59)
            && ((h <=? 23) || (h =? 24) && (m =? 0) && (sec =? 0) && (ms =? 0))) eqn:Hc;
    [|discriminate].
  intros [= <-].
  repeat match goal with
         | H : _ && _ = true |- _ => apply andb_prop in H as [H ?]
         end.
  repeat match goal with
         | H : (_ <=? _) = true |- _ => apply Z.leb_le in H
         end.
  match goal with H : _ || _ = true |- _ => apply orb_prop in H as [H|H] end.
  - apply Z.leb_le in H. lia.
  - repeat match goal with
           | H : _ && _ = true |- _ => apply andb_prop in H as [H ?]
           end.
    repeat match goal with
           | H : (_ =? _) = true |- _ => apply Z.eqb_eq in H
           end.
    lia.
Qed.

Lemma workHours_bounds (ci co : string) (wh : Q) :
  workHours ci co = Some wh -> (-24 <= wh <= 24)%Q.
Proof.
  unfold workHours.
  destruct (time_of_day ci) as [i|] eqn:Hi; [|discriminate].
  destruct (time_of_day co) as [o|] eqn:Ho; [|discriminate].
  apply time_of_day_bounds in Hi, Ho. intros [= <-].
  change (inject_Z (1000 * 60 * 60)) with (3600000 # 1)%Q.
  unfold Qdiv, Qinv. cbn [Qnum Qden].
  unfold Qle, Qmult, inject_Z. cbn [Qnum Qden]. split; lia.
Qed.

Lemma gt_true (x y : Q) : gt x y = true -> (y < x)%Q.
Proof.
  unfold gt. intros H. apply negb_true_iff in H.
  apply Qnot_le_lt. intros Hle. apply Qle_bool_iff in Hle. congruence.
Qed.

Lemma overtime_from_times_bounds (r : Row.t) (s : AttendanceStats) :
  (ot_hours s <= ot_hours (overtime_from_times r s))%Q
  /\ (ot_hours (overtime_from_times r s) <= ot_hours s + 16)%Q.
Proof.
  unfold overtime_from_times.
  destruct (time_truthy (Row.check_in_time r) && time_truthy (Row.check_out_time r));
    [|cbn; split; lra].
  destruct (workHours _ _) as [wh|] eqn:E; [|cbn; split; lra].
  apply workHours_bounds in E.
  destruct (gt wh 8) eqn:G; [|cbn; split; lra].
  apply gt_true in G. cbn. split; lra.
Qed.

Lemma pdf_count_status_ot (st : string) (s : AttendanceStats) :
  ot_hours (count_status st s) = ot_hours s.
Proof.
  unfold count_status.
  destruct (String.eqb st "present"); [reflexivity|].
  destruct (String.eqb st "absent"); [reflexivity|].
  destruct (String.eqb st "late"); reflexivity.
Qed.

End OvertimeBounds.

Section OvertimeFromStamps.
Import JS PdfStats.
Local Open Scope Q_scope.

Lemma hours_le (d n : Z) :
  (d <= n * 3600000)%Z -> inject_Z d / inject_Z (1000 * 60 * 60) <= inject_Z n.
Proof.
  intros H. change (inject_Z (1000 * 60 * 60)) with (3600000 # 1).
  unfold Qdiv, Qinv. cbn [Qnum Qden].
  unfold Qle, Qmult, inject_Z. cbn [Qnum Qden]. lia.
Qed.

Lemma hours_ge (d : Z) :
  (8 * 3600000 < d)%Z -> 28800001 # 3600000 <= inject_Z d / inject_Z (1000 * 60 * 60).
Proof.
  intros H. change (inject_Z (1000 * 60 * 60)) with (3600000 # 1).
  unfold Qdiv, Qinv. cbn [Qnum Qden].
  unfold Qle, Qmult, inject_Z. cbn [Qnum Qden]. lia.
Qed.

Lemma gt_iff (x y : Q) : gt x y = true <-> y < x.
Proof.
  split; [apply gt_true|].
  intros H. unfold gt. apply negb_true_iff.
  destruct (Qle_bool x y) eqn:E; [|reflexivity].
  apply Qle_bool_iff in E. lra.
Qed.

(** The double quotient stays on the same side of eight hours as the
    exact one: a millisecond is far more than the rounding error. *)
Lemma workHours64_bounds (i o : Z) :
  (0 <= i <= 86400000)%Z -> (0 <= o <= 86400000)%Z ->
  ((o <= i + 8 * 3600000)%Z -> PdfStats64.workHours i o <= 8)
  /\ ((i + 8 * 3600000 < o)%Z ->
      Binary64.round (28800001 # 3600000) <= PdfStats64.workHours i o
      /\ PdfStats64.workHours i o <= 24).
Proof.
  intros Hi Ho. unfold PdfStats64.workHours, Binary64.div. split.
  - intros H. rewrite <- (round_Z 8) by (vm_compute; reflexivity).
    apply round_monotone, (hours_le _ 8). lia.
  - intros H. split.
    + apply round_monotone, hours_ge. lia.
    + rewrite <- (round_Z 24) by (vm_compute; reflexivity).
      apply round_monotone, (hours_le _ 24). lia.
Qed.

Lemma overtime64 (i o : Z) :
  (0 <= i <= 86400000)%Z -> (0 <= o <= 86400000)%Z ->
  ((o <= i + 8 * 3600000)%Z -> PdfStats64.overtime i o = None)
  /\ ((i + 8 * 3600000 < o)%Z ->
      exists w, PdfStats64.overtime i o = Some w /\ 0 < w /\ w <= 16).
Proof.
  intros Hi Ho. destruct (workHours64_bounds i o Hi Ho) as [Hle Hgt].
  unfold PdfStats64.overtime. cbv zeta. split.
  - intros H. specialize (Hle H).
    destruct (gt (PdfStats64.workHours i o) 8) eqn:E; [|reflexivity].
    apply gt_true in E. lra.
  - intros H. destruct (Hgt H) as [Hlo Hhi].
    generalize dependent (PdfStats64.workHours i o). intros wh _ _ Hlo Hhi.
    assert (C : 8 < Binary64.round (28800001 # 3600000)) by (vm_compute; reflexivity).
    assert (E : gt wh 8 = true) by (apply gt_iff; lra).
    rewrite E. eexists. split; [reflexivity|]. unfold Binary64.sub. split.
    + apply Qlt_le_trans with (Binary64.round (Binary64.round (28800001 # 3600000) - 8)).
      * vm_compute. reflexivity.
      * apply round_monotone. lra.
    + rewrite <- (round_Z 16) by (vm_compute; reflexivity).
      apply round_monotone. change (inject_Z 16) with 16. lra.
Qed.

(** X7.  The overtime [fetchAttendanceStats] derives from two local
    times of day ([HH:mm], [HH:mm:ss] or [HH:mm:ss.sss], without zone
    designator) is never negative and never more than 16 hours.  A
    check-out that is not more than eight hours after the check-in (in
    particular one that is earlier, as after a night shift) adds
    nothing; a later one adds the hours beyond eight, more than 0 and
    at most 16, in exact arithmetic and in the doubles of the run time
    alike, and a sum of doubles does not fall below the total it
    started from.  A row with a missing or empty time stamp adds no
    overtime.  From 09:00 to 19:00 the overtime is 2 hours. *)
Theorem X7_overtime_from_time_stamps_is_bounded (r : Row.t) (s : AttendanceStats) :
  (forall ci co i o,
      Row.check_in_time r = Some ci -> Row.check_out_time r = Some co ->
      time_of_day ci = Some i -> time_of_day co = Some o ->
      ((o <= i + 8 * 3600000)%Z ->
       overtime_from_times r s = s /\ PdfStats64.overtime i o = None)
      /\ ((i + 8 * 3600000 < o)%Z ->
          (exists w, overtime_from_times r s = add_ot_hours w s /\ 0 < w /\ w <= 16)
          /\ (exists w, PdfStats64.overtime i o = Some w /\ 0 < w /\ w <= 16)))
  /\ (forall total w,
      Binary64.round total == total -> 0 <= w -> w <= 16 ->
      total <= Binary64.add total w /\ Binary64.add total w <= Binary64.add total 16)
  /\ (manual_entry r = None ->
      process_record r s = overtime_from_times r (count_status (Row.status r) s)
      /\ ot_hours (count_status (Row.status r) s) = ot_hours s)
  /\ (time_truthy (Row.check_in_time r) = false
      \/ time_truthy (Row.check_out_time r) = false ->
      overtime_from_times r s = s)
  /\ (time_of_day "09:00:00" = Some 32400000%Z
      /\ time_of_day "19:00:00" = Some 68400000%Z
      /\ PdfStats64.overtime 32400000 68400000 = Some 2
      /\ ot_hours (process_record Samples.daily_row (new_stats "e1")) == 2).
Proof.
  split; [|split; [|split; [|split]]].
  - intros ci co i o Hci Hco Hi Ho.
    pose proof (time_of_day_bounds ci i Hi) as Bi.
    pose proof (time_of_day_bounds co o Ho) as Bo.
    destruct (overtime64 i o Bi Bo) as [N S].
    rewrite (overtime_with_stamps r s ci co i o Hci Hco Hi Ho). split.
    + intros Hle. split; [|exact (N Hle)].
      destruct (gt (inject_Z (o - i) / inject_Z (1000 * 60 * 60)) 8) eqn:E; [|reflexivity].
      apply more_than_eight_hours in E. lia.
    + intros Hlt. split; [|exact (S Hlt)].
      assert (E : gt (inject_Z (o - i) / inject_Z (1000 * 60 * 60)) 8 = true)
        by (apply more_than_eight_hours; lia).
      rewrite E. eexists. split; [reflexivity|].
      apply gt_true in E.
      pose proof (hours_le (o - i) 24 ltac:(lia)) as H24.
      change (inject_Z 24) with 24 in H24. split; lra.
  - intros total w Ht H0 H16. unfold Binary64.add. split.
    + rewrite <- Ht at 1. apply round_monotone. lra.
    + apply round_monotone. lra.
  - intros H. unfold process_record. rewrite H.
    split; [reflexivity | apply pdf_count_status_ot].
  - apply overtime_without_stamps.
  - vm_compute. repeat split; reflexivity.
Qed.

End OvertimeFromStamps.


(** * Further properties of the reports *)

Section ReportFigures.
Import JS Reports.

Lemma round_twelve_percent (p : Z) :
  Math_round (inject_Z p * 0.12) = (24 * p + 100) / 200.
Proof.
  unfold Math_round, Qfloor, Qplus, Qmult, inject_Z. simpl. f_equal; lia.
Qed.

Lemma round_epf (p : Z) : employerEPF p = (1666 * p + 10000) / 20000.
Proof.
  unfold employerEPF, Math_round, Qfloor, Qplus, Qmult, inject_Z. simpl. f_equal; lia.
Qed.

Lemma round_eps (p : Z) : employerEPS p = (734 * p + 10000) / 20000.
Proof.
  unfold employerEPS, Math_round, Qfloor, Qplus, Qmult, inject_Z. simpl. f_equal; lia.
Qed.

(** X8.  The employee's PF contribution never exceeds 1800: it is
    round(pfBasic x 0.12) as long as pfBasic is below 14996, and
    exactly 1800 from 14996 on; it never decreases when pfBasic
    grows. *)
Theorem X8_employee_pf_is_capped (pfBasic : Z) :
  emp12Amount pfBasic <= 1800
  /\ (14996 <= pfBasic -> emp12Amount pfBasic = 1800)
  /\ (pfBasic < 14996 ->
      emp12Amount pfBasic = Math_round (inject_Z pfBasic * 0.12)
      /\ emp12Amount pfBasic < 1800)
  /\ (forall pfBasic', pfBasic <= pfBasic' -> emp12Amount pfBasic <= emp12Amount pfBasic').
Proof.
  unfold emp12Amount, Math_min. rewrite round_twelve_percent.
  split; [apply Z.le_min_r|].
  split.
  { intros H. apply Z.min_r. apply Z.div_le_lower_bound; lia. }
  split.
  { intros H.
    assert ((24 * pfBasic + 100) / 200 < 1800) by (apply Z.div_lt_upper_bound; lia).
    rewrite Z.min_l by lia. split; [reflexivity | assumption]. }
  intros p' H. rewrite round_twelve_percent.
  apply Z.min_le_compat_r. apply Z.div_le_mono; lia.
Qed.

(** X9.  The employer's two shares are rounded separately, so their
    sum is not always the rounded 12 percent of pfBasic (it is 1 more
    at 19 and 1 less at 5); but for every pfBasic the total employer
    contribution differs from round(pfBasic x 0.12) by at most 1, and
    for a pfBasic that is not negative neither share is negative. *)
Theorem X9_employer_shares_add_up_to_twelve_percent (pfBasic : Z) :
  -1 <= employerEPF pfBasic + employerEPS pfBasic
        - Math_round (inject_Z pfBasic * 0.12) <= 1
  /\ (0 <= pfBasic -> 0 <= employerEPF pfBasic /\ 0 <= employerEPS pfBasic)
  /\ employerEPF 19 + employerEPS 19 - Math_round (inject_Z 19 * 0.12) = 1
  /\ employerEPF 5 + employerEPS 5 - Math_round (inject_Z 5 * 0.12) = -1.
Proof.
  split; [|split; [|vm_compute; split; reflexivity]];
    rewrite ?round_twelve_percent, round_epf, round_eps.
  - replace ((24 * pfBasic + 100) / 200) with ((2400 * pfBasic + 10000) / 20000).
    + Z.div_mod_to_equations. lia.
    + replace (2400 * pfBasic + 10000) with ((24 * pfBasic + 100) * 100) by lia.
      replace 20000 with (200 * 100) by reflexivity.
      apply Z.div_mul_cancel_r; lia.
  - intros H. split; apply Z.div_pos; lia.
Qed.

(** X10.  Whatever the gross earnings, the employee's ESI contribution
    is at most 158 and the employer's at most 683 (the values at the
    threshold of 21000); for gross earnings that are not negative
    neither is negative. *)
Theorem X10_esi_contributions_are_bounded (grossEarnings : Z) :
  employeeESI grossEarnings <= 158
  /\ employerESI grossEarnings <= 683
  /\ (0 <= grossEarnings ->
      0 <= employeeESI grossEarnings /\ 0 <= employerESI grossEarnings).
Proof.
  unfold employeeESI, employerESI.
  rewrite round_employee_share, round_employer_share.
  destruct (21000 <? grossEarnings) eqn:E.
  - repeat split; lia.
  - apply Z.ltb_ge in E.
    assert ((150 * grossEarnings + 10000) / 20000 < 159)
      by (apply Z.div_lt_upper_bound; lia).
    assert ((650 * grossEarnings + 10000) / 20000 < 684)
      by (apply Z.div_lt_upper_bound; lia).
    split; [lia|]. split; [lia|].
    intros H1. split; apply Z.div_pos; lia.
Qed.





Lemma length_zero_iff {A : Type} (l : list A) : (List.length l =? 0)%nat = true <-> l = [].
Proof. destruct l; split; intros H; try reflexivity; discriminate. Qed.

(** X13.  The export button ends in exactly one of three ways: the
    "Month Required" notice if and only if no month is selected; the
    "No Data Found" notice if and only if a month is selected and no
    employee passes the attendance filter; otherwise a download, whose
    file name is the report type, "_report_", the month and ".csv". *)
Theorem X13_outcomes_of_the_export (employees : list Employee)
    (attendanceStats : gmap string Attendance.EmployeeAttendanceStats)
    (selectedMonth : string) (reportType : ReportType) :
  (handleExportExcel employees attendanceStats selectedMonth reportType = MonthRequired
   <-> selectedMonth = ""%string)
  /\ (handleExportExcel employees attendanceStats selectedMonth reportType = NoDataFound
      <-> selectedMonth <> ""%string
          /\ List.filter (has_data attendanceStats) employees = [])
  /\ (forall filename content,
        handleExportExcel employees attendanceStats selectedMonth reportType
        = Download filename content ->
        selectedMonth <> ""%string
        /\ List.filter (has_data attendanceStats) employees <> []
        /\ filename
           = String.append (match reportType with pf => "pf" | esi => "esi" end)
               (String.append "_report_" (String.append selectedMonth ".csv"))).
Proof.
  unfold handleExportExcel, generatePFReport, generateESIReport. cbv zeta.
  destruct (String.eqb selectedMonth "") eqn:Em.
  - apply String.eqb_eq in Em. subst selectedMonth.
    split; [split; reflexivity|].
    split; [split; [discriminate | intros [H _]; congruence]|].
    discriminate.
  - apply String.eqb_neq in Em.
    destruct (List.length (List.filter (has_data attendanceStats) employees) =? 0)%nat eqn:El.
    + apply length_zero_iff in El.
      destruct reportType; rewrite El.
      all: split; [split; [discriminate | congruence]|].
      all: split; [split; [intros _; split; [exact Em | reflexivity] | reflexivity]|].
      all: discriminate.
    + assert (Hne : List.filter (has_data attendanceStats) employees <> []).
      { intros E. apply length_zero_iff in E. congruence. }
      destruct reportType.
      all: split; [split; [discriminate | congruence]|].
      all: split; [split; [discriminate | intros [_ E]; congruence]|].
      all: intros filename content [= <- _]; repeat split; assumption.
Qed.

End ReportFigures.

Section ReportAttendance.
Import JS Reports.










End ReportAttendance.


(** * Further properties of the payslip *)

Section PayslipPage.
Import JS Layout.

(** X14.  [verifyPDFPageSize] accepts a page exactly when its width
    lies in [209.5, 210.5) and its height in [296.5, 297.5): the sizes
    are rounded to whole millimetres before they are compared with
    A4. *)
Theorem X14_page_size_tolerance (pageInfo : PageSize) :
  isValid (verifyPDFPageSize pageInfo) = true
  <-> ((2095 # 10) <= getWidth pageInfo)%Q /\ (getWidth pageInfo < (2105 # 10))%Q
      /\ ((2965 # 10) <= getHeight pageInfo)%Q /\ (getHeight pageInfo < (2975 # 10))%Q.
Proof.
  unfold verifyPDFPageSize, A4_width, A4_height. cbn [isValid].
  destruct (Math_round_nearest (getWidth pageInfo)) as [Hw1 Hw2].
  destruct (Math_round_nearest (getHeight pageInfo)) as [Hh1 Hh2].
  rewrite andb_true_iff, !Z.eqb_eq. split.
  - intros [Ew Eh]. rewrite Ew in Hw1, Hw2. rewrite Eh in Hh1, Hh2.
    change (inject_Z 210) with 210%Q in *. change (inject_Z 297) with 297%Q in *.
    repeat split; lra.
  - intros (W1 & W2 & H1 & H2).
    assert (Ew : (209 < inject_Z (Math_round (getWidth pageInfo)) < 211)%Q) by (split; lra).
    assert (Eh : (296 < inject_Z (Math_round (getHeight pageInfo)) < 298)%Q) by (split; lra).
    destruct Ew as [Ew1 Ew2], Eh as [Eh1 Eh2].
    change 209%Q with (inject_Z 209) in Ew1. change 211%Q with (inject_Z 211) in Ew2.
    change 296%Q with (inject_Z 296) in Eh1. change 298%Q with (inject_Z 298) in Eh2.
    rewrite <- Zlt_Qlt in Ew1, Ew2, Eh1, Eh2. split; lia.
Qed.

(** X15.  Three sections and the two gaps between them fill the
    height left by the margins exactly, on a page of any height: the
    third section ends where the available height ends, and the value
    returned after it is one gap further. *)
Theorem X15_three_sections_fill_the_page (page : PageSize) (y0 : Q) :
  (3 * sectionHeight page + 2 * sectionGap == availableHeight page)%Q
  /\ (border_bottom
        (drawPayslipSection_positions page
           (next_section
              (drawPayslipSection_positions page
                 (next_section (drawPayslipSection_positions page y0)))))
      == y0 + availableHeight page)%Q
  /\ (next_section
        (drawPayslipSection_positions page
           (next_section
              (drawPayslipSection_positions page
                 (next_section (drawPayslipSection_positions page y0)))))
      == y0 + availableHeight page + sectionGap)%Q.
Proof.
  unfold drawPayslipSection_positions, sectionHeight, availableHeight, sectionGap, margin.
  cbn [border_bottom next_section]. repeat split; field.
Qed.

(** X16.  The text lines of a section come in order from top to
    bottom exactly when the page is taller than 860/3 mm (286.67; A4
    is): on a shorter page the branch name, written 21 mm below the
    border, is no longer above the first line of employee
    information.  On every page the first line is below the top of the
    border and the footer above its bottom. *)
Theorem X16_text_lines_are_in_order_on_tall_pages (page : PageSize) (yPosition : Q) :
  (ascending (text_lines (drawPayslipSection_positions page yPosition))
   <-> ((860 # 3) < getHeight page)%Q)
  /\ (border_top (drawPayslipSection_positions page yPosition) < yPosition + 8)%Q
  /\ (footer (drawPayslipSection_positions page yPosition)
      < border_bottom (drawPayslipSection_positions page yPosition))%Q.
Proof.
  unfold drawPayslipSection_positions, text_lines, headerHeight, infoHeight,
    sectionHeight, availableHeight, sectionGap, margin, infoLineHeight, dataLineHeight,
    netPayHeight, maxRows, cursor_after.
  cbn [header_lines info_lines table_head table_rows net_pay_text totals footer
       border_top border_bottom app cursor_lines ascending Nat.min Nat.iter nat_rect].
  change (8 / 2)%Q with (8 # 2).
  generalize (getHeight page). intros h.
  set (sh := ((h - 2 * 8 - 2 * 2) / 3)%Q).
  assert (Hsh : (3 * sh == h - 20)%Q) by (unfold sh; field).
  clearbody sh.
  split; [split|split].
  - intros (_ & _ & H & _). lra.
  - intros H. repeat split; lra.
  - lra.
  - lra.
Qed.

End PayslipPage.

Section PayslipFigures.
Import JS Payslip.


Lemma or_zero_nonneg (x : option Q) :
  match x with Some q => (0 <= q)%Q | None => True end -> (0 <= or_zero x)%Q.
Proof.
  unfold or_zero. destruct x as [q|]; [|intros _; apply Qle_refl].
  intros H. destruct (truthy q); [exact H | apply Qle_refl].
Qed.

Lemma Math_round_nonneg (x : Q) : (0 <= x)%Q -> 0 <= Math_round x.
Proof.
  intros H. change 0 with (Math_round 0). apply Math_round_monotone, H.
Qed.

(** X18.  On a payslip PF is never more than 1800.  When the salary
    components and the stored gross salary are not negative, PF and
    ESI are not negative either, so the net pay lies between the
    total earnings less 1800 and the ESI, and the total earnings. *)
Theorem X18_payslip_deductions_are_bounded (employee : Employee) (stats : Stats) :
  (0 <= basic_salary employee)%Q -> (0 <= hra employee)%Q ->
  (0 <= allowances employee)%Q ->
  match gross_salary employee with Some g => (0 <= g)%Q | None => True end ->
  0 <= pf (financials employee stats) <= 1800
  /\ 0 <= esi (financials employee stats)
  /\ (netPay (financials employee stats)
      <= grossEarnings (financials employee stats) + otAmount (financials employee stats))%Q
  /\ (grossEarnings (financials employee stats) + otAmount (financials employee stats)
      - 1800 - inject_Z (esi (financials employee stats))
      <= netPay (financials employee stats))%Q.
Proof.
  intros Hb Hh Ha Hg.
  assert (Hbase : (0 <= basic_salary employee + hra employee + allowances employee)%Q) by lra.
  assert (Hgross : (0 <= gross_of employee)%Q).
  { unfold gross_of. cbv zeta. destruct (truthy (or_zero (gross_salary employee))).
    - apply or_zero_nonneg, Hg.
    - apply or_zero_nonneg, Hbase. }
  assert (Hpf : 0 <= pf (financials employee stats) <= 1800).
  { cbn [financials pf]. unfold Math_min. split; [|apply Z.le_min_r].
    apply Z.min_glb; [|lia]. apply Math_round_nonneg.
    apply Qmult_le_0_compat; [exact Hbase | discriminate]. }
  assert (Hesi : 0 <= esi (financials employee stats)).
  { cbn [financials esi]. apply Math_round_nonneg.
    apply Qmult_le_0_compat; [exact Hgross | discriminate]. }
  split; [exact Hpf|]. split; [exact Hesi|].
  assert (Hq1 : (0 <= inject_Z (pf (financials employee stats)))%Q)
    by (change 0%Q with (inject_Z 0); rewrite <- Zle_Qle; lia).
  assert (Hq2 : (inject_Z (pf (financials employee stats)) <= 1800)%Q)
    by (change 1800%Q with (inject_Z 1800); rewrite <- Zle_Qle; lia).
  assert (Hq3 : (0 <= inject_Z (esi (financials employee stats)))%Q)
    by (change 0%Q with (inject_Z 0); rewrite <- Zle_Qle; lia).
  cbn [financials netPay grossEarnings otAmount totalDeductions pf esi] in *.
  rewrite inject_Z_plus. split; lra.
Qed.

Lemma X18_witness :
  0 <= pf (financials
             {| basic_salary := 10000; hra := 2000; allowances := 500;
                gross_salary := Some 30000%Q |}
             {| present_days := 25; absent_days := 0; late_days := 0; ot_hours := 10 |})
       <= 1800.
Proof.
  apply (X18_payslip_deductions_are_bounded
           {| basic_salary := 10000; hra := 2000; allowances := 500;
              gross_salary := Some 30000%Q |}
           {| present_days := 25; absent_days := 0; late_days := 0; ot_hours := 10 |});
    unfold Qle; cbn; lia.
Defined.

End PayslipFigures.

(** * Further properties of the month boundaries *)

Section CalendarArithmetic.
Import JS Calendar.

Lemma InLeapYear_leap_year (y : Z) : InLeapYear y = if leap_year y then 1 else 0.
Proof. reflexivity. Qed.

Lemma InLeapYear_leap_year_bool (y : Z) :
  (if (y mod 4 =? 0) && (negb (y mod 100 =? 0) || (y mod 400 =? 0)) then true else false)
  = leap_year y.
Proof. unfold leap_year. destruct (_ && _); reflexivity. Qed.

Lemma DayFromYear_next (y : Z) : DayFromYear (y + 1) = DayFromYear y + 365 + InLeapYear y.
Proof.
  unfold DayFromYear, InLeapYear.
  destruct (y mod 4 =? 0) eqn:E4; destruct (y mod 100 =? 0) eqn:E100;
    destruct (y mod 400 =? 0) eqn:E400; cbn [negb orb andb];
    rewrite ?Z.eqb_eq, ?Z.eqb_neq in *;
    Z.div_mod_to_equations; lia.
Qed.

Lemma InLeapYear_bounds (y : Z) : 0 <= InLeapYear y <= 1.
Proof. unfold InLeapYear. destruct (_ && _); lia. Qed.

(** The estimate of [YearFromDay] is off by at most one, so the year
    found is the right one. *)
Lemma YearFromDay_correct (y k : Z) :
  0 <= k < 365 + InLeapYear y -> YearFromDay (DayFromYear y + k) = y.
Proof.
  intros H. unfold YearFromDay. cbv zeta.
  pose proof (DayFromYear_next y) as Hn.
  set (c := 1970 + 400 * (DayFromYear y + k) / 146097).
  assert (Hc : y - 1 <= c <= y + 1).
  { unfold c, DayFromYear, InLeapYear in *.
    destruct ((y mod 4 =? 0) && (negb (y mod 100 =? 0) || (y mod 400 =? 0)));
      Z.div_mod_to_equations; lia. }
  assert (c = y - 1 \/ c = y \/ c = y + 1) as [E|[E|E]] by lia; rewrite E.
  - replace (y - 1 + 1) with y by lia.
    pose proof (DayFromYear_next (y - 1)) as Hp. replace (y - 1 + 1) with y in Hp by lia.
    pose proof (InLeapYear_bounds (y - 1)).
    destruct (DayFromYear y + k <? DayFromYear (y - 1)) eqn:E1;
      [apply Z.ltb_lt in E1; lia|].
    destruct (DayFromYear y <=? DayFromYear y + k) eqn:E2;
      [lia | apply Z.leb_gt in E2; lia].
  - destruct (DayFromYear y + k <? DayFromYear y) eqn:E1; [apply Z.ltb_lt in E1; lia|].
    destruct (DayFromYear (y + 1) <=? DayFromYear y + k) eqn:E2;
      [apply Z.leb_le in E2; lia | reflexivity].
  - destruct (DayFromYear y + k <? DayFromYear (y + 1)) eqn:E1;
      [lia | apply Z.ltb_ge in E1; lia].
Qed.

(** Every day lies in the year [YearFromDay] finds for it. *)
Lemma YearFromDay_contains (d : Z) :
  DayFromYear (YearFromDay d) <= d < DayFromYear (YearFromDay d + 1).
Proof.
  unfold YearFromDay. cbv zeta.
  set (c := 1970 + 400 * d / 146097).
  pose proof (DayFromYear_next c) as H1.
  pose proof (DayFromYear_next (c - 1)) as H0. replace (c - 1 + 1) with c in H0 by lia.
  pose proof (DayFromYear_next (c + 1)) as H2.
  pose proof (InLeapYear_bounds c). pose proof (InLeapYear_bounds (c - 1)).
  pose proof (InLeapYear_bounds (c + 1)).
  assert (Hlo : DayFromYear (c - 1) <= d).
  { unfold c, DayFromYear in *. Z.div_mod_to_equations. lia. }
  assert (Hhi : d < DayFromYear (c + 1 + 1)).
  { unfold c, DayFromYear in *. Z.div_mod_to_equations. lia. }
  destruct (d <? DayFromYear c) eqn:E1.
  - apply Z.ltb_lt in E1. replace (c - 1 + 1) with c by lia. lia.
  - apply Z.ltb_ge in E1. destruct (DayFromYear (c + 1) <=? d) eqn:E2.
    + apply Z.leb_le in E2. lia.
    + apply Z.leb_gt in E2. lia.
Qed.

End CalendarArithmetic.


Section MonthFields.
Import JS Calendar.

Lemma MonthFromDay_at (y k : Z) :
  0 <= k < 365 + InLeapYear y ->
  MonthFromDay (DayFromYear y + k)
  = Z.of_nat (List.length (List.filter (fun s => s <=? k) (month_starts (InLeapYear y)))) - 1.
Proof.
  intros H. unfold MonthFromDay. cbv zeta. rewrite (YearFromDay_correct y k H).
  replace (DayFromYear y + k - DayFromYear y) with k by lia. reflexivity.
Qed.

Lemma DateFromDay_at (y k : Z) :
  0 <= k < 365 + InLeapYear y ->
  DateFromDay (DayFromYear y + k)
  = k - month_start (InLeapYear y) (MonthFromDay (DayFromYear y + k)) + 1.
Proof.
  intros H. unfold DateFromDay. cbv zeta. rewrite (YearFromDay_correct y k H).
  replace (DayFromYear y + k - DayFromYear y) with k by lia. reflexivity.
Qed.

(** The calendar fields of the [k]-th day of year [y]. *)
Lemma fields_at (y k mi dd leap : Z) :
  InLeapYear y = leap ->
  0 <= k < 365 + leap ->
  Z.of_nat (List.length (List.filter (fun s => s <=? k) (month_starts leap))) - 1 = mi ->
  k - month_start leap mi + 1 = dd ->
  YearFromDay (DayFromYear y + k) = y /\
  MonthFromDay (DayFromYear y + k) = mi /\
  DateFromDay (DayFromYear y + k) = dd.
Proof.
  intros E H Hm Hd. subst leap. split; [apply YearFromDay_correct; exact H|].
  rewrite (DateFromDay_at y k H), (MonthFromDay_at y k H), Hm. split; [reflexivity | exact Hd].
Qed.

Lemma InLeapYear_cases (y : Z) :
  (InLeapYear y = 0 /\ leap_year y = false) \/ (InLeapYear y = 1 /\ leap_year y = true).
Proof. unfold InLeapYear, leap_year. destruct (_ && _); auto. Qed.

Lemma MakeDay_in_year (y mi dt : Z) :
  0 <= mi <= 11 ->
  MakeDay y mi dt = DayFromYear y + (month_start (InLeapYear y) mi + dt - 1).
Proof.
  intros H. unfold MakeDay. cbv zeta.
  replace (mi / 12) with 0 by (Z.div_mod_to_equations; lia).
  replace (mi mod 12) with mi by (Z.div_mod_to_equations; lia).
  rewrite Z.add_0_r. lia.
Qed.

Lemma MakeDay_next_year (y dt : Z) :
  MakeDay y 12 dt = DayFromYear y + (365 + InLeapYear y + dt - 1).
Proof.
  unfold MakeDay. cbv zeta. change (12 / 12) with 1. change (12 mod 12) with 0.
  rewrite DayFromYear_next. change (month_start (InLeapYear (y + 1)) 0) with 0. lia.
Qed.

Ltac month_cases m :=
  let H := fresh in
  assert (H : m = 1 \/ m = 2 \/ m = 3 \/ m = 4 \/ m = 5 \/ m = 6 \/ m = 7 \/ m = 8 \/
              m = 9 \/ m = 10 \/ m = 11 \/ m = 12) by lia;
  repeat (destruct H as [H | H]); subst m.

Ltac day_fields y E :=
  apply (fields_at y _ _ _ _ E);
  [vm_compute; split; [discriminate | reflexivity] | reflexivity | reflexivity].

(** The first day of month [m] of year [y]. *)
Lemma first_day_fields (y m : Z) :
  1 <= m <= 12 ->
  let d := MakeDay y (m - 1) 1 in
  YearFromDay d = y /\ MonthFromDay d = m - 1 /\ DateFromDay d = 1.
Proof.
  intros H d. subst d. rewrite MakeDay_in_year by lia.
  destruct (InLeapYear_cases y) as [[E _] | [E _]]; rewrite E;
    month_cases m; day_fields y E.
Qed.

(** Day 0 of the month after [m] is the last day of month [m]. *)
Lemma last_day_fields (y m : Z) :
  1 <= m <= 12 ->
  let d := MakeDay y m 0 in
  YearFromDay d = y /\ MonthFromDay d = m - 1 /\ DateFromDay d = days_in_month y m.
Proof.
  intros H d. subst d.
  assert (E : MakeDay y m 0
              = DayFromYear y + ((if m =? 12 then 365 + InLeapYear y
                                  else month_start (InLeapYear y) m) - 1)).
  { destruct (m =? 12) eqn:E12.
    - apply Z.eqb_eq in E12. subst m. rewrite MakeDay_next_year. lia.
    - apply Z.eqb_neq in E12. rewrite MakeDay_in_year by lia. lia. }
  rewrite E. clear E. unfold days_in_month.
  destruct (InLeapYear_cases y) as [[E El] | [E El]]; rewrite E, El;
    month_cases m; day_fields y E.
Qed.

End MonthFields.

Section DecimalTexts.
Import JS Calendar.

Lemma uint_val_pos (d : Decimal.uint) (acc : positive) :
  uint_val d (Z.pos acc) = Z.pos (Pos.of_uint_acc d acc).
Proof.
  revert acc. induction d; intros acc; cbn [uint_val Pos.of_uint_acc];
    try reflexivity;
    match goal with
    | |- uint_val _ ?x = _ =>
        match goal with
        | |- _ = Z.pos (Pos.of_uint_acc _ ?p) => replace x with (Z.pos p) by lia
        end
    end; apply IHd.
Qed.

Lemma uint_val_zero (d : Decimal.uint) : uint_val d 0 = Z.of_N (Pos.of_uint d).
Proof.
  induction d; cbn [uint_val Pos.of_uint]; try reflexivity; try exact IHd;
    match goal with
    | |- uint_val _ ?x = Z.of_N (N.pos (Pos.of_uint_acc _ ?p)) =>
        change x with (Z.pos p); rewrite uint_val_pos; reflexivity
    end.
Qed.

Lemma digits_of_uint (d : Decimal.uint) (rest : list ascii) (acc n : Z) :
  take_digits (list_ascii_of_string (DecimalString.NilEmpty.string_of_uint d) ++ rest) acc n
  = take_digits rest (uint_val d acc) (n + Z.of_nat (Decimal.nb_digits d)).
Proof.
  revert acc n. induction d; intros acc n;
    cbn [DecimalString.NilEmpty.string_of_uint list_ascii_of_string app uint_val
         Decimal.nb_digits].
  { f_equal. lia. }
  all: cbn [take_digits].
  all: match goal with
       | |- (if is_digit ?c then _ else _) = _ =>
           change (is_digit c) with true; cbv iota
       end.
  all: match goal with
       | |- context [digit_val ?c] =>
           let v := eval vm_compute in (digit_val c) in change (digit_val c) with v
       end.
  all: rewrite IHd.
  all: apply (f_equal2 (take_digits rest)); [apply (f_equal (uint_val d)) |]; lia.
Qed.


Lemma list_of_append (a b : string) :
  list_ascii_of_string (String.append a b)
  = list_ascii_of_string a ++ list_ascii_of_string b.
Proof.
  induction a as [|x a IH]; [reflexivity|].
  rewrite append_cons. cbn [list_ascii_of_string app]. rewrite IH. reflexivity.
Qed.

Lemma digit_is_plain (c : ascii) :
  is_digit c = true -> is_space c = false /\ eqc c 45 = false /\ eqc c 43 = false.
Proof.
  unfold is_digit, is_space, eqc. cbv zeta. generalize (nat_of_ascii c). intros n H.
  apply andb_true_iff in H. destruct H as [H1 H2].
  apply Nat.leb_le in H1. apply Nat.leb_le in H2.
  repeat split.
  - apply orb_false_iff. split; [apply Nat.eqb_neq; lia|].
    apply andb_false_iff. right. apply Nat.leb_gt. lia.
  - apply Nat.eqb_neq. lia.
  - apply Nat.eqb_neq. lia.
Qed.

Lemma uint_digits (d : Decimal.uint) :
  forallb is_digit (list_ascii_of_string (DecimalString.NilEmpty.string_of_uint d)) = true.
Proof.
  induction d; [reflexivity|..];
    cbn [DecimalString.NilEmpty.string_of_uint list_ascii_of_string forallb];
    rewrite IHd; reflexivity.
Qed.

(** The decimal text of a natural number: a non-empty run of digits
    whose value is the number. *)
Lemma Z_to_string_uint (y : Z) :
  0 <= y ->
  exists d, Z_to_string y = DecimalString.NilEmpty.string_of_uint d /\
            (0 < Decimal.nb_digits d)%nat /\ uint_val d 0 = y.
Proof.
  intros H. destruct y as [|p|p]; [| |lia].
  - exists (Decimal.D0 Decimal.Nil). repeat split. cbn. lia.
  - exists (Pos.to_uint p).
    pose proof (DecimalPos.Unsigned.of_to p) as E.
    assert (V : uint_val (Pos.to_uint p) 0 = Z.pos p).
    { rewrite uint_val_zero, E. reflexivity. }
    unfold Z_to_string. cbn [Z.to_int DecimalString.NilZero.string_of_int].
    unfold DecimalString.NilZero.string_of_uint.
    destruct (Pos.to_uint p) eqn:Ed; [discriminate V|..]; repeat split; try exact V; cbn; lia.
Qed.

(** [parseInt] of a text that starts with a digit. *)
Lemma parseInt_digits (s : string) (v n : Z) (rest : list ascii) :
  forallb is_digit (firstn 1 (list_ascii_of_string s)) = true ->
  take_digits (list_ascii_of_string s) 0 0 = (v, n, rest) ->
  0 < n ->
  parseInt s = Some v.
Proof.
  intros Hd Ht Hn. unfold parseInt. cbv zeta.
  destruct (list_ascii_of_string s) as [|c r] eqn:El.
  - cbn in Ht. injection Ht as _ Hz _. lia.
  - cbn [firstn forallb] in Hd. rewrite andb_true_r in Hd.
    destruct (digit_is_plain c Hd) as (Hs & H45 & H43).
    cbn [drop_space]. rewrite Hs, H45, H43, Ht.
    destruct (n =? 0) eqn:E0; [apply Z.eqb_eq in E0; lia | reflexivity].
Qed.

Lemma parseInt_Z_to_string (y : Z) : 0 <= y -> parseInt (Z_to_string y) = Some y.
Proof.
  intros H. destruct (Z_to_string_uint y H) as (d & Es & Hn & Hv).
  rewrite Es.
  apply (parseInt_digits _ y (Z.of_nat (Decimal.nb_digits d)) []); [| |lia].
  - pose proof (uint_digits d) as Hall.
    destruct (list_ascii_of_string (DecimalString.NilEmpty.string_of_uint d)); [reflexivity|].
    cbn [firstn forallb] in *. apply andb_true_iff in Hall. destruct Hall as [-> _]. reflexivity.
  - rewrite <- (app_nil_r (list_ascii_of_string _)), digits_of_uint, Hv. reflexivity.
Qed.

Lemma length_list_of_string (s : string) :
  List.length (list_ascii_of_string s) = String.length s.
Proof. induction s as [|c s IH]; [reflexivity|]. cbn. rewrite IH. reflexivity. Qed.

(** A padded number: one zero in front of a single digit. *)
Lemma padStart2_uint (y : Z) :
  0 <= y ->
  exists zeros d,
    list_ascii_of_string (padStart2 (Z_to_string y))
    = zeros ++ list_ascii_of_string (DecimalString.NilEmpty.string_of_uint d) /\
    (zeros = [] \/ zeros = [ch 48]) /\
    (0 < Decimal.nb_digits d)%nat /\ uint_val d 0 = y.
Proof.
  intros H. destruct (Z_to_string_uint y H) as (d & Es & Hn & Hv).
  rewrite Es. unfold padStart2.
  destruct (String.length (DecimalString.NilEmpty.string_of_uint d)) as [|[|k]] eqn:El.
  - exfalso. destruct d; cbn in El; try discriminate El. cbn in Hn. lia.
  - exists [ch 48], d. repeat split; auto.
  - exists [], d. repeat split; auto.
Qed.

Lemma parseInt_padStart2 (y : Z) : 0 <= y -> parseInt (padStart2 (Z_to_string y)) = Some y.
Proof.
  intros H. destruct (padStart2_uint y H) as (zeros & d & El & Hz & Hn & Hv).
  pose proof (uint_digits d) as Hall.
  destruct Hz as [-> | ->].
  - apply (parseInt_digits _ y (Z.of_nat (Decimal.nb_digits d)) []); [| |lia].
    + rewrite El. cbn [app].
      destruct (list_ascii_of_string (DecimalString.NilEmpty.string_of_uint d)); [reflexivity|].
      cbn [firstn forallb] in *. apply andb_true_iff in Hall. destruct Hall as [-> _].
      reflexivity.
    + rewrite El. cbn [app].
      rewrite <- (app_nil_r (list_ascii_of_string _)), digits_of_uint, Hv. reflexivity.
  - apply (parseInt_digits _ y (1 + Z.of_nat (Decimal.nb_digits d)) []); [| |lia].
    + rewrite El. reflexivity.
    + rewrite El. cbn [app take_digits]. change (is_digit (ch 48)) with true. cbv iota.
      change (10 * 0 + digit_val (ch 48)) with 0. change (0 + 1) with 1.
      rewrite <- (app_nil_r (list_ascii_of_string _)), digits_of_uint, Hv. reflexivity.
Qed.

Lemma split_dash_aux_digits (a rest cur : list ascii) :
  forallb is_digit a = true ->
  split_dash_aux (a ++ rest) cur = split_dash_aux rest (rev a ++ cur).
Proof.
  revert cur. induction a as [|c a IH]; intros cur H; [reflexivity|].
  cbn [forallb] in H. apply andb_true_iff in H. destruct H as [Hc Ha].
  destruct (digit_is_plain c Hc) as (_ & H45 & _).
  cbn [app split_dash_aux rev]. rewrite H45, (IH _ Ha), <- app_assoc. reflexivity.
Qed.

Lemma padStart2_digits (m : Z) :
  0 <= m -> forallb is_digit (list_ascii_of_string (padStart2 (Z_to_string m))) = true.
Proof.
  intros H. destruct (padStart2_uint m H) as (zeros & d & El & Hz & _ & _).
  rewrite El, forallb_app, uint_digits. destruct Hz as [-> | ->]; reflexivity.
Qed.

Lemma Z_to_string_digits (y : Z) :
  0 <= y -> forallb is_digit (list_ascii_of_string (Z_to_string y)) = true.
Proof.
  intros H. destruct (Z_to_string_uint y H) as (d & Es & _ & _).
  rewrite Es. apply uint_digits.
Qed.

(** A selector splits into its year and its month. *)
Lemma split_dash_selector (y m : Z) :
  0 <= y -> 0 <= m ->
  split_dash (selector y m) = [Z_to_string y; padStart2 (Z_to_string m)].
Proof.
  intros Hy Hm. unfold split_dash, selector, dash.
  rewrite list_of_append, append_cons, append_empty.
  cbn [list_ascii_of_string].
  rewrite (split_dash_aux_digits _ _ _ (Z_to_string_digits y Hy)).
  cbn [split_dash_aux]. change (eqc (ch 45) 45) with true. cbv iota.
  rewrite app_nil_r, rev_involutive, string_of_list_ascii_of_string.
  rewrite <- (app_nil_r (list_ascii_of_string (padStart2 _))).
  rewrite (split_dash_aux_digits _ _ _ (padStart2_digits m Hm)).
  cbn [split_dash_aux]. rewrite app_nil_r, rev_involutive, string_of_list_ascii_of_string.
  reflexivity.
Qed.

Lemma year_month_selector (y m : Z) :
  0 <= y -> 0 <= m -> MonthRange.year_month (selector y m) = (Some y, Some m).
Proof.
  intros Hy Hm. unfold MonthRange.year_month. cbv zeta.
  rewrite (split_dash_selector y m Hy Hm). cbn [nth_error].
  rewrite (parseInt_Z_to_string y Hy), (parseInt_padStart2 m Hm). reflexivity.
Qed.

End DecimalTexts.


Section MonthRanges.
Import JS Calendar MonthRange.

Lemma formatLocalDate_fields (tza y mi dt Y M D : Z) :
  (0 <=? y) && (y <=? 99) = false ->
  YearFromDay (MakeDay y mi dt) = Y ->
  MonthFromDay (MakeDay y mi dt) = M - 1 ->
  DateFromDay (MakeDay y mi dt) = D ->
  formatLocalDate tza (new_Date tza (Some y) (Some mi) (Some dt)) = iso Y M D.
Proof.
  intros Hy HY HM HD.
  unfold formatLocalDate, new_Date, getFullYear, getMonth, getDate. cbv zeta.
  rewrite Hy. cbn [option_map]. rewrite local_day_new_Date, HY, HM, HD.
  cbn [int_toString]. replace (M - 1 + 1) with M by lia.
  unfold iso, selector, dash. rewrite !append_assoc. reflexivity.
Qed.

Lemma formatLocalDate_invalid (tza : Z) : formatLocalDate tza None = "NaN-NaN-NaN"%string.
Proof. reflexivity. Qed.

Lemma MakeDay_carry (y mi dt : Z) : MakeDay y mi dt = MakeDay (y + mi / 12) (mi mod 12) dt.
Proof.
  unfold MakeDay. cbv zeta.
  replace (mi mod 12 / 12) with 0 by (Z.div_mod_to_equations; lia).
  rewrite Z.mod_mod by discriminate. rewrite Z.add_0_r. reflexivity.
Qed.

Lemma MakeDay_end_carry (y m : Z) :
  MakeDay y m 0 = MakeDay (y + (m - 1) / 12) ((m - 1) mod 12 + 1) 0.
Proof.
  pose proof (Z.mod_pos_bound (m - 1) 12 eq_refl) as Hr.
  pose proof (Z.div_mod (m - 1) 12) as Hq.
  set (q := (m - 1) / 12) in *. set (r := (m - 1) mod 12) in *.
  assert (Hm : m = 12 * q + r + 1) by lia.
  destruct (Z.eq_dec r 11) as [E|E].
  - rewrite E. change (11 + 1) with 12. rewrite MakeDay_next_year.
    unfold MakeDay. cbv zeta.
    replace (m / 12) with (q + 1) by (Z.div_mod_to_equations; lia).
    replace (m mod 12) with 0 by (Z.div_mod_to_equations; lia).
    rewrite Z.add_assoc, DayFromYear_next.
    change (month_start (InLeapYear (y + q + 1)) 0) with 0. lia.
  - rewrite (MakeDay_in_year (y + q) (r + 1)) by lia.
    unfold MakeDay. cbv zeta.
    replace (m / 12) with q by (Z.div_mod_to_equations; lia).
    replace (m mod 12) with (r + 1) by (Z.div_mod_to_equations; lia).
    lia.
Qed.

Lemma month_number_bounds (m : Z) : 1 <= (m - 1) mod 12 + 1 <= 12.
Proof. pose proof (Z.mod_pos_bound (m - 1) 12 eq_refl). lia. Qed.

(** The range of a selector, whatever its month number. *)
Lemma of_selected_selector (tza y m : Z) :
  100 <= y -> 0 <= m ->
  of_selected tza (selector y m) = month_range (y + (m - 1) / 12) ((m - 1) mod 12 + 1).
Proof.
  intros Hy Hm. unfold of_selected.
  rewrite (year_month_selector y m) by lia. cbn [option_map].
  assert (Hc : (0 <=? y) && (y <=? 99) = false).
  { apply andb_false_iff. right. apply Z.leb_gt. lia. }
  pose proof (month_number_bounds m) as Hb.
  set (Y := y + (m - 1) / 12). set (M := (m - 1) mod 12 + 1) in *.
  unfold month_range. f_equal.
  - destruct (first_day_fields Y M Hb) as (H1 & H2 & H3).
    apply formatLocalDate_fields; [exact Hc|..]; rewrite MakeDay_carry;
      fold Y; replace ((m - 1) mod 12) with (M - 1) by (unfold M; lia); assumption.
  - destruct (last_day_fields Y M Hb) as (H1 & H2 & H3).
    apply formatLocalDate_fields; [exact Hc|..]; rewrite MakeDay_end_carry;
      fold Y; fold M; assumption.
Qed.

Lemma selector_not_empty (y m : Z) : String.eqb (selector y m) "" = false.
Proof.
  unfold selector, dash. destruct (Z_to_string y) as [|c s].
  - rewrite append_empty, append_cons. reflexivity.
  - rewrite append_cons. reflexivity.
Qed.

Lemma split_dash_aux_plain (l cur : list ascii) :
  forallb (fun c => negb (eqc c 45)) l = true ->
  exists part, split_dash_aux l cur = [part].
Proof.
  revert cur. induction l as [|c l IH]; intros cur H.
  - eexists. reflexivity.
  - cbn [forallb] in H. apply andb_true_iff in H. destruct H as [Hc Hl].
    cbn [split_dash_aux]. apply negb_true_iff in Hc. rewrite Hc. apply IH. exact Hl.
Qed.

Lemma day_in_year_fields (leap k : Z) :
  leap = 0 \/ leap = 1 ->
  0 <= k < 365 + leap ->
  let mi := Z.of_nat (List.length (List.filter (fun s => s <=? k) (month_starts leap))) - 1 in
  let dd := k - month_start leap mi + 1 in
  (0 <=? mi) && (mi <=? 11) && (1 <=? dd)
  && (dd <=? (if mi + 1 =? 2 then 28 + leap
              else if (mi + 1 =? 4) || (mi + 1 =? 6) || (mi + 1 =? 9) || (mi + 1 =? 11)
                   then 30 else 31)) = true.
Proof.
  intros Hl Hk.
  pose (check := fun (leap : Z) (n : nat) =>
    let k := Z.of_nat n in
    let mi :=
      Z.of_nat (List.length (List.filter (fun s => s <=? k) (month_starts leap))) - 1 in
    let dd := k - month_start leap mi + 1 in
    (0 <=? mi) && (mi <=? 11) && (1 <=? dd)
    && (dd <=? (if mi + 1 =? 2 then 28 + leap
                else if (mi + 1 =? 4) || (mi + 1 =? 6) || (mi + 1 =? 9) || (mi + 1 =? 11)
                     then 30 else 31))).
  assert (H : forallb (check leap) (seq 0 (Z.to_nat (365 + leap))) = true)
    by (destruct Hl as [-> | ->]; vm_compute; reflexivity).
  rewrite List.forallb_forall in H. specialize (H (Z.to_nat k)).
  unfold check in H. rewrite Z2Nat.id in H by lia. apply H. apply in_seq. lia.
Qed.

(** Every day number lies in a month of its year. *)
Lemma day_fields (d : Z) :
  1 <= MonthFromDay d + 1 <= 12 /\
  1 <= DateFromDay d <= days_in_month (YearFromDay d) (MonthFromDay d + 1).
Proof.
  pose proof (YearFromDay_contains d) as Hc.
  set (y := YearFromDay d) in *.
  rewrite DayFromYear_next in Hc.
  assert (Hk : 0 <= d - DayFromYear y < 365 + InLeapYear y) by lia.
  clearbody y. clear Hc.
  replace d with (DayFromYear y + (d - DayFromYear y)) by lia.
  revert Hk. generalize (d - DayFromYear y). intros k Hk.
  rewrite (DateFromDay_at y k Hk), (MonthFromDay_at y k Hk).
  assert (Hl : InLeapYear y = 0 \/ InLeapYear y = 1)
    by (destruct (InLeapYear_cases y) as [[E _] | [E _]]; auto).
  pose proof (day_in_year_fields (InLeapYear y) k Hl Hk) as H. cbv zeta in H.
  assert (Ed : forall m, days_in_month y m
                         = if m =? 2 then 28 + InLeapYear y
                           else if (m =? 4) || (m =? 6) || (m =? 9) || (m =? 11)
                                then 30 else 31).
  { intros m. unfold days_in_month.
    destruct (InLeapYear_cases y) as [[E El] | [E El]]; rewrite E, El; reflexivity. }
  rewrite Ed.
  repeat (apply andb_true_iff in H; destruct H as [H ?]).
  repeat match goal with
         | X : (_ <=? _) = true |- _ => apply Z.leb_le in X
         end.
  lia.
Qed.

Lemma year_of_later_day (d : Z) : 0 <= d -> 1970 <= YearFromDay d.
Proof.
  intros H. pose proof (YearFromDay_contains d) as Hc.
  destruct (Z_lt_le_dec (YearFromDay d) 1970) as [Hlt|]; [exfalso | assumption].
  unfold DayFromYear in Hc. Z.div_mod_to_equations. lia.
Qed.

Lemma of_now_fields (tza now : Z) :
  0 <= now + tza ->
  of_now tza now = month_range (YearFromDay (local_day tza now))
                               (MonthFromDay (local_day tza now) + 1).
Proof.
  intros H. unfold of_now. cbv zeta. unfold getFullYear, getMonth. cbn [option_map].
  assert (Hd : 0 <= local_day tza now).
  { unfold local_day, msPerDay. Z.div_mod_to_equations. lia. }
  set (d := local_day tza now) in *.
  pose proof (year_of_later_day d Hd) as Hy.
  destruct (day_fields d) as [Hm _].
  set (y := YearFromDay d) in *. set (mi := MonthFromDay d) in *.
  assert (Hc : (0 <=? y) && (y <=? 99) = false).
  { apply andb_false_iff. right. apply Z.leb_gt. lia. }
  unfold month_range. f_equal.
  - destruct (first_day_fields y (mi + 1) Hm) as (H1 & H2 & H3).
    replace (mi + 1 - 1) with mi in * by lia.
    apply formatLocalDate_fields; try assumption. rewrite H2. lia.
  - destruct (last_day_fields y (mi + 1) Hm) as (H1 & H2 & H3).
    apply formatLocalDate_fields; assumption.
Qed.

(** X21. A selector without a dash has no month part: both dates are
    invalid and both boundaries read [NaN-NaN-NaN], in
    [fetchAttendanceStats] and, when the selector is not empty, in the
    hooks. *)
Theorem X21_selector_without_a_dash (tza now : Z) (s : string) :
  forallb (fun c => negb (eqc c 45)) (list_ascii_of_string s) = true ->
  of_selected tza s = ("NaN-NaN-NaN"%string, "NaN-NaN-NaN"%string)
  /\ (String.eqb s "" = false ->
      range tza now (Some s) = ("NaN-NaN-NaN"%string, "NaN-NaN-NaN"%string)).
Proof.
  intros Hd.
  assert (G : of_selected tza s = ("NaN-NaN-NaN"%string, "NaN-NaN-NaN"%string)).
  { unfold of_selected, year_month. cbv zeta.
    unfold split_dash. destruct (split_dash_aux_plain _ [] Hd) as [part ->].
    cbn [nth_error option_map].
    destruct (parseInt part); reflexivity. }
  split; [exact G|]. intros Hs. unfold range. rewrite Hs. exact G.
Qed.

Lemma X21_witness :
  forallb (fun c => negb (eqc c 45)) (list_ascii_of_string "2024") = true /\
  of_selected 0 "2024"%string = ("NaN-NaN-NaN"%string, "NaN-NaN-NaN"%string) /\
  range 0 0 (Some "2024"%string) = ("NaN-NaN-NaN"%string, "NaN-NaN-NaN"%string).
Proof.
  split; [reflexivity|].
  destruct (X21_selector_without_a_dash 0 0 "2024" eq_refl) as [H1 H2].
  split; [exact H1 | exact (H2 eq_refl)].
Defined.

(** X22. Without a selected month (none, or the empty text) the range
    is the first and the last day of the month in which the current
    local date falls (for a current local time from 1970 on). *)
Theorem X22_default_range_is_the_current_month (tza now : Z) :
  0 <= now + tza ->
  let d := local_day tza now in
  let y := YearFromDay d in
  let m := MonthFromDay d + 1 in
  range tza now None = month_range y m /\
  range tza now (Some ""%string) = month_range y m /\
  formatLocalDate tza (Some now) = iso y m (DateFromDay d) /\
  1 <= m <= 12 /\ 1 <= DateFromDay d <= days_in_month y m.
Proof.
  intros H d y m. pose proof (of_now_fields tza now H) as E.
  fold d in E. fold y in E. fold m in E.
  destruct (day_fields d) as [Hm Hd]. fold y in Hd. fold m in Hd.
  repeat split; try assumption; try lia.
  unfold formatLocalDate, getFullYear, getMonth, getDate. cbv zeta. cbn [option_map int_toString].
  fold d. fold y. fold m.
  unfold iso, selector, dash. rewrite !append_assoc. reflexivity.
Qed.

Lemma X22_witness :
  0 <= 1730592000000 + 19800000 /\
  range 19800000 1730592000000 None = ("2024-11-01"%string, "2024-11-30"%string) /\
  formatLocalDate 19800000 (Some 1730592000000) = "2024-11-03"%string.
Proof.
  split; [lia|].
  pose proof (X22_default_range_is_the_current_month 19800000 1730592000000 ltac:(lia)) as H.
  cbv zeta in H. destruct H as (H1 & _ & H3 & _).
  split; [exact H1 | exact H3].
Defined.

End MonthRanges.

Section MonthRangeLimits.
Import JS Calendar MonthRange TimeRange.

Lemma DayFromYear_bounds (y : Z) :
  900 <= y <= 10100 -> -400000 <= DayFromYear y <= 3000000.
Proof. intros H. unfold DayFromYear. Z.div_mod_to_equations. lia. Qed.

(** In four-digit years a date built from a year, a month and a day is
    far inside the range of time values. *)
Lemma clipped_new_Date (tza y mi dt Y : Z) :
  100 <= y ->
  YearFromDay (MakeDay y mi dt) = Y -> 900 <= Y <= 10099 ->
  - msPerDay <= tza <= msPerDay ->
  clipped (new_Date tza (Some y) (Some mi) (Some dt))
  = new_Date tza (Some y) (Some mi) (Some dt).
Proof.
  intros Hy HY Hb Ht. unfold new_Date.
  assert (Hc : (0 <=? y) && (y <=? 99) = false).
  { apply andb_false_iff. right. apply Z.leb_gt. lia. }
  rewrite Hc. unfold clipped, TimeClip.
  pose proof (YearFromDay_contains (MakeDay y mi dt)) as C. rewrite HY in C.
  pose proof (DayFromYear_bounds Y ltac:(lia)) as B1.
  pose proof (DayFromYear_bounds (Y + 1) ltac:(lia)) as B2.
  set (d := MakeDay y mi dt) in *. unfold msPerDay in *.
  assert (E : (Z.abs (d * 86400000 - tza) <=? 8640000000000000) = true)
    by (apply Z.leb_le; lia).
  rewrite E. reflexivity.
Qed.

Lemma month_dates_clipped (tza y m : Z) :
  1000 <= y <= 9999 -> 0 <= m <= 99 -> - msPerDay <= tza <= msPerDay ->
  clipped (new_Date tza (Some y) (Some (m - 1)) (Some 1))
  = new_Date tza (Some y) (Some (m - 1)) (Some 1)
  /\ clipped (new_Date tza (Some y) (Some m) (Some 0))
     = new_Date tza (Some y) (Some m) (Some 0).
Proof.
  intros Hy Hm Ht.
  pose proof (month_number_bounds m) as Hb.
  assert (HY : y - 1 <= y + (m - 1) / 12 <= y + 8) by (Z.div_mod_to_equations; lia).
  set (Y := y + (m - 1) / 12) in *. set (M := (m - 1) mod 12 + 1) in *.
  destruct (first_day_fields Y M Hb) as (F1 & _).
  destruct (last_day_fields Y M Hb) as (L1 & _).
  split.
  - apply (clipped_new_Date tza y (m - 1) 1 Y); [lia | | lia | exact Ht].
    rewrite MakeDay_carry. fold Y.
    replace ((m - 1) mod 12) with (M - 1) by (unfold M; lia). exact F1.
  - apply (clipped_new_Date tza y m 0 Y); [lia | | lia | exact Ht].
    rewrite MakeDay_end_carry. fold Y. fold M. exact L1.
Qed.

(** The first day of the year 275761 lies beyond the last time value. *)
Lemma beyond_the_range (tza : Z) :
  - msPerDay <= tza <= msPerDay ->
  clipped (new_Date tza (Some 275761) (Some 0) (Some 1)) = None.
Proof.
  intros H. unfold new_Date, clipped, TimeClip.
  replace (MakeDay (if (0 <=? 275761) && (275761 <=? 99) then 1900 + 275761 else 275761) 0 1)
    with (MakeDay 275761 0 1) by reflexivity.
  let v := eval vm_compute in (MakeDay 275761 0 1) in
  change (MakeDay 275761 0 1) with v.
  unfold msPerDay in *.
  match goal with
  | |- (if ?c then _ else _) = _ =>
      assert (C : c = false) by (apply Z.leb_gt; lia); rewrite C
  end.
  reflexivity.
Qed.

Lemma end_beyond_the_range (tza : Z) :
  - msPerDay <= tza <= msPerDay ->
  clipped (new_Date tza (Some 275761) (Some 12) (Some 0)) = None.
Proof.
  intros H. unfold new_Date, clipped, TimeClip.
  replace (MakeDay (if (0 <=? 275761) && (275761 <=? 99) then 1900 + 275761 else 275761) 12 0)
    with (MakeDay 275761 12 0) by reflexivity.
  let v := eval vm_compute in (MakeDay 275761 12 0) in
  change (MakeDay 275761 12 0) with v.
  unfold msPerDay in *.
  match goal with
  | |- (if ?c then _ else _) = _ =>
      assert (C : c = false) by (apply Z.leb_gt; lia); rewrite C
  end.
  reflexivity.
Qed.

(** X19. A selector [YYYY-MM] with a four-digit year and a month from
    01 to 12 gives the first and the last day of that month, leap
    years included, for every offset of local time from UTC up to a
    day (taken as constant): the dates the two hooks and
    [fetchAttendanceStats] put in their query.  Both dates are far
    inside the range of time values, so that clipping leaves them as
    they are; a date in the year 275761 would be clipped to an
    invalid one. *)
Theorem X19_selected_month_boundaries (tza now y m : Z) :
  1000 <= y <= 9999 -> 1 <= m <= 12 -> - msPerDay <= tza <= msPerDay ->
  range tza now (Some (selector y m)) = month_range y m
  /\ of_selected tza (selector y m) = month_range y m
  /\ clipped (new_Date tza (Some y) (Some (m - 1)) (Some 1))
     = new_Date tza (Some y) (Some (m - 1)) (Some 1)
  /\ clipped (new_Date tza (Some y) (Some m) (Some 0))
     = new_Date tza (Some y) (Some m) (Some 0)
  /\ clipped (new_Date tza (Some 275761) (Some 0) (Some 1)) = None.
Proof.
  intros Hy Hm Ht. unfold range. rewrite selector_not_empty.
  rewrite of_selected_selector by lia.
  replace ((m - 1) / 12) with 0 by (Z.div_mod_to_equations; lia).
  replace ((m - 1) mod 12 + 1) with m by (Z.div_mod_to_equations; lia).
  rewrite Z.add_0_r. split; [reflexivity|]. split; [reflexivity|].
  destruct (month_dates_clipped tza y m Hy ltac:(lia) Ht) as [C1 C2].
  split; [exact C1|]. split; [exact C2|]. apply beyond_the_range, Ht.
Qed.

Lemma X19_witness :
  1000 <= 2025 <= 9999 /\ 1 <= 7 <= 12 /\ - msPerDay <= 19800000 <= msPerDay /\
  range 19800000 0 (Some "2025-07"%string) = ("2025-07-01"%string, "2025-07-31"%string).
Proof.
  assert (H1 : 1000 <= 2025 <= 9999) by lia.
  assert (H2 : 1 <= 7 <= 12) by lia.
  assert (H3 : - msPerDay <= 19800000 <= msPerDay) by (unfold msPerDay; lia).
  split; [exact H1|]. split; [exact H2|]. split; [exact H3|].
  exact (proj1 (X19_selected_month_boundaries 19800000 0 2025 7 H1 H2 H3)).
Defined.

(** X20. The month number of a selector is not validated: month 00 is
    December of the year before, month 13 January of the year after,
    and in general a two-digit month [m] is carried into the year
    [y + (m - 1) / 12] (four-digit years, offsets of local time up to
    a day).  The dates stay inside the range of time values, which
    the year 275761 would leave. *)
Theorem X20_month_number_is_carried_into_the_year (tza now y : Z) :
  1000 <= y <= 9999 -> - msPerDay <= tza <= msPerDay ->
  (forall m, 0 <= m <= 99 ->
     range tza now (Some (selector y m))
     = month_range (y + (m - 1) / 12) ((m - 1) mod 12 + 1)
     /\ of_selected tza (selector y m)
        = month_range (y + (m - 1) / 12) ((m - 1) mod 12 + 1)
     /\ clipped (new_Date tza (Some y) (Some (m - 1)) (Some 1))
        = new_Date tza (Some y) (Some (m - 1)) (Some 1)
     /\ clipped (new_Date tza (Some y) (Some m) (Some 0))
        = new_Date tza (Some y) (Some m) (Some 0)) /\
  of_selected tza (selector y 0) = month_range (y - 1) 12 /\
  of_selected tza (selector y 13) = month_range (y + 1) 1 /\
  clipped (new_Date tza (Some 275761) (Some 12) (Some 0)) = None.
Proof.
  intros Hy Ht.
  assert (G : forall m, 0 <= m ->
                of_selected tza (selector y m)
                = month_range (y + (m - 1) / 12) ((m - 1) mod 12 + 1)).
  { intros m Hm. apply of_selected_selector; lia. }
  split; [|split; [|split]].
  - intros m Hm. unfold range. rewrite selector_not_empty.
    split; [apply G; lia|]. split; [apply G; lia|].
    apply month_dates_clipped; assumption.
  - rewrite (G 0) by lia. reflexivity.
  - rewrite (G 13) by lia. reflexivity.
  - apply end_beyond_the_range, Ht.
Qed.

Lemma X20_witness :
  1000 <= 2024 <= 9999 /\ - msPerDay <= 0 <= msPerDay /\
  of_selected 0 "2024-00"%string = ("2023-12-01"%string, "2023-12-31"%string) /\
  of_selected 0 "2024-13"%string = ("2025-01-01"%string, "2025-01-31"%string).
Proof.
  assert (H1 : 1000 <= 2024 <= 9999) by lia.
  assert (H3 : - msPerDay <= 0 <= msPerDay) by (unfold msPerDay; lia).
  split; [exact H1|]. split; [exact H3|].
  destruct (X20_month_number_is_carried_into_the_year 0 0 2024 H1 H3) as (_ & E0 & E13 & _).
  split; [exact E0 | exact E13].
Defined.

End MonthRangeLimits.
